(** * Evaluation-report uploader: a shallow embedding and its properties

    The development follows the three Python modules of the repository:
    - [file_main_processing.py]: the username extractor and the upload
      dispatcher;
    - [canvas_client.py]: [CanvasInteraction] (user lookup, folder
      resolution, two-phase upload) and [QuotaManager];
    - [configuration_settings.py]: the configuration values the two
      modules above read, and the semester name derived from the key of an
      archive.

    Python values are embedded as follows.  [str] is [string]; a file name is
    one path component and a path is the list of its components; [int] is
    [Z]; a [float] that is computed with is a binary64 number [Float.t], with
    the rounding and the overflow of the two operations the sources apply
    to it (a division by [1024 * 1024] and a subtraction), and it is handed
    on as the rational [Q] it stands for; [None] is [None] or a constructor
    of its own; a
    call that may raise returns [py A]; the mutable surroundings (the
    platform's folders, the local file system, the log and the requests sent)
    are threaded through the state monad [M]. *)

From Stdlib Require Import QArith Ascii String.
From stdpp Require Import gmap strings list.
Close Scope Q_scope.

Set Default Proof Using "Type".

(** ** Python results *)

Inductive exn :=
| TypeError
| KeyError
| ValueError
| OSError
| OverflowError
| ReError            (* re.error *)
| RequestException   (* requests.RequestException and its subclasses *)
| CanvasException    (* canvasapi.exceptions.CanvasException *)
| NotModelled.       (* the call left the modelled fragment; never caught *)

Inductive py (A : Type) :=
| Ret (a : A)
| Raise (e : exn).
Arguments Ret {A} a.
Arguments Raise {A} e.

(** ** Regular expressions: the fragment of [re] the sources use *)

Module Re.

Definition newline : ascii := "010"%char.

Definition in_range (lo hi c : ascii) : bool :=
  (N_of_ascii lo <=? N_of_ascii c)%N && (N_of_ascii c <=? N_of_ascii hi)%N.

(** [\w] on a [str] pattern: letters, digits and the underscore; above 127
    the code points that [str.isalnum] accepts in the Latin-1 block. *)
Definition is_word (c : ascii) : bool :=
  in_range "a" "z" c || in_range "A" "Z" c || in_range "0" "9" c
  || Ascii.eqb c "_"
  || existsb (N.eqb (N_of_ascii c)) [170; 178; 179; 181; 185; 186; 188; 189; 190]%N
  || ((192 <=? N_of_ascii c)%N && negb (N_of_ascii c =? 215)%N
      && negb (N_of_ascii c =? 247)%N).

Inductive atom :=
| AChar (c : ascii)                 (* a literal character *)
| AAny                              (* .  : anything but a line break *)
| ASet (rs : list (ascii * ascii))  (* [...] as a list of ranges *)
| AWord.                            (* \w *)

Definition atom_ok (a : atom) (c : ascii) : bool :=
  match a with
  | AChar x => Ascii.eqb c x
  | AAny => negb (Ascii.eqb c newline)
  | ASet rs => existsb (fun r => in_range (fst r) (snd r) c) rs
  | AWord => is_word c
  end.

Inductive item :=
| One (a : atom)
| Star (a : atom)      (* a* , greedy *)
| Plus (a : atom)      (* a+ , greedy *)
| GOpen                (* ( *)
| GClose               (* ) *)
| Eol.                 (* $ *)

Inductive compiled (A : Type) :=
| Compiled (r : A)
| Invalid              (* re.compile raises re.error *)
| Unsupported.         (* a construct outside the modelled fragment *)
Arguments Compiled {A} r.
Arguments Invalid {A}.
Arguments Unsupported {A}.

Definition push {A : Type} (f : list A -> list A) (c : compiled (list A))
  : compiled (list A) :=
  match c with
  | Compiled r => Compiled (f r)
  | Invalid => Invalid
  | Unsupported => Unsupported
  end.

Inductive token :=
| TAtom (a : atom) | TStar | TPlus | TOpen | TClose | TEol.

Definition is_meta (c : ascii) : bool :=
  existsb (Ascii.eqb c) ["?"; "{"; "|"; "^"]%char.

(** An escaped ASCII punctuation character stands for itself. *)
Definition is_punct (c : ascii) : bool :=
  ((N_of_ascii c <? 128)%N && negb (is_word c)
   && negb (N_of_ascii c <=? 32)%N && negb (N_of_ascii c =? 127)%N).

(** The lexer.  [cls] is [Some acc] while inside a bracket expression. *)
Fixpoint lex (cls : option (list (ascii * ascii))) (s : list ascii)
  : compiled (list token) :=
  match cls with
  | None =>
      match s with
      | [] => Compiled []
      | c :: s' =>
          if Ascii.eqb c "\" then
            match s' with
            | [] => Invalid
            | e :: s'' =>
                if Ascii.eqb e "w" then push (cons (TAtom AWord)) (lex None s'')
                else if is_punct e then push (cons (TAtom (AChar e))) (lex None s'')
                else Unsupported
            end
          else if Ascii.eqb c "[" then
            match s' with
            | [] => Invalid
            | e :: _ =>
                if Ascii.eqb e "^" || Ascii.eqb e "]" then Unsupported
                else lex (Some []) s'
            end
          else if Ascii.eqb c "(" then
            match s' with
            | e :: _ =>
                if Ascii.eqb e "?" then Unsupported
                else push (cons TOpen) (lex None s')
            | [] => push (cons TOpen) (lex None s')
            end
          else if Ascii.eqb c ")" then push (cons TClose) (lex None s')
          else if Ascii.eqb c "." then push (cons (TAtom AAny)) (lex None s')
          else if Ascii.eqb c "*" then push (cons TStar) (lex None s')
          else if Ascii.eqb c "+" then push (cons TPlus) (lex None s')
          else if Ascii.eqb c "$" then push (cons TEol) (lex None s')
          else if is_meta c then Unsupported
          else push (cons (TAtom (AChar c))) (lex None s')
      end
  | Some acc =>
      match s with
      | [] => Invalid
      | c :: s' =>
          if Ascii.eqb c "]" then
            push (cons (TAtom (ASet (rev acc)))) (lex None s')
          else if Ascii.eqb c "\" || Ascii.eqb c "[" then Unsupported
          else
            match s' with
            | d :: e :: s'' =>
                if Ascii.eqb d "-" && negb (Ascii.eqb e "]") then
                  if (N_of_ascii c <=? N_of_ascii e)%N
                  then lex (Some ((c, e) :: acc)) s''
                  else Invalid
                else lex (Some ((c, c) :: acc)) s'
            | _ => lex (Some ((c, c) :: acc)) s'
            end
      end
  end.

(** Quantifiers attach to the atom before them; parentheses must balance. *)
Fixpoint assemble (depth : nat) (ts : list token) : compiled (list item) :=
  match ts with
  | [] => if Nat.eqb depth 0 then Compiled [] else Invalid
  | TAtom a :: ts' =>
      match ts' with
      | TStar :: ts'' =>
          match ts'' with
          | TStar :: _ | TPlus :: _ => Unsupported
          | _ => push (cons (Star a)) (assemble depth ts'')
          end
      | TPlus :: ts'' =>
          match ts'' with
          | TStar :: _ | TPlus :: _ => Unsupported
          | _ => push (cons (Plus a)) (assemble depth ts'')
          end
      | _ => push (cons (One a)) (assemble depth ts')
      end
  | TStar :: _ | TPlus :: _ => Unsupported
  | TOpen :: ts' => push (cons GOpen) (assemble (S depth) ts')
  | TClose :: ts' =>
      match depth with
      | O => Invalid
      | S d => push (cons GClose) (assemble d ts')
      end
  | TEol :: ts' => push (cons Eol) (assemble depth ts')
  end.

Definition compile (pattern : string) : compiled (list item) :=
  match lex None (list_ascii_of_string pattern) with
  | Compiled ts => assemble 0 ts
  | Invalid => Invalid
  | Unsupported => Unsupported
  end.

(** The matcher.  A state is the input still to read and the positions
    (as remaining inputs) saved at the parentheses passed so far, most
    recent first.  [exec] lists every way to match, in the order in which a
    backtracking matcher tries them. *)
Record mstate := MState { rest : list ascii; marks : list (list ascii) }.

Definition with_rest (st : mstate) (s : list ascii) : mstate :=
  {| rest := s; marks := marks st |}.

Fixpoint star_tails (p : ascii -> bool) (s : list ascii) : list (list ascii) :=
  match s with
  | [] => [[]]
  | c :: s' => if p c then star_tails p s' ++ [s] else [s]
  end.

Definition step (i : item) (st : mstate) : list mstate :=
  match i with
  | One a =>
      match rest st with
      | c :: s' => if atom_ok a c then [with_rest st s'] else []
      | [] => []
      end
  | Star a => map (with_rest st) (star_tails (atom_ok a) (rest st))
  | Plus a =>
      match rest st with
      | c :: s' =>
          if atom_ok a c then map (with_rest st) (star_tails (atom_ok a) s')
          else []
      | [] => []
      end
  | GOpen | GClose => [ {| rest := rest st; marks := rest st :: marks st |} ]
  | Eol =>
      match rest st with
      | [] => [st]
      | [c] => if Ascii.eqb c newline then [st] else []
      | _ => []
      end
  end.

Fixpoint exec (r : list item) (st : mstate) : list mstate :=
  match r with
  | [] => [st]
  | i :: r' => flat_map (exec r') (step i st)
  end.

Definition match_at (r : list item) (s : list ascii) : option mstate :=
  head (exec r {| rest := s; marks := [] |}).

Fixpoint search_from (r : list item) (s : list ascii) : option mstate :=
  match match_at r s with
  | Some m => Some m
  | None =>
      match s with
      | [] => None
      | _ :: s' => search_from r s'
      end
  end.

(** [re.match(pattern, s)] and [re.search(pattern, s)]: the match object,
    [None] when there is no match. *)
Definition re_match (pattern s : string) : py (option mstate) :=
  match compile pattern with
  | Compiled r => Ret (match_at r (list_ascii_of_string s))
  | Invalid => Raise ReError
  | Unsupported => Raise NotModelled
  end.

Definition re_search (pattern s : string) : py (option mstate) :=
  match compile pattern with
  | Compiled r => Ret (search_from r (list_ascii_of_string s))
  | Invalid => Raise ReError
  | Unsupported => Raise NotModelled
  end.

(** [m.group(1)] for a pattern whose first group closes before another
    one opens. *)
Definition group1 (m : mstate) : py string :=
  match rev (marks m) with
  | o :: c :: _ => Ret (string_of_list_ascii (take (length o - length c) o))
  | _ => Raise ValueError
  end.

End Re.

(** ** The local file system

    A path is the list of its components, the root being [[]]; a file
    system maps the paths that exist to what is there.  Names are single
    components: [os.listdir] never returns a name with a separator in it. *)

Module Fs.

Inductive node :=
| File (size : Z)
| Dir.

Definition lookup_node (fs : gmap (list string) node) (p : list string)
  : option node :=
  match p with
  | [] => Some Dir
  | _ => fs !! p
  end.

(** [os.path.join(d, name)] and [os.path.basename(p)]. *)
Definition join (d : list string) (name : string) : list string := d ++ [name].

Definition basename (p : list string) : string := default EmptyString (last p).

Definition isdir (fs : gmap (list string) node) (p : list string) : bool :=
  match lookup_node fs p with
  | Some Dir => true
  | _ => false
  end.

Definition isfile (fs : gmap (list string) node) (p : list string) : bool :=
  match lookup_node fs p with
  | Some (File _) => true
  | _ => false
  end.

Definition exists_ (fs : gmap (list string) node) (p : list string) : bool :=
  match lookup_node fs p with
  | Some _ => true
  | None => false
  end.

(** [os.path.getsize]; the size of a directory entry is taken to be one
    block. *)
Definition getsize (fs : gmap (list string) node) (p : list string) : py Z :=
  match lookup_node fs p with
  | Some (File sz) => Ret sz
  | Some Dir => Ret 4096%Z
  | None => Raise OSError
  end.

Fixpoint child_of (d p : list string) : option string :=
  match d, p with
  | [], [n] => Some n
  | x :: d', y :: p' => if decide (x = y) then child_of d' p' else None
  | _, _ => None
  end.

(** [os.listdir(d)]: the names directly under [d], in no particular
    order. *)
Definition listdir (fs : gmap (list string) node) (d : list string)
  : py (list string) :=
  if isdir fs d
  then Ret (omap (fun kv => child_of d (fst kv)) (map_to_list fs))
  else Raise OSError.

(** The non-empty prefixes of a path, shortest first. *)
Fixpoint prefixes (p : list string) : list (list string) :=
  match p with
  | [] => []
  | x :: p' => [x] :: map (cons x) (prefixes p')
  end.

(** [os.makedirs(p, exist_ok=True)]: fails, changing nothing, when a regular
    file is in the way. *)
Definition makedirs (fs : gmap (list string) node) (p : list string)
  : py (gmap (list string) node) :=
  if existsb (isfile fs) (prefixes p) then Raise OSError
  else Ret (foldl (fun m q => <[q := Dir]> m) fs (prefixes p)).

Definition parent (p : list string) : list string := removelast p.

(** [shutil.move(src, dst)] for a regular file [src]: into [dst] when that
    is a directory, onto [dst] otherwise.  Moving a directory tree is not
    modelled. *)
Definition move (fs : gmap (list string) node) (src dst : list string)
  : py (gmap (list string) node) :=
  let real_dst := if isdir fs dst then join dst (basename src) else dst in
  if isdir fs dst && exists_ fs real_dst then Raise OSError
  else
    match lookup_node fs src with
    | None => Raise OSError
    | Some Dir => Raise NotModelled
    | Some (File sz) =>
        if isdir fs (parent real_dst)
        then Ret (<[real_dst := File sz]> (delete src fs))
        else Raise OSError
    end.

End Fs.

(** ** JSON bodies and the HTTP surface *)

#[warnings="-register-all"]
Inductive json :=
| JNull
| JBool (b : bool)
| JInt (n : Z)
| JFloat (q : Q)
| JStr (s : string)
| JArr (items : list json)
| JObj (members : list (string * json)).

(** The value bound to a key in a decoded object: the last binding wins. *)
Fixpoint dict_get (k : string) (members : list (string * json)) : option json :=
  match members with
  | [] => None
  | (k', v) :: members' =>
      match dict_get k members' with
      | Some v' => Some v'
      | None => if decide (k = k') then Some v else None
      end
  end.

(** [j[k]] for a string key [k]. *)
Definition subscript (j : json) (k : string) : py json :=
  match j with
  | JObj members =>
      match dict_get k members with
      | Some v => Ret v
      | None => Raise KeyError
      end
  | _ => Raise TypeError
  end.

(** [j[0]]. *)
Definition first_item (j : json) : py json :=
  match j with
  | JArr (x :: _) => Ret x
  | JArr [] => Raise NotModelled   (* IndexError; not reached: empty lists are falsy *)
  | JObj _ => Raise KeyError
  | JStr _ => Raise NotModelled
  | _ => Raise TypeError
  end.

Definition json_truthy (j : json) : bool :=
  match j with
  | JNull => false
  | JBool b => b
  | JInt n => negb (n =? 0)%Z
  | JFloat q => negb (Qeq_bool q 0)
  | JStr s => negb (String.eqb s EmptyString)
  | JArr l => match l with [] => false | _ => true end
  | JObj l => match l with [] => false | _ => true end
  end.

Definition is_list (j : json) : bool :=
  match j with JArr _ => true | _ => false end.

Definition MB : Q := inject_Z (1024 * 1024).

(** A decoded value as a number: [int], [float], and [bool] as the [int] it
    is. *)
Definition as_number (j : json) : option Q :=
  match j with
  | JInt n => Some (inject_Z n)
  | JFloat q => Some q
  | JBool b => Some (inject_Z (if b then 1 else 0))
  | _ => None
  end.

(** ** Python floats

    A [float] is a binary64 number.  A finite one is kept as a pair of
    integers, standing for [mant * 2 ^ expo]; the infinities and NaN are
    outside the model. *)

Module Float.

Record t := Make { mant : Z; expo : Z }.

(** The rational a float stands for. *)
Definition to_Q (x : t) : Q :=
  if (0 <=? expo x)%Z then inject_Z (mant x * 2 ^ expo x)
  else Qmake (mant x) (Z.to_pos (2 ^ (- expo x))).

(** [m / 2 ^ s] rounded to the nearest integer, a tie to the even one. *)
Definition shift_round (m s : Z) : Z :=
  let d := (2 ^ s)%Z in
  let q := (m / d)%Z in
  let r := (m mod d)%Z in
  if (2 * r <? d)%Z then q
  else if (d <? 2 * r)%Z then (q + 1)%Z
  else if Z.even q then q else (q + 1)%Z.

(** Rounding to binary64, to the nearest and a tie to even: at most 53
    significant bits, and no bit below [2 ^ -1074]; [None] when the rounded
    magnitude reaches [2 ^ 1024]. *)
Definition round (x : t) : option t :=
  let s := Z.max (Z.log2 (Z.abs (mant x)) - 52) (- 1074 - expo x) in
  let y :=
    if (0 <? s)%Z then {| mant := shift_round (mant x) s; expo := (expo x + s)%Z |}
    else x in
  if (0 <=? expo y)%Z && (2 ^ 1024 <=? Z.abs (mant y) * 2 ^ expo y)%Z then None
  else Some y.

(** The float of a decoded JSON number with a fraction or an exponent:
    [None] when the rational is not a binary64 number. *)
Definition of_Q (q : Q) : option t :=
  let r := Qred q in
  let d := Z.pos (Qden r) in
  if (2 ^ Z.log2 d =? d)%Z then
    match round {| mant := Qnum r; expo := (- Z.log2 d)%Z |} with
    | Some y => if Qeq_bool (to_Q y) q then Some y else None
    | None => None
    end
  else None.

(** [n / (1024 * 1024)] for an [int] [n]: the correctly rounded quotient,
    and [OverflowError] when it is too large for a float. *)
Definition int_div_mb (n : Z) : py t :=
  match round {| mant := n; expo := (- 20)%Z |} with
  | Some y => Ret y
  | None => Raise OverflowError
  end.

(** [x / (1024 * 1024)] for a [float] [x]. *)
Definition float_div_mb (x : t) : py t :=
  match round {| mant := mant x; expo := (expo x - 20)%Z |} with
  | Some y => Ret y
  | None => Raise NotModelled   (* not reached from a binary64 number *)
  end.

(** [a - b]: the difference, rounded; a difference that rounds to an
    infinity is outside the model. *)
Definition sub (a b : t) : py t :=
  let e := Z.min (expo a) (expo b) in
  match round {| mant := (mant a * 2 ^ (expo a - e) - mant b * 2 ^ (expo b - e))%Z;
                 expo := e |} with
  | Some y => Ret y
  | None => Raise NotModelled
  end.

End Float.

(** [x / (1024 * 1024)]: an [int] (or a [bool], which is one) is divided as
    an integer, a [float] as a float, anything else raises [TypeError]. *)
Definition div_mb (j : json) : py Float.t :=
  match j with
  | JInt n => Float.int_div_mb n
  | JBool b => Float.int_div_mb (if b then 1 else 0)
  | JFloat q =>
      match Float.of_Q q with
      | Some x => Float.float_div_mb x
      | None => Raise NotModelled
      end
  | _ => Raise TypeError
  end.

Record response := Response {
  status_code : Z;
  body : option json   (* [None]: the body is not JSON *)
}.

Definition ok2xx (code : Z) : bool := (200 <=? code)%Z && (code <? 300)%Z.

(** [response.json()]; the decoding error of [requests] is one of its
    [RequestException]s. *)
Definition response_json (r : response) : py json :=
  match body r with
  | Some j => Ret j
  | None => Raise RequestException
  end.

(** What [get_or_create_folder] hands back: the fetched folder object, the
    id reached by the walk, or [None]. *)
Record folder := Folder {
  id_of : Z;
  name_of : string;
  parent_of : Z + Z   (* [inl user]: under that user's root; [inr id]: under that folder *)
}.

Inductive folder_result :=
| RFolder (f : folder)
| RId (id : Z)
| RNone.

Inductive request :=
| GetUsers (search_term : string)
    (* GET {base_url}/api/v1/accounts/self/users?search_term={username} *)
| PostTicket (folder : folder_result) (name : string) (size : Z)
             (content_type : string) (as_user_id : option Z)
    (* POST {base_url}/api/v1/folders/{folder_id}/files *)
| PostFile (upload_url upload_params : json) (file_name : string)
           (file_path : list string)
    (* POST upload_url with the file attached *)
| GetQuota (user_id : option Z).
    (* GET {base_url}/api/v1/users/{user_id}/files/quota *)

Inductive canvas_call :=
| CGetUser (user_id : option Z)
| CGetFolder (id : Z)
| CListUserFolders (user : Z)
| CListSubfolders (id : Z)
| CCreateUserFolder (user : Z) (name : string)
| CCreateSubfolder (id : Z) (name : string).

Inductive log_line :=
| UserNotFound (username : string)
| UserFetchFailed (username : string) (code : Z)
| UserBadFormat (username : string)
| UserFetchError (username : string)
| FolderError (folder_path : string) (user_id : option Z)
| UploadFileMissing (file_path : list string)
| UploadAttempt (file_name : string) (folder : folder_result)
| UploadInitFailed (file_name : string)
| UploadFailed (file_name : string)
| UploadError (file_name : string) (folder : folder_result)
| QuotaParseError (user_id : option Z)
| QuotaFetchFailed (user_id : option Z) (code : Z)
| NoSubfolder (user_id : option Z)
| UploadFailedFor (file_name user_name : string)
| QuotaUnavailable (user_name : string)
| Moved (file dest_path : list string)
| OperationsError (e : exn).

Inductive event :=
| Sent (r : request)
| Called (c : canvas_call)
| Logged (l : log_line).

(** ** The platform's folders

    The folder service is reached through the [canvasapi] objects, which
    are not among the sources; section 4.2 of the specification says what
    the client relies on: listing gives the child folders of a folder, or of
    the user's root, and creating adds one child. *)

Module Lms.

(** Modelled from the spec: the state of the folder service, as the known
    user ids, the folders in the order in which listings return them, and
    the next free folder id. *)
Record t := Make {
  users : list Z;
  folders : list folder;
  next_id : Z
}.

(** Modelled from the spec: [Canvas.get_user(user_id)], which refuses
    [None] and fails on an unknown id. *)
Definition get_user (s : t) (user_id : option Z) : py Z :=
  match user_id with
  | None => Raise TypeError
  | Some u => if bool_decide (u ∈ users s) then Ret u else Raise CanvasException
  end.

(** Modelled from the spec: [Canvas.get_folder(id)], which fails on an
    unknown id. *)
Definition get_folder (s : t) (id : Z) : py folder :=
  match find (fun f => (id_of f =? id)%Z) (folders s) with
  | Some f => Ret f
  | None => Raise CanvasException
  end.

(** Modelled from the spec: [get_folders()], the child folders of the
    user's root ([inl user]) or of a folder ([inr id]). *)
Definition children (s : t) (parent : Z + Z) : list folder :=
  filter (fun f => parent_of f = parent) (folders s).

(** Modelled from the spec: [create_folder(name)], which adds one child
    under a fresh id. *)
Definition create (s : t) (parent : Z + Z) (name : string) : folder * t :=
  let f := {| id_of := next_id s; name_of := name; parent_of := parent |} in
  (f, {| users := users s; folders := folders s ++ [f]; next_id := (next_id s + 1)%Z |}).

End Lms.

(** ** configuration_settings.py: the values the other modules read *)

Record config := Config {
  EVAL_REPORTS_PATH : string;
  USER_SEMESTER_FOLDER_PATH : string;
  EXCEEDED_STORAGE_DIR_PATH : list string;
  TOTAL_QUOTA_MB : option Q     (* [float(TOTAL_QUOTA_MB)]; [None]: not a number *)
}.

(** ** The state threaded through the client and the dispatcher *)

Record world := World {
  net : request -> py response;     (* how the platform answers a request *)
  cfg : config;
  lms : Lms.t;
  fs : gmap (list string) Fs.node;
  trace : list event                (* oldest first *)
}.

Definition M (A : Type) : Type := world -> py A * world.

Definition ret {A} (a : A) : M A := fun w => (Ret a, w).

Definition raise {A} (e : exn) : M A := fun w => (Raise e, w).

Definition bind {A B} (m : M A) (k : A -> M B) : M B :=
  fun w =>
    match m w with
    | (Ret a, w') => k a w'
    | (Raise e, w') => (Raise e, w')
    end.

Notation "'let*' x ':=' m 'in' k" := (bind m (fun x => k))
  (at level 10, x name, m at level 100, k at level 200, only parsing).
Notation "m ;;; k" := (bind m (fun _ => k))
  (at level 100, right associativity, only parsing).

Definition lift {A} (r : py A) : M A := fun w => (r, w).

(** [try: m  except <catches>: handler]; what left the model is never
    caught. *)
Definition try_except {A} (catches : exn -> bool) (m : M A) (handler : exn -> M A)
  : M A :=
  fun w =>
    match m w with
    | (Raise e, w') =>
        match e with
        | NotModelled => (Raise e, w')
        | _ => if catches e then handler e w' else (Raise e, w')
        end
    | r => r
    end.

Definition any_exception (e : exn) : bool := true.
Definition only (e0 e : exn) : bool :=
  match e0, e with
  | KeyError, KeyError => true
  | RequestException, RequestException => true
  | _, _ => false
  end.

Definition record (e : event) (w : world) : world :=
  {| net := net w; cfg := cfg w; lms := lms w; fs := fs w; trace := trace w ++ [e] |}.

Definition with_lms (s : Lms.t) (w : world) : world :=
  {| net := net w; cfg := cfg w; lms := s; fs := fs w; trace := trace w |}.

Definition with_fs (f : gmap (list string) Fs.node) (w : world) : world :=
  {| net := net w; cfg := cfg w; lms := lms w; fs := f; trace := trace w |}.

Definition emit (e : event) : M unit := fun w => (Ret tt, record e w).

Definition log (l : log_line) : M unit := emit (Logged l).

Definition get_world : M world := fun w => (Ret w, w).

Definition put_lms (s : Lms.t) : M unit := fun w => (Ret tt, with_lms s w).

Definition put_fs (f : gmap (list string) Fs.node) : M unit :=
  fun w => (Ret tt, with_fs f w).

(** [requests.get] / [requests.post]. *)
Definition send (r : request) : M response :=
  emit (Sent r) ;;; let* w := get_world in lift (net w r).

Fixpoint for_each {A} (l : list A) (body : A -> M unit) : M unit :=
  match l with
  | [] => ret tt
  | x :: l' => body x ;;; for_each l' body
  end.

Definition truthy_id (id : option Z) : bool :=
  match id with
  | Some n => negb (n =? 0)%Z
  | None => false
  end.

Definition truthy_folder (r : folder_result) : bool :=
  match r with
  | RFolder _ => true
  | RId n => negb (n =? 0)%Z
  | RNone => false
  end.

(** ** canvas_client.py *)

Module Canvas.

(** The [canvasapi] calls, each recorded in the trace. *)
Definition canvas_get_user (user_id : option Z) : M Z :=
  emit (Called (CGetUser user_id)) ;;;
  let* w := get_world in lift (Lms.get_user (lms w) user_id).

Definition canvas_get_folder (id : Z) : M folder :=
  emit (Called (CGetFolder id)) ;;;
  let* w := get_world in lift (Lms.get_folder (lms w) id).

Definition user_get_folders (user : Z) : M (list folder) :=
  emit (Called (CListUserFolders user)) ;;;
  let* w := get_world in ret (Lms.children (lms w) (inl user)).

Definition folder_get_folders (f : folder) : M (list folder) :=
  emit (Called (CListSubfolders (id_of f))) ;;;
  let* w := get_world in ret (Lms.children (lms w) (inr (id_of f))).

Definition user_create_folder (user : Z) (name : string) : M folder :=
  emit (Called (CCreateUserFolder user name)) ;;;
  let* w := get_world in
  let fs' := Lms.create (lms w) (inl user) name in
  put_lms (snd fs') ;;; ret (fst fs').

Definition folder_create_folder (f : folder) (name : string) : M folder :=
  emit (Called (CCreateSubfolder (id_of f) name)) ;;;
  let* w := get_world in
  let fs' := Lms.create (lms w) (inr (id_of f)) name in
  put_lms (snd fs') ;;; ret (fst fs').

(** The id found under the key ['id'] as a Python value: an [int], or
    [None] for a JSON null.  The platform's ids are integers; any other
    value leaves the model. *)
Definition id_value (j : json) : py (option Z) :=
  match j with
  | JInt n => Ret (Some n)
  | JNull => Ret None
  | _ => Raise NotModelled
  end.

(** [CanvasInteraction.get_user_id(username)] *)
Definition get_user_id (username : string) : M (option Z) :=
  try_except (only RequestException)
    (let* response := send (GetUsers username) in
     if negb (ok2xx (status_code response)) then
       if (status_code response =? 404)%Z
       then log (UserNotFound username) ;;; ret None
       else log (UserFetchFailed username (status_code response)) ;;; ret None
     else
       let* user_data := lift (response_json response) in
       if negb (json_truthy user_data) || negb (is_list user_data)
       then log (UserBadFormat username) ;;; ret None
       else
         let* first := lift (first_item user_data) in
         let* id := lift (subscript first "id") in
         lift (id_value id))
    (fun _ => log (UserFetchError username) ;;; ret None).

(** [str.split('/')] *)
Fixpoint split_slash (acc : string) (s : string) : list string :=
  match s with
  | EmptyString => [acc]
  | String c s' =>
      if Ascii.eqb c "/" then acc :: split_slash EmptyString s'
      else split_slash (acc +:+ String c EmptyString) s'
  end.

(** The loop [for folder_name in folders] with its variable
    [current_folder_id]. *)
Fixpoint walk (user : Z) (folders : list string) (current_folder_id : option Z)
  : M (option Z) :=
  match folders with
  | [] => ret current_folder_id
  | folder_name :: rest =>
      let* folders_list :=
        if truthy_id current_folder_id
        then let* f := canvas_get_folder (default 0%Z current_folder_id) in
             folder_get_folders f
        else user_get_folders user in
      let found := find (fun f => String.eqb (name_of f) folder_name) folders_list in
      let* found_folder :=
        match found with
        | Some f => ret f
        | None =>
            if truthy_id current_folder_id
            then let* f := canvas_get_folder (default 0%Z current_folder_id) in
                 folder_create_folder f folder_name
            else user_create_folder user folder_name
        end in
      walk user rest (Some (id_of found_folder))
  end.

(** [CanvasInteraction.get_or_create_folder(user_id, folder_path, folder_id=None)] *)
Definition get_or_create_folder (user_id : option Z) (folder_path : string)
    (folder_id : option Z) : M folder_result :=
  try_except any_exception
    (if truthy_id folder_id then
       let* f := canvas_get_folder (default 0%Z folder_id) in ret (RFolder f)
     else
       let* user := canvas_get_user user_id in
       let folders := split_slash EmptyString folder_path in
       let* current_folder_id := walk user folders None in
       ret (match current_folder_id with Some id => RId id | None => RNone end))
    (fun _ => log (FolderError folder_path user_id) ;;; ret RNone).

(** [open(file_path, 'rb')] *)
Definition open_rb (file_path : list string) : M unit :=
  let* w := get_world in
  if Fs.isfile (fs w) file_path then ret tt else raise OSError.

(** [CanvasInteraction.upload_file(folder_id, file_name, file_path,
    content_type, user_id)]: the status code, [None] for a bare [return]
    or [return None]. *)
Definition upload_file (folder_id : folder_result) (file_name : string)
    (file_path : list string) (content_type : string) (user_id : option Z)
  : M (option Z) :=
  try_except any_exception
    (let* w := get_world in
     if negb (Fs.exists_ (fs w) file_path) then
       log (UploadFileMissing file_path) ;;; ret None
     else
       log (UploadAttempt file_name folder_id) ;;;
       let* size := lift (Fs.getsize (fs w) file_path) in
       let as_user_id := if truthy_id user_id then user_id else None in
       let* response := send (PostTicket folder_id file_name size content_type as_user_id) in
       if negb (ok2xx (status_code response)) then
         log (UploadInitFailed file_name) ;;; ret (Some (status_code response))
       else
         let* upload_data := lift (response_json response) in
         let* upload_url := lift (subscript upload_data "upload_url") in
         let* upload_params := lift (subscript upload_data "upload_params") in
         open_rb file_path ;;;
         let* response := send (PostFile upload_url upload_params file_name file_path) in
         (if negb (ok2xx (status_code response))
          then log (UploadFailed file_name) else ret tt) ;;;
         ret (Some (status_code response)))
    (fun _ => log (UploadError file_name folder_id) ;;; ret None).

(** [QuotaManager(user_id, canvas_api)]: the constructor converts
    [TOTAL_QUOTA_MB] to a float. *)
Definition QuotaManager (user_id : option Z) : M (option Z) :=
  let* w := get_world in
  match TOTAL_QUOTA_MB (cfg w) with
  | Some _ => ret user_id
  | None => raise ValueError
  end.

(** [QuotaManager.get_remaining_space()]; the float returned is given as
    the rational it stands for. *)
Definition get_remaining_space (self_user_id : option Z) : M (option Q) :=
  let* response := send (GetQuota self_user_id) in
  if ok2xx (status_code response) then
    try_except (only KeyError)
      (let* j := lift (response_json response) in
       let* quota_bytes := lift (subscript j "quota") in
       let* j' := lift (response_json response) in
       let* used_storage_bytes := lift (subscript j' "quota_used") in
       let* total_quota_mb := lift (div_mb quota_bytes) in
       let* used_storage_mb := lift (div_mb used_storage_bytes) in
       let* remaining_storage_mb := lift (Float.sub total_quota_mb used_storage_mb) in
       ret (Some (Float.to_Q remaining_storage_mb)))
      (fun _ => log (QuotaParseError self_user_id) ;;; ret None)
  else
    log (QuotaFetchFailed self_user_id (status_code response)) ;;; ret None.

End Canvas.

(** ** file_main_processing.py *)

Module Main.

Definition accept_re : string := ".*_[a-zA-Z0-9()-]+\.\w+$".
Definition username_re : string := "_([a-zA-Z0-9()-]+)\.\w+$".

(** The body of the loop over [all_files]: [Some username] when one is added
    to the set, [None] when the file is passed over.  [re.match] stands
    outside the [try]; what is raised inside it is caught and the file is
    skipped. *)
Definition username_of_file (source_file : string) : py (option string) :=
  match Re.re_match accept_re source_file with
  | Raise e => Raise e
  | Ret None => Ret None
  | Ret (Some _) =>
      match Re.re_search username_re source_file with
      | Raise NotModelled => Raise NotModelled
      | Raise _ => Ret None
      | Ret None => Ret None
      | Ret (Some m) =>
          match Re.group1 m with
          | Ret username => Ret (Some username)
          | Raise NotModelled => Raise NotModelled
          | Raise _ => Ret None
          end
      end
  end.

Fixpoint collect_usernames (all_files : list string) (usernames_set : gset string)
  : py (gset string) :=
  match all_files with
  | [] => Ret usernames_set
  | source_file :: files =>
      match username_of_file source_file with
      | Raise e => Raise e
      | Ret None => collect_usernames files usernames_set
      | Ret (Some username) => collect_usernames files ({[ username ]} ∪ usernames_set)
      end
  end.

(** [extract_unique_usernames_from_files(semester_folder)]; the log lines
    are left out.  [elements] lists the set in an order of its own, as
    [list(usernames_set)] does. *)
Definition extract_unique_usernames_from_files
    (fs : gmap (list string) Fs.node) (semester_folder : list string)
  : py (list string) :=
  match Fs.listdir fs semester_folder with
  | Raise e => Raise e
  | Ret all_entries =>
      let all_files :=
        filter (fun f => Fs.isfile fs (Fs.join semester_folder f) = true) all_entries in
      match collect_usernames all_files ∅ with
      | Raise e => Raise e
      | Ret usernames_set => Ret (elements usernames_set)
      end
  end.

(** [os.path.splitext(name)[-1]] for a name without separator: the text
    from the last dot on, unless only dots come before it. *)
Fixpoint rsplit (c : ascii) (s : string) : option (string * string) :=
  match s with
  | EmptyString => None
  | String x s' =>
      match rsplit c s' with
      | Some (a, b) => Some (String x a, b)
      | None => if Ascii.eqb x c then Some (EmptyString, s') else None
      end
  end.

Definition splitext_ext (name : string) : string :=
  match rsplit "." name with
  | Some (stem, e) =>
      if forallb (fun x => Ascii.eqb x ".") (list_ascii_of_string stem)
      then EmptyString
      else String "." e
  | None => EmptyString
  end.

(** The mapping [content_types]. *)
Definition content_types (extension : string) : option string :=
  if String.eqb extension ".pdf" then Some "application/pdf"%string else None.

(** The list comprehension building [user_files_with_sizes]: the condition
    is evaluated before the pair, name by name.  The size in megabytes
    is read by nothing afterwards; it is kept as the exact quotient, the
    division being one that returns on the size of a file. *)
Fixpoint select_files (semester_folder : list string) (user_name : string)
    (names : list string) : M (list (list string * Q)) :=
  match names with
  | [] => ret []
  | file :: names' =>
      let* m := lift (Re.re_search (user_name +:+ ".pdf") file) in
      match m with
      | Some _ =>
          let* w := get_world in
          let* size := lift (Fs.getsize (fs w) (Fs.join semester_folder file)) in
          let* others := select_files semester_folder user_name names' in
          ret ((Fs.join semester_folder file, (inject_Z size / MB)%Q) :: others)
      | None => select_files semester_folder user_name names'
      end
  end.

(** [200 <= response_code < 300]: comparing [None] with an [int] raises. *)
Definition in_success_range (response_code : option Z) : py bool :=
  match response_code with
  | Some code => Ret (ok2xx code)
  | None => Raise TypeError
  end.

(** The [try] block entered after a failed upload. *)
Definition quarantine (user_name : string) (user_id : option Z) (file : list string)
  : M unit :=
  try_except any_exception
    (let* quota_manager := Canvas.QuotaManager user_id in
     let* remaining_space_mb := Canvas.get_remaining_space quota_manager in
     (match remaining_space_mb with
      | None => log (QuotaUnavailable user_name)
      | Some r => if Qlt_le_dec r 0 then log (QuotaUnavailable user_name) else ret tt
      end) ;;;
     let* w := get_world in
     let specific_path := EXCEEDED_STORAGE_DIR_PATH (cfg w) in
     let exceeded_storage_dir :=
       Fs.join specific_path ("file_storage_exceeded_" +:+ user_name) in
     let* fs1 := lift (Fs.makedirs (fs w) exceeded_storage_dir) in
     put_fs fs1 ;;;
     let dest_path := Fs.join exceeded_storage_dir (Fs.basename file) in
     let* fs2 := lift (Fs.move fs1 file dest_path) in
     put_fs fs2 ;;;
     log (Moved file dest_path))
    (fun _ => log (QuotaUnavailable user_name)).

(** The body of [for file, size in user_files_with_sizes]. *)
Definition process_file (user_name : string) (user_id : option Z)
    (sub_folder_id : folder_result) (entry : list string * Q) : M unit :=
  let file := fst entry in
  let file_name := Fs.basename file in
  let content_type :=
    default "application/octet-stream"%string (content_types (splitext_ext file_name)) in
  let* response_code :=
    Canvas.upload_file sub_folder_id file_name file content_type user_id in
  let* ok := lift (in_success_range response_code) in
  if negb ok then
    log (UploadFailedFor file_name user_name) ;;;
    quarantine user_name user_id file
  else ret tt.

(** The body of [for user_name in usernames]. *)
Definition process_user (semester_folder : list string) (user_name : string) : M unit :=
  let* user_id := Canvas.get_user_id user_name in
  let* w := get_world in
  let folder_path := EVAL_REPORTS_PATH (cfg w) in
  let sub_folder_path := USER_SEMESTER_FOLDER_PATH (cfg w) in
  let* sub_folder_id :=
    Canvas.get_or_create_folder user_id (folder_path +:+ "/" +:+ sub_folder_path) None in
  if negb (truthy_folder sub_folder_id) then
    log (NoSubfolder user_id)
  else
    let* w := get_world in
    let* names := lift (Fs.listdir (fs w) semester_folder) in
    let* user_files_with_sizes := select_files semester_folder user_name names in
    for_each user_files_with_sizes (process_file user_name user_id sub_folder_id).

(** [upload_user_files_to_canvas_based_on_quota(semester_folder,
    canvas_client, usernames)] *)
Definition upload_user_files_to_canvas_based_on_quota
    (semester_folder : list string) (usernames : list string) : M unit :=
  try_except any_exception
    (for_each usernames (process_user semester_folder))
    (fun e => log (OperationsError e)).

(** [separate_users_based_on_quota(usernames_set, canvas_client)]: the two
    lists are created empty and nothing is ever appended to them.  The log
    line of the handler is left out. *)
Fixpoint separate_users_loop (usernames_set : list string) : M unit :=
  match usernames_set with
  | [] => ret tt
  | user_name :: others =>
      try_except any_exception
        (let* user_id := Canvas.get_user_id user_name in
         if negb (truthy_id user_id) then ret tt else ret tt)
        (fun _ => ret tt) ;;;
      separate_users_loop others
  end.

Definition separate_users_based_on_quota (usernames_set : list string)
  : M (list string * list string) :=
  let users_within_quota := [] in
  let users_exceeding_quota := [] in
  separate_users_loop usernames_set ;;;
  ret (users_within_quota, users_exceeding_quota).

(** [process_all_files(semester_folder, userfile, canvas_client)].  File
    contents are not part of the file system here, so what reading the
    roster gives is an argument: its rows as [login_id.lower()] and
    [user_id], or the exception raised on the way ([FileNotFoundError],
    [csv.Error], [KeyError] for a missing column).  The handler logs and
    raises again, so every exception reaches the caller; the log lines are
    left out. *)
Definition process_all_files (roster : py (list (string * string)))
    (semester_folder : list string) : M unit :=
  match roster with
  | Raise e => raise e
  | Ret user_data =>
      let* w := get_world in
      let* usernames :=
        lift (extract_unique_usernames_from_files (fs w) semester_folder) in
      upload_user_files_to_canvas_based_on_quota semester_folder usernames
  end.

End Main.

(** ** configuration_settings.py: the semester name of an archive *)

Module Settings.

(** [str.split(sep)] for a separator of one character. *)
Fixpoint split (sep : ascii) (acc : string) (s : string) : list string :=
  match s with
  | EmptyString => [acc]
  | String c s' =>
      if Ascii.eqb c sep then acc :: split sep EmptyString s'
      else split sep (acc +:+ String c EmptyString) s'
  end.

(** [sep.join(parts)] *)
Fixpoint join (sep : string) (parts : list string) : string :=
  match parts with
  | [] => EmptyString
  | [p] => p
  | p :: others => p +:+ sep +:+ join sep others
  end.

(** The slice [parts[1:-1]]. *)
Definition slice_1_m1 {A : Type} (parts : list A) : list A := removelast (tail parts).

(** The part of [download_and_extract_semester_from_zip] that derives the
    semester name from the key of the archive:
    [filename = zip_file['Key'].split('/')[-1]], [parts = filename.split('_')],
    [semester_name = "_".join(parts[1:-1]) if len(parts) >= 3 else None]. *)
Definition semester_name (key : string) : option string :=
  let filename := default EmptyString (last (split "/" EmptyString key)) in
  let parts := split "_" EmptyString filename in
  if (3 <=? length parts)%nat then Some (join "_" (slice_1_m1 parts)) else None.

End Settings.

(** * Specification-side notions and worked configurations *)

Section Notions.
Import Re.

(** ** The extractor's two patterns, compiled *)

Definition ident_set : atom :=
  ASet [("a", "z"); ("A", "Z"); ("0", "9"); ("(", "("); (")", ")"); ("-", "-")]%char.
Definition accept_items : list item :=
  [Star AAny; One (AChar "_"); Plus ident_set; One (AChar "."); Plus AWord; Eol].
Definition username_items : list item :=
  [One (AChar "_"); GOpen; Plus ident_set; GClose; One (AChar "."); Plus AWord; Eol].

(** ** The file-name pattern in the specification's words

    [<anything>_<identifier>.<extension>]: the identifier is a non-empty run
    of alphanumerics, hyphens and parentheses, the extension a non-empty run
    of word characters. *)

Definition is_alnum (c : ascii) : bool :=
  in_range "a" "z" c || in_range "A" "Z" c || in_range "0" "9" c.
Definition is_ident_char (c : ascii) : bool :=
  is_alnum c || Ascii.eqb c "-" || Ascii.eqb c "(" || Ascii.eqb c ")".

Definition all_chars (p : ascii -> bool) (s : string) : bool :=
  forallb p (list_ascii_of_string s).



(** The text between the last underscore of the stem and the extension's
    dot: the stem is what comes before the last dot of the name. *)
Definition token_after_last_underscore (file_name : string) : option string :=
  match Main.rsplit "." file_name with
  | Some (stem, _) =>
      match Main.rsplit "_" stem with
      | Some (_, token) => Some token
      | None => None
      end
  | None => None
  end.

(** How the matcher sees an accepted name: what [.*] took, the underscore,
    the identifier, the dot, the extension and, after [$], nothing or one
    final line break. *)
Definition name_shape (s pre id ext tail : list ascii) : Prop :=
  s = pre ++ "_"%char :: id ++ "."%char :: ext ++ tail
  /\ id <> [] /\ forallb is_ident_char id = true
  /\ ext <> [] /\ forallb is_word ext = true
  /\ (tail = [] \/ tail = [newline]).

End Notions.

(** ** Observing a run *)

(** The calls of [requests.get] and [requests.post] recorded in a trace,
    oldest first; what goes through [canvasapi] is under [calls_made]. *)
Definition requests_sent (tr : list event) : list request :=
  omap (fun e => match e with Sent r => Some r | _ => None end) tr.

(** The [canvasapi] calls recorded in a trace, oldest first. *)
Definition calls_made (tr : list event) : list canvas_call :=
  omap (fun e => match e with Called c => Some c | _ => None end) tr.

(** The decoded body is an object without ["quota"] or without
    ["quota_used"]. *)
Definition lacks_quota_field (r : response) : Prop :=
  exists members, body r = Some (JObj members)
    /\ (dict_get "quota" members = None \/ dict_get "quota_used" members = None).

(** The folder a walk currently stands in exists on the platform. *)
Definition cur_ok (s : Lms.t) (cur : option Z) : Prop :=
  truthy_id cur = true -> exists f, Lms.get_folder s (default 0%Z cur) = Ret f.

(** Everything but the platform's folders and the trace is unchanged. *)
Definition same_env (w w' : world) : Prop :=
  net w' = net w /\ cfg w' = cfg w /\ fs w' = fs w
  /\ Lms.users (lms w') = Lms.users (lms w).

(** No two folders under one parent carry the same name. *)
Definition distinct_siblings (l : list folder) : Prop :=
  forall i j f g, l !! i = Some f -> l !! j = Some g ->
    parent_of f = parent_of g -> name_of f = name_of g -> i = j.

(** [os.path.join(EXCEEDED_STORAGE_DIR_PATH, f'file_storage_exceeded_{user_name}')] *)
Definition holding_dir (c : config) (user_name : string) : list string :=
  Fs.join (EXCEEDED_STORAGE_DIR_PATH c) ("file_storage_exceeded_" +:+ user_name).

(** What the [try] block after a failed upload leaves behind once the quota
    query has returned: a function of the configuration and the file system
    alone. *)
Definition settled (c : config) (m : gmap (list string) Fs.node)
    (user_name : string) (file : list string) : py unit * gmap (list string) Fs.node :=
  match TOTAL_QUOTA_MB c with
  | None => (Ret tt, m)
  | Some _ =>
      match Fs.makedirs m (holding_dir c user_name) with
      | Raise _ => (Ret tt, m)
      | Ret m1 =>
          match Fs.move m1 file (Fs.join (holding_dir c user_name) (Fs.basename file)) with
          | Ret m2 => (Ret tt, m2)
          | Raise NotModelled => (Raise NotModelled, m1)
          | Raise _ => (Ret tt, m1)
          end
      end
  end.

(** ** Frames, traces and answers *)

Section RunNotions.
Import Re Canvas.
Local Open Scope list_scope.

(** A computation leaves an observation of the world as it found it. *)
Definition keeps {X A : Type} (f : world -> X) (m : M A) : Prop :=
  forall w, f (snd (m w)) = f w.

(** An observation that logging and sending do not touch. *)
Definition trace_blind {X : Type} (f : world -> X) : Prop :=
  forall e w, f (record e w) = f w.

(** An observation that creating a folder does not touch. *)
Definition create_blind {X : Type} (f : world -> X) : Prop :=
  forall w parent name, f (with_lms (snd (Lms.create (lms w) parent name)) w) = f w.

(** A computation only adds events, all of them of one kind. *)
Definition only_adds {A : Type} (P : event -> Prop) (m : M A) : Prop :=
  forall w, exists evs, trace (snd (m w)) = trace w ++ evs /\ Forall P evs.

(** An event other than a call of [requests.get] or [requests.post]. *)
Definition not_sent (e : event) : Prop :=
  match e with Sent _ => False | _ => True end.

(** A user search is only made for one of the given names. *)
Definition searches_within (names : list string) (e : event) : Prop :=
  match e with
  | Sent (GetUsers u) => u ∈ names
  | _ => True
  end.

(** The answers on which [get_user_id] gives up: a transport failure, a
    status outside 200..299, a body that is not JSON, or a body that is not
    a non-empty list. *)
Definition lookup_fails (answer : py response) : Prop :=
  match answer with
  | Raise e => e = RequestException
  | Ret r =>
      ok2xx (status_code r) = false
      \/ body r = None
      \/ exists j, body r = Some j /\ (json_truthy j = false \/ is_list j = false)
  end.

(** No answer of the platform is outside the modelled fragment. *)
Definition modelled_net (w : world) : Prop :=
  forall r, net w r <> Raise NotModelled.

(** The answers to a quota request on which [get_remaining_space] raises
    [e] instead of returning: the request fails, the body is not JSON or
    not an object, or ["quota"] is not a number, or it is one that divides
    and ["quota_used"] is not a number. *)
Definition quota_answer_raises (answer : py response) (e : exn) : Prop :=
  match answer with
  | Raise e' => e = e'
  | Ret r =>
      ok2xx (status_code r) = true
      /\ ((body r = None /\ e = RequestException)
          \/ (exists j, body r = Some j /\ (forall members, j <> JObj members)
                        /\ e = TypeError)
          \/ (exists members qj uj, body r = Some (JObj members)
                /\ dict_get "quota" members = Some qj
                /\ dict_get "quota_used" members = Some uj
                /\ (as_number qj = None
                    \/ (as_number uj = None /\ exists x, div_mb qj = Ret x))
                /\ e = TypeError))
  end.

(** A granted ticket that cannot be used: its body is not JSON or lacks
    one of the two keys. *)
Definition ticket_unusable (t : response) : Prop :=
  body t = None
  \/ exists j, body t = Some j
       /\ ((exists e, subscript j "upload_url" = Raise e)
           \/ (exists e, subscript j "upload_params" = Raise e)).

(** The names of a path followed from a parent through the folders of the
    platform, taking at each level the first child of that name. *)
Fixpoint follow (s : Lms.t) (parent : Z + Z) (segments : list string) : option (Z + Z) :=
  match segments with
  | [] => Some parent
  | name :: others =>
      match find (fun f => String.eqb (name_of f) name) (Lms.children s parent) with
      | Some f => follow s (inr (id_of f)) others
      | None => None
      end
  end.

(** The platform hands out positive folder ids. *)
Definition positive_ids (s : Lms.t) : Prop :=
  Forall (fun f => (0 < id_of f)%Z) (Lms.folders s) /\ (0 < Lms.next_id s)%Z.

(** Where a walk stands: in the user's root, or in a folder. *)
Definition place (user : Z) (current_folder_id : option Z) : Z + Z :=
  match current_folder_id with
  | Some id => inr id
  | None => inl user
  end.

(** The arguments with which the dispatcher calls [upload_file] for an
    entry of [user_files_with_sizes]. *)
Definition upload_of (user_id : option Z) (sub_folder_id : folder_result)
    (entry : list string * Q) : M (option Z) :=
  upload_file sub_folder_id (Fs.basename (fst entry)) (fst entry)
    (default "application/octet-stream"%string
       (Main.content_types (Main.splitext_ext (Fs.basename (fst entry)))))
    user_id.

(** An alphanumeric character or a hyphen: an identifier character that
    stands for itself in a pattern. *)
Definition is_plain_char (c : ascii) : bool := is_alnum c || Ascii.eqb c "-".

(** The name contains the identifier, then one character that is not a line
    break, then [pdf]. *)
Definition names_recipient (file user_name : string) : Prop :=
  exists (before : string) (c : ascii) (after : string),
    file = before +:+ user_name +:+ String c ("pdf" +:+ after) /\ c <> newline.

(** The character does not occur in the string. *)
Definition free_of (sep : ascii) (s : string) : Prop :=
  forallb (fun x => negb (Ascii.eqb x sep)) (list_ascii_of_string s) = true.

End RunNotions.

(** ** Worked configurations

    One platform user, [alice] with id 7, owning a folder [Evaluations]
    with id 42; the staging directory is [sem]. *)

Section Configurations.
Local Open Scope string_scope.

Definition users_found (id : Z) : response :=
  {| status_code := 200; body := Some (JArr [JObj [("id", JInt id)]]) |}.
Definition ticket_granted : response :=
  {| status_code := 200;
     body := Some (JObj [("upload_url", JStr "https://upload"); ("upload_params", JObj [])]) |}.
Definition bare (code : Z) : response := {| status_code := code; body := None |}.
Definition quota_body (quota used : Z) : response :=
  {| status_code := 200; body := Some (JObj [("quota", JInt quota); ("quota_used", JInt used)]) |}.

(** [alice] is user 7 and nobody else is known; uploads succeed; the quota
    is overdrawn. *)
Definition net_ok (r : request) : py response :=
  match r with
  | GetUsers u => if String.eqb u "alice" then Ret (users_found 7) else Ret (bare 404)
  | PostTicket _ _ _ _ _ => Ret ticket_granted
  | PostFile _ _ _ _ => Ret (bare 201)
  | GetQuota _ => Ret (quota_body 100 200)
  end.

(** The ticket request is refused: storage exhausted. *)
Definition net_full (r : request) : py response :=
  match r with
  | PostTicket _ _ _ _ _ => Ret (bare 507)
  | _ => net_ok r
  end.

(** The ticket request does not get through. *)
Definition net_down (r : request) : py response :=
  match r with
  | PostTicket _ _ _ _ _ => Raise RequestException
  | _ => net_ok r
  end.

(** The ticket request is refused and the quota request does not get
    through. *)
Definition net_full_quota_down (r : request) : py response :=
  match r with
  | GetQuota _ => Raise RequestException
  | _ => net_full r
  end.

(** The ticket request is refused and the quota request is answered with
    a server error. *)
Definition net_full_quota_500 (r : request) : py response :=
  match r with
  | GetQuota _ => Ret (bare 500)
  | _ => net_full r
  end.

(** Everybody searched for is user 7. *)
Definition net_all_known (r : request) : py response :=
  match r with
  | GetUsers _ => Ret (users_found 7)
  | _ => net_ok r
  end.

Definition cfg_ex : config :=
  {| EVAL_REPORTS_PATH := "Evaluations"; USER_SEMESTER_FOLDER_PATH := "Fall";
     EXCEEDED_STORAGE_DIR_PATH := ["exceeded"]; TOTAL_QUOTA_MB := Some 50%Q |}.

Definition lms_ex : Lms.t :=
  {| Lms.users := [7%Z];
     Lms.folders := [ {| id_of := 42; name_of := "Evaluations"; parent_of := inl 7%Z |} ];
     Lms.next_id := 43 |}.

Definition staging (names : list string) : gmap (list string) Fs.node :=
  list_to_map ((["sem"], Fs.Dir) :: map (fun n => (["sem"; n], Fs.File 10%Z)) names).

Definition world_ex (n : request -> py response) (names : list string) : world :=
  {| net := n; cfg := cfg_ex; lms := lms_ex; fs := staging names; trace := [] |}.

Definition alice_file : list string := ["sem"; "report_alice.pdf"].
Definition alice_held : list string :=
  ["exceeded"; "file_storage_exceeded_alice"; "report_alice.pdf"].

Definition staging_mixed : gmap (list string) Fs.node :=
  <[ ["sem"; "old_carol.pdf"] := Fs.Dir ]>
    (staging ["report_alice.pdf"; "grades_alice.txt"; "notes.txt"; "x_a_b.pdf"]).


(** The platform of [net_ok] with another answer to every user search, to
    every quota request, to every ticket request. *)
Definition net_search (answer : py response) (r : request) : py response :=
  match r with
  | GetUsers _ => answer
  | _ => net_ok r
  end.

Definition net_quota (answer : py response) (r : request) : py response :=
  match r with
  | GetQuota _ => answer
  | _ => net_ok r
  end.

Definition net_ticket (answer : py response) (r : request) : py response :=
  match r with
  | PostTicket _ _ _ _ _ => answer
  | _ => net_ok r
  end.

(** Two users match the search. *)
Definition two_matches : response :=
  {| status_code := 200;
     body := Some (JArr [JObj [("id", JInt 7)]; JObj [("id", JInt 8)]]) |}.

(** The search is answered with names instead of user objects. *)
Definition names_only : response :=
  {| status_code := 200; body := Some (JArr [JStr "alice"]) |}.

(** The quota is given in words. *)
Definition quota_in_words : response :=
  {| status_code := 200;
     body := Some (JObj [("quota", JStr "plenty"); ("quota_used", JInt 1)]) |}.

(** [TOTAL_QUOTA_MB] is not a number. *)
Definition world_without_total_quota : world :=
  {| net := net_full;
     cfg := {| EVAL_REPORTS_PATH := "Evaluations"; USER_SEMESTER_FOLDER_PATH := "Fall";
               EXCEEDED_STORAGE_DIR_PATH := ["exceeded"]; TOTAL_QUOTA_MB := None |};
     lms := lms_ex; fs := staging ["report_alice.pdf"]; trace := [] |}.

End Configurations.

(** * Properties *)

(** Unfolds the monad and the [canvasapi] wrappers. *)
Ltac run_m :=
  cbv beta iota delta
    [try_except bind send log emit get_world put_fs put_lms lift ret raise
     Canvas.canvas_get_user Canvas.canvas_get_folder Canvas.user_get_folders
     Canvas.folder_get_folders Canvas.user_create_folder
     Canvas.folder_create_folder Canvas.open_rb];
  cbn [fst snd net cfg lms fs trace record with_lms with_fs].

(** ** The matcher *)

Module ReFacts.
Import Re.

Lemma star_tails_spec p s t :
  In t (star_tails p s) <-> exists pre, s = pre ++ t /\ forallb p pre = true.
Proof.
  induction s as [|a s IH]; simpl.
  - split.
    + intros [<-|[]]. by exists [].
    + intros (pre & H & _). symmetry in H. apply app_eq_nil in H as [_ ->]. by left.
  - destruct (p a) eqn:E.
    + rewrite in_app_iff, IH. split.
      * intros [(pre & -> & Hp) | [<- | []]].
        -- exists (a :: pre). simpl. by rewrite E, Hp.
        -- by exists [].
      * intros ([|x pre] & Heq & Hp); simpl in *.
        -- right. left. done.
        -- injection Heq as -> ->. left. exists pre. split; [done|].
           by apply andb_true_iff in Hp as [_ ?].
    + split.
      * intros [<-|[]]. by exists [].
      * intros ([|x pre] & Heq & Hp); simpl in *.
        -- by left.
        -- injection Heq as -> ->. rewrite E in Hp. done.
Qed.

Lemma exec_nil m st : In m (exec [] st) <-> m = st.
Proof. simpl. split; [by intros [->|[]] | intros ->; by left]. Qed.

Lemma exec_One a r m st :
  In m (exec (One a :: r) st) <->
  exists c s', rest st = c :: s' /\ atom_ok a c = true /\ In m (exec r (with_rest st s')).
Proof.
  simpl. rewrite in_flat_map. split.
  - intros (x & Hx & Hm). destruct (rest st) as [|c s'] eqn:E; [done|].
    destruct (atom_ok a c) eqn:Ea; [|done]. destruct Hx as [<-|[]]. eauto.
  - intros (c & s' & -> & -> & Hm). exists (with_rest st s'). split; [by left|done].
Qed.

Lemma exec_Star a r m st :
  In m (exec (Star a :: r) st) <->
  exists pre s', rest st = pre ++ s' /\ forallb (atom_ok a) pre = true
                 /\ In m (exec r (with_rest st s')).
Proof.
  simpl. rewrite in_flat_map. split.
  - intros (x & Hx & Hm). apply in_map_iff in Hx as (t & <- & Ht).
    apply star_tails_spec in Ht as (pre & ? & ?). eauto.
  - intros (pre & s' & E & Hp & Hm). exists (with_rest st s'). split; [|done].
    apply in_map, star_tails_spec. eauto.
Qed.

Lemma exec_Plus a r m st :
  In m (exec (Plus a :: r) st) <->
  exists c pre s', rest st = c :: pre ++ s' /\ forallb (atom_ok a) (c :: pre) = true
                 /\ In m (exec r (with_rest st s')).
Proof.
  simpl. rewrite in_flat_map. split.
  - intros (x & Hx & Hm). destruct (rest st) as [|c s0] eqn:E; [done|].
    destruct (atom_ok a c) eqn:Ea; [|done].
    apply in_map_iff in Hx as (t & <- & Ht).
    apply star_tails_spec in Ht as (pre & -> & ?). exists c, pre, t. by rewrite Ea.
  - intros (c & pre & s' & -> & Hp & Hm). apply andb_true_iff in Hp as [-> Hp].
    exists (with_rest st s'). split; [|done].
    apply in_map, star_tails_spec. eauto.
Qed.

Lemma exec_GOpen r m st :
  In m (exec (GOpen :: r) st) <->
  In m (exec r {| rest := rest st; marks := rest st :: marks st |}).
Proof. simpl. rewrite app_nil_r. done. Qed.

Lemma exec_GClose r m st :
  In m (exec (GClose :: r) st) <->
  In m (exec r {| rest := rest st; marks := rest st :: marks st |}).
Proof. simpl. rewrite app_nil_r. done. Qed.

Lemma exec_Eol r m st :
  In m (exec (Eol :: r) st) <->
  (rest st = [] \/ rest st = [newline]) /\ In m (exec r st).
Proof.
  simpl. rewrite in_flat_map. split.
  - intros (x & Hx & Hm). destruct (rest st) as [|c [|d s']] eqn:E; [| |done].
    + destruct Hx as [<-|[]]. auto.
    + destruct (Ascii.eqb c newline) eqn:Ec; [|done].
      apply Ascii.eqb_eq in Ec as ->. destruct Hx as [<-|[]]. auto.
  - intros ([E|E] & Hm); exists st; rewrite E; simpl; auto.
Qed.

Lemma head_is_Some_In {A} (l : list A) : is_Some (head l) <-> exists x, In x l.
Proof. destruct l; simpl; split; intros []; eauto; done. Qed.

Lemma head_Some_In {A} (l : list A) x : head l = Some x -> In x l.
Proof. destruct l; simpl; [done|]. intros [= ->]. by left. Qed.

Lemma search_from_Some r s m :
  search_from r s = Some m -> exists pre s', s = pre ++ s' /\ match_at r s' = Some m.
Proof.
  induction s as [|c s IH]; simpl.
  - destruct (match_at r []) eqn:E; [|done]. intros [= ->]. by exists [], [].
  - destruct (match_at r (c :: s)) eqn:E.
    + intros [= ->]. by exists [], (c :: s).
    + intros (pre & s' & -> & ?)%IH. by exists (c :: pre), s'.
Qed.

Lemma search_from_complete r pre s' :
  is_Some (match_at r s') -> is_Some (search_from r (pre ++ s')).
Proof.
  intros Hm. induction pre as [|c pre IH]; simpl.
  - destruct s'; simpl; destruct Hm as [m ->]; eauto.
  - destruct (match_at r (c :: pre ++ s')); eauto.
Qed.

Local Arguments exec : simpl never.

Lemma compile_accept : compile Main.accept_re = Compiled accept_items.
Proof. reflexivity. Qed.
Lemma compile_username : compile Main.username_re = Compiled username_items.
Proof. reflexivity. Qed.

Lemma ident_set_ok c : atom_ok ident_set c = is_ident_char c.
Proof. destruct c as [[] [] [] [] [] [] [] []]; reflexivity. Qed.

Lemma forallb_ident_set l : forallb (atom_ok ident_set) l = forallb is_ident_char l.
Proof. induction l as [|c l IH]; [done|]. cbn [forallb]. by rewrite ident_set_ok, IH. Qed.

Lemma username_In m s mk :
  In m (exec username_items {| rest := s; marks := mk |}) <->
  exists id ext tail, name_shape s [] id ext tail
    /\ m = {| rest := tail; marks := ("."%char :: ext ++ tail) :: (id ++ "."%char :: ext ++ tail) :: mk |}.
Proof.
  unfold username_items, name_shape. rewrite exec_One. split.
  - intros (c & s1 & Hs & Hc & H). simpl in *. apply Ascii.eqb_eq in Hc as ->. subst s.
    apply exec_GOpen, exec_Plus in H as (c & pre & s2 & Hs & Hp & H). simpl in *. subst s1.
    apply exec_GClose, exec_One in H as (d & s3 & Hs & Hd & H). simpl in *. subst s2.
    apply Ascii.eqb_eq in Hd as ->.
    apply exec_Plus in H as (e & ext & s4 & Hs & He & H). simpl in *. subst s3.
    apply exec_Eol in H as [Ht H]. apply exec_nil in H. simpl in *. subst m.
    exists (c :: pre), (e :: ext), s4. rewrite <- forallb_ident_set. simpl. done.
  - intros (id & ext & tail & (-> & Hid & Hidc & Hext & Hextc & Ht) & ->).
    destruct id as [|c pre]; [done|]. destruct ext as [|e ext]; [done|].
    exists "_"%char, ((c :: pre) ++ "."%char :: (e :: ext) ++ tail). split; [done|]. split; [done|].
    apply exec_GOpen, exec_Plus. exists c, pre, ("."%char :: (e :: ext) ++ tail).
    split; [done|]. split; [by rewrite forallb_ident_set|].
    apply exec_GClose, exec_One. exists "."%char, ((e :: ext) ++ tail). split; [done|]. split; [done|].
    apply exec_Plus. exists e, ext, tail. split; [done|]. split; [done|].
    apply exec_Eol. split; [done|]. by apply exec_nil.
Qed.

Lemma accept_In m s mk :
  In m (exec accept_items {| rest := s; marks := mk |}) <->
  exists pre id ext tail, name_shape s pre id ext tail
    /\ forallb (atom_ok AAny) pre = true /\ m = {| rest := tail; marks := mk |}.
Proof.
  unfold accept_items, name_shape. rewrite exec_Star. split.
  - intros (p0 & s0 & Hs & Hp0 & H). simpl in *. subst s.
    apply exec_One in H as (c & s1 & Hs & Hc & H). simpl in *. apply Ascii.eqb_eq in Hc as ->. subst s0.
    apply exec_Plus in H as (c & pre & s2 & Hs & Hp & H). simpl in *. subst s1.
    apply exec_One in H as (d & s3 & Hs & Hd & H). simpl in *. subst s2.
    apply Ascii.eqb_eq in Hd as ->.
    apply exec_Plus in H as (e & ext & s4 & Hs & He & H). simpl in *. subst s3.
    apply exec_Eol in H as [Ht H]. apply exec_nil in H. simpl in *. subst m.
    exists p0, (c :: pre), (e :: ext), s4. rewrite <- forallb_ident_set. simpl. done.
  - intros (p0 & id & ext & tail & (-> & Hid & Hidc & Hext & Hextc & Ht) & Hp0 & ->).
    destruct id as [|c pre]; [done|]. destruct ext as [|e ext]; [done|].
    exists p0, ("_"%char :: (c :: pre) ++ "."%char :: (e :: ext) ++ tail).
    split; [done|]. split; [done|].
    apply exec_One. exists "_"%char, ((c :: pre) ++ "."%char :: (e :: ext) ++ tail). split; [done|]. split; [done|].
    apply exec_Plus. exists c, pre, ("."%char :: (e :: ext) ++ tail).
    split; [done|]. split; [by rewrite forallb_ident_set|].
    apply exec_One. exists "."%char, ((e :: ext) ++ tail). split; [done|]. split; [done|].
    apply exec_Plus. exists e, ext, tail. split; [done|]. split; [done|].
    apply exec_Eol. split; [done|]. by apply exec_nil.
Qed.

Lemma run_split_unique (p : ascii -> bool) a a' x x' r r' :
  forallb p a = true -> forallb p a' = true -> p x = false -> p x' = false ->
  a ++ x :: r = a' ++ x' :: r' -> a = a' /\ x = x' /\ r = r'.
Proof.
  revert a'. induction a as [|c a IH]; intros [|c' a'] Ha Ha' Hx Hx' E; simpl in *.
  - by injection E as -> ->.
  - injection E as E1 E2. subst x. apply andb_true_iff in Ha' as [? _]. congruence.
  - injection E as E1 E2. subst x'. apply andb_true_iff in Ha as [? _]. congruence.
  - injection E as E1 E. subst c'.
    apply andb_true_iff in Ha as [_ Ha]. apply andb_true_iff in Ha' as [_ Ha'].
    destruct (IH a' Ha Ha' Hx Hx' E) as (-> & -> & ->). done.
Qed.

Lemma name_shape_unique s pre id ext tail pre' id' ext' tail' :
  name_shape s pre id ext tail -> name_shape s pre' id' ext' tail' ->
  pre = pre' /\ id = id' /\ ext ++ tail = ext' ++ tail'.
Proof.
  intros (-> & _ & Hid & _ & Hext & Ht) (E & _ & Hid' & _ & Hext' & Ht').
  apply (f_equal (@rev ascii)) in E.
  rewrite !rev_app_distr in E. simpl in E. rewrite !rev_app_distr in E. simpl in E.
  rewrite !rev_app_distr in E. rewrite <- !app_assoc in E. simpl in E.
  rewrite !app_assoc in E.
  pose (p1 := fun c => is_word c || Ascii.eqb c newline).
  assert (Hrun : forall e t, forallb is_word e = true -> (t = [] \/ t = [newline]) ->
                     forallb p1 (rev t ++ rev e) = true).
  { intros e t He Htl. rewrite forallb_app. apply andb_true_iff. split.
    - destruct Htl as [->| ->]; reflexivity.
    - rewrite forallb_forall in *. intros c Hc. apply in_rev in Hc. unfold p1. by rewrite He. }
  rewrite <- !app_assoc in E. simpl in E.
  rewrite !(app_assoc (rev _) (rev _) ("."%char :: _)) in E.
  apply (run_split_unique p1) in E as (E1 & _ & E2); [| by apply Hrun | by apply Hrun | done | done].
  assert (Hr : forall l, forallb is_ident_char l = true -> forallb is_ident_char (rev l) = true).
  { intros l. rewrite !forallb_forall. intros H c Hc. apply H. by apply in_rev. }
  apply (run_split_unique is_ident_char) in E2 as (E2 & _ & E3); [| by apply Hr | by apply Hr | done | done].
  apply (f_equal (@rev ascii)) in E1, E2, E3.
  rewrite !rev_app_distr, !rev_involutive in E1. rewrite !rev_involutive in E2, E3. done.
Qed.

End ReFacts.

(** ** The username extractor *)

Module ExtractorFacts.
Import Re ReFacts.

Lemma chars_app a b :
  list_ascii_of_string (a +:+ b) = list_ascii_of_string a ++ list_ascii_of_string b.
Proof. induction a as [|c a IH]; simpl; [done|]. by rewrite IH. Qed.

Lemma chars_inj a b : list_ascii_of_string a = list_ascii_of_string b -> a = b.
Proof.
  intros H. rewrite <- (string_of_list_ascii_of_string a), <- (string_of_list_ascii_of_string b).
  by rewrite H.
Qed.

Lemma chars_of_list l : list_ascii_of_string (string_of_list_ascii l) = l.
Proof. apply list_ascii_of_string_of_list_ascii. Qed.

Lemma username_of_file_found f pre id ext tail :
  name_shape (list_ascii_of_string f) pre id ext tail ->
  forallb (atom_ok AAny) pre = true ->
  Main.username_of_file f = Ret (Some (string_of_list_ascii id)).
Proof.
  intros Hs Hp. unfold Main.username_of_file, re_match, re_search.
  rewrite compile_accept, compile_username.
  assert (Ha : is_Some (match_at accept_items (list_ascii_of_string f))).
  { apply head_is_Some_In. eexists. apply accept_In. exists pre, id, ext, tail. eauto. }
  destruct Ha as [m0 ->].
  assert (Hu : is_Some (search_from username_items (list_ascii_of_string f))).
  { destruct Hs as (E & Hs). rewrite E. apply search_from_complete, head_is_Some_In.
    eexists. apply username_In. exists id, ext, tail. split; [|done]. by split. }
  destruct Hu as [m Hm]. rewrite Hm.
  apply search_from_Some in Hm as (p' & s' & E & Hm).
  apply head_Some_In, username_In in Hm as (id' & ext' & tail' & (Es' & Hs') & ->).
  assert (Hs2 : name_shape (list_ascii_of_string f) p' id' ext' tail').
  { split; [|done]. by rewrite E, Es'. }
  destruct (name_shape_unique _ _ _ _ _ _ _ _ _ Hs Hs2) as (_ & <- & _).
  unfold group1. simpl. rewrite length_app. simpl.
  replace (length id + S (length (ext' ++ tail')) - S (length (ext' ++ tail'))) with (length id) by lia.
  by rewrite take_app_length.
Qed.

Lemma username_of_file_none f :
  (forall pre id ext tail, name_shape (list_ascii_of_string f) pre id ext tail ->
      forallb (atom_ok AAny) pre = true -> False) ->
  Main.username_of_file f = Ret None.
Proof.
  intros Hno. unfold Main.username_of_file, re_match. rewrite compile_accept.
  destruct (match_at accept_items (list_ascii_of_string f)) as [m0|] eqn:E; [|done].
  apply head_Some_In, accept_In in E as (pre & id & ext & tail & Hs & Hp & _).
  destruct (Hno _ _ _ _ Hs Hp).
Qed.

Lemma username_of_file_cases f :
  (exists pre id ext tail, name_shape (list_ascii_of_string f) pre id ext tail
      /\ forallb (atom_ok AAny) pre = true
      /\ Main.username_of_file f = Ret (Some (string_of_list_ascii id)))
  \/ ((forall pre id ext tail, name_shape (list_ascii_of_string f) pre id ext tail ->
         forallb (atom_ok AAny) pre = true -> False)
      /\ Main.username_of_file f = Ret None).
Proof.
  destruct (match_at accept_items (list_ascii_of_string f)) as [m0|] eqn:E.
  - apply head_Some_In, accept_In in E as (pre & id & ext & tail & Hs & Hp & _).
    left. exists pre, id, ext, tail. eauto using username_of_file_found.
  - right. assert (Hno : forall pre id ext tail, name_shape (list_ascii_of_string f) pre id ext tail ->
         forallb (atom_ok AAny) pre = true -> False).
    { intros pre id ext tail Hs Hp.
      assert (Ha : is_Some (match_at accept_items (list_ascii_of_string f))).
      { apply head_is_Some_In. eexists. apply accept_In. exists pre, id, ext, tail. eauto. }
      rewrite E in Ha. by destruct Ha. }
    split; [done|]. by apply username_of_file_none.
Qed.

Lemma forallb_app_iff {A} (p : A -> bool) l1 l2 :
  forallb p (l1 ++ l2) = true <-> forallb p l1 = true /\ forallb p l2 = true.
Proof. rewrite forallb_app. apply andb_true_iff. Qed.


Lemma username_of_file_total f : exists o, Main.username_of_file f = Ret o.
Proof.
  destruct (username_of_file_cases f) as [(pre & i & ext & tail & _ & _ & E) | [_ E]]; eauto.
Qed.

Lemma collect_usernames_spec files acc :
  exists out, Main.collect_usernames files acc = Ret out
    /\ forall id, id ∈ out <-> id ∈ acc \/ exists f, f ∈ files /\ Main.username_of_file f = Ret (Some id).
Proof.
  revert acc. induction files as [|f files IH]; intros acc; simpl.
  - exists acc. split; [done|]. intros id. split; [by left|].
    intros [?|(f & Hf & _)]; [done|]. by apply elem_of_nil in Hf.
  - destruct (username_of_file_total f) as [[u|] E]; rewrite E.
    + destruct (IH ({[u]} ∪ acc)) as (out & -> & Hout). exists out. split; [done|].
      intros id. rewrite Hout. split.
      * intros [[->%elem_of_singleton|?]%elem_of_union|(g & Hg & Eg)]; [right|by left|right].
        -- exists f. split; [by left|done].
        -- exists g. split; [by right|done].
      * intros [?|(g & [->|Hg]%elem_of_cons & Eg)].
        -- left. apply elem_of_union. by right.
        -- left. rewrite E in Eg. injection Eg as ->. apply elem_of_union. left.
           by apply elem_of_singleton.
        -- right. eauto.
    + destruct (IH acc) as (out & -> & Hout). exists out. split; [done|].
      intros id. rewrite Hout. split.
      * intros [?|(g & Hg & Eg)]; [by left|right]. exists g. split; [by right|done].
      * intros [?|(g & [->|Hg]%elem_of_cons & Eg)]; [by left| |right; eauto].
        rewrite E in Eg. done.
Qed.


Lemma rsplit_absent c s :
  forallb (fun x => negb (Ascii.eqb x c)) (list_ascii_of_string s) = true ->
  Main.rsplit c s = None.
Proof.
  induction s as [|x s IH]; simpl; [done|].
  intros [Hx Hs]%andb_true_iff. rewrite (IH Hs).
  by destruct (Ascii.eqb x c).
Qed.

Lemma rsplit_at c a b :
  forallb (fun x => negb (Ascii.eqb x c)) b = true ->
  Main.rsplit c (string_of_list_ascii (a ++ c :: b))
  = Some (string_of_list_ascii a, string_of_list_ascii b).
Proof.
  intros Hb. induction a as [|x a IH]; simpl.
  - rewrite rsplit_absent by (by rewrite chars_of_list).
    by rewrite Ascii.eqb_refl.
  - by rewrite IH.
Qed.

Lemma forallb_impl {A} (p q : A -> bool) l :
  (forall x, p x = true -> q x = true) -> forallb p l = true -> forallb q l = true.
Proof. rewrite !forallb_forall. auto. Qed.

Lemma word_not_dot c : is_word c = true -> negb (Ascii.eqb c ".") = true.
Proof. destruct (Ascii.eqb_spec c "."%char) as [->|]; [done|done]. Qed.

Lemma ident_not_underscore c : is_ident_char c = true -> negb (Ascii.eqb c "_") = true.
Proof. destruct (Ascii.eqb_spec c "_"%char) as [->|]; [done|done]. Qed.

Lemma name_shape_token f pre id ext tail :
  name_shape (list_ascii_of_string f) pre id ext tail ->
  token_after_last_underscore f = Some (string_of_list_ascii id).
Proof.
  intros (E & _ & Hid & _ & Hext & Ht). unfold token_after_last_underscore.
  rewrite <- (string_of_list_ascii_of_string f), E.
  replace (pre ++ "_"%char :: id ++ "."%char :: ext ++ tail)
    with ((pre ++ "_"%char :: id) ++ "."%char :: (ext ++ tail))
    by (by rewrite <- app_assoc).
  rewrite rsplit_at.
  - rewrite rsplit_at; [done|]. eapply forallb_impl; [apply ident_not_underscore|done].
  - apply forallb_app_iff. split.
    + eapply forallb_impl; [apply word_not_dot|done].
    + by destruct Ht as [-> | ->].
Qed.

(** Claim C10.  For every name the extractor accepts, whatever the number
    of underscores in it, the token it yields is the text between the last
    underscore of the stem and the dot of the extension; the token is not
    empty and made of alphanumerics, hyphens and parentheses only, hence
    without underscore: ["report_a_b.pdf"] yields ["b"]. *)
Theorem token_from_last_underscore (file_name : string) :
  (exists m, re_match Main.accept_re file_name = Ret (Some m)) ->
  exists token,
    Main.username_of_file file_name = Ret (Some token)
    /\ token_after_last_underscore file_name = Some token
    /\ token <> EmptyString
    /\ all_chars is_ident_char token = true.
Proof.
  intros [m Hm]. unfold re_match in Hm. rewrite compile_accept in Hm.
  injection Hm as Hm. apply head_Some_In, accept_In in Hm as (pre & id & ext & tail & Hs & Hp & _).
  exists (string_of_list_ascii id). split; [by eapply username_of_file_found|].
  split; [by eapply name_shape_token|].
  destruct Hs as (_ & Hid & Hidc & _). unfold all_chars. rewrite chars_of_list. split; [|done].
  intros Hz. apply (f_equal list_ascii_of_string) in Hz. by rewrite chars_of_list in Hz.
Qed.

Section WorkedNames.
Local Open Scope string_scope.


(** The theorem of claim C10 at ["report_a_b.pdf"]. *)
Lemma token_from_last_underscore_witness :
  exists token,
    Main.username_of_file "report_a_b.pdf" = Ret (Some token)
    /\ token_after_last_underscore "report_a_b.pdf" = Some token
    /\ token <> EmptyString
    /\ all_chars is_ident_char token = true.
Proof. apply token_from_last_underscore. eexists. reflexivity. Defined.

(** The token follows the last underscore of the stem; a name without
    underscore before its extension gives none. *)
Lemma two_underscores_yield_last_token :
  Main.username_of_file "report_a_b.pdf" = Ret (Some "b")
  /\ Main.username_of_file "report_alice.pdf" = Ret (Some "alice")
  /\ Main.username_of_file "notes.txt" = Ret None.
Proof. repeat split; reflexivity. Qed.

(** Two files carry [alice]; the directory [old_carol.pdf] is not a
    file. *)
Lemma shared_identifier_listed_once :
  Main.extract_unique_usernames_from_files staging_mixed ["sem"] = Ret ["alice"; "b"].
Proof. vm_compute. reflexivity. Qed.

End WorkedNames.

End ExtractorFacts.

(** ** The platform client *)

Module ClientFacts.
Import Canvas.

Lemma requests_sent_app t1 t2 :
  requests_sent (t1 ++ t2) = requests_sent t1 ++ requests_sent t2.
Proof. apply omap_app. Qed.

Lemma calls_made_app t1 t2 : calls_made (t1 ++ t2) = calls_made t1 ++ calls_made t2.
Proof. apply omap_app. Qed.

(** Claim C6.  When the file is there and the ticket request is answered
    with a status outside 200..299, [upload_file] returns that status and
    the ticket request is the only request it has sent: the binary transfer
    is not attempted.  The file system and the platform's folders are as
    before. *)
Theorem upload_stops_after_failed_ticket
    (w : world) (folder_id : folder_result) (file_name : string)
    (file_path : list string) (content_type : string) (user_id : option Z)
    (size : Z) (ticket : response) :
  Fs.getsize (fs w) file_path = Ret size ->
  net w (PostTicket folder_id file_name size content_type
           (if truthy_id user_id then user_id else None)) = Ret ticket ->
  ok2xx (status_code ticket) = false ->
  let out := Canvas.upload_file folder_id file_name file_path content_type user_id w in
  fst out = Ret (Some (status_code ticket))
  /\ requests_sent (trace (snd out))
     = requests_sent (trace w)
       ++ [PostTicket folder_id file_name size content_type
             (if truthy_id user_id then user_id else None)]
  /\ fs (snd out) = fs w /\ lms (snd out) = lms w.
Proof.
  intros Hsize Hnet Hcode. unfold Canvas.upload_file. run_m.
  assert (Hex : Fs.exists_ (fs w) file_path = true).
  { unfold Fs.getsize in Hsize. unfold Fs.exists_. by destruct (Fs.lookup_node (fs w) file_path). }
  rewrite Hex, Hsize. cbn. rewrite Hnet, Hcode. cbn.
  rewrite !requests_sent_app. cbn. rewrite !app_nil_r. done.
Qed.

Lemma div_mb_raises j e :
  div_mb j = Raise e -> e = TypeError \/ e = OverflowError \/ e = NotModelled.
Proof.
  unfold div_mb, Float.int_div_mb, Float.float_div_mb.
  destruct j; try (intros [= <-]; auto);
    repeat match goal with
    | |- context [match ?x with _ => _ end] => destruct x
    end; intros [= <-]; auto.
Qed.

Lemma div_mb_not_a_number j : as_number j = None -> div_mb j = Raise TypeError.
Proof. by destruct j. Qed.

Lemma sub_raises a b e : Float.sub a b = Raise e -> e = NotModelled.
Proof. unfold Float.sub. destruct (Float.round _); [done|]. by intros [= <-]. Qed.

(** A number of fewer than 54 bits, no bit of which lies below the
    smallest subnormal, is a float as it stands. *)
Lemma round_exact m e :
  (Z.abs m < 2 ^ 53)%Z -> (- 1074 <= e < 0)%Z ->
  Float.round {| Float.mant := m; Float.expo := e |}
  = Some {| Float.mant := m; Float.expo := e |}.
Proof.
  intros Hm He. unfold Float.round. cbn [Float.mant Float.expo].
  assert (Hlog : (Z.log2 (Z.abs m) <= 52)%Z).
  { destruct (Z.eq_dec (Z.abs m) 0%Z) as [-> | Hne]; [done|].
    assert (Z.log2 (Z.abs m) < 53)%Z; [|lia].
    apply Z.log2_lt_pow2; lia. }
  destruct (Z.ltb_spec 0%Z (Z.max (Z.log2 (Z.abs m) - 52) (- 1074 - e))); [lia|].
  cbn [Float.mant Float.expo]. destruct (Z.leb_spec 0%Z e); [lia|]. done.
Qed.

Lemma int_div_mb_exact n :
  (Z.abs n < 2 ^ 53)%Z ->
  Float.int_div_mb n = Ret {| Float.mant := n; Float.expo := - 20 |}.
Proof. intros Hn. unfold Float.int_div_mb. by rewrite round_exact by lia. Qed.

Lemma sub_exact q u :
  (Z.abs (q - u) < 2 ^ 53)%Z ->
  Float.sub {| Float.mant := q; Float.expo := - 20 |}
            {| Float.mant := u; Float.expo := - 20 |}
  = Ret {| Float.mant := q - u; Float.expo := - 20 |}.
Proof.
  intros H. unfold Float.sub. cbn [Float.mant Float.expo].
  change (Z.min (- 20) (- 20)) with (- 20)%Z. change (2 ^ (- 20 - - 20))%Z with 1%Z.
  rewrite !Z.mul_1_r. by rewrite round_exact by lia.
Qed.

Lemma to_Q_megabytes n :
  (Float.to_Q {| Float.mant := n; Float.expo := - 20 |} == inject_Z n / MB)%Q.
Proof.
  unfold Float.to_Q. cbn [Float.mant Float.expo]. change (0 <=? - 20)%Z with false.
  cbv iota. unfold Qeq, Qdiv.
  change (Z.to_pos (2 ^ (- (-20)))) with 1048576%positive.
  change (/ MB)%Q with (1 # 1048576)%Q. cbn. lia.
Qed.

(** Claim C8, as amended.  On an answered quota request with status 2xx
    and a body carrying integers [quota] and [quota_used] that are, like
    their difference, below [2 ^ 53] in magnitude, [get_remaining_space]
    returns exactly [(quota - quota_used) / 1MB], a negative value when more
    is used than allotted; and whatever the body, it returns [None] exactly
    when the status is not 2xx or the body is an object without one of the
    two fields. *)
Theorem remaining_space_value_and_absence
    (w : world) (user_id : option Z) (r : response) :
  net w (GetQuota user_id) = Ret r ->
  (forall members q u,
      ok2xx (status_code r) = true ->
      body r = Some (JObj members) ->
      dict_get "quota" members = Some (JInt q) ->
      dict_get "quota_used" members = Some (JInt u) ->
      (Z.abs q < 2 ^ 53)%Z -> (Z.abs u < 2 ^ 53)%Z -> (Z.abs (q - u) < 2 ^ 53)%Z ->
      exists v, fst (Canvas.get_remaining_space user_id w) = Ret (Some v)
        /\ (v == (inject_Z q - inject_Z u) / MB)%Q
        /\ ((q < u)%Z -> (v < 0)%Q))
  /\ (fst (Canvas.get_remaining_space user_id w) = Ret None
      <-> ok2xx (status_code r) = false \/ lacks_quota_field r).
Proof.
  intros Hnet. split.
  - intros members q u Hok Hb Hq Hu Bq Bu Bd.
    unfold Canvas.get_remaining_space. run_m. rewrite Hnet, Hok.
    unfold response_json. rewrite Hb. cbn. rewrite Hq, Hu. unfold div_mb.
    rewrite (int_div_mb_exact _ Bq), (int_div_mb_exact _ Bu). cbn.
    rewrite (sub_exact _ _ Bd). cbn.
    exists (Float.to_Q {| Float.mant := q - u; Float.expo := - 20 |}).
    split; [reflexivity|]. split.
    + apply (Qeq_trans _ _ _ (to_Q_megabytes (q - u))). 
      change (/ MB)%Q with (1 # 1048576)%Q in *. unfold Qeq, Qdiv. cbn. lia.
    + intros Hlt. unfold Float.to_Q, Qlt. cbn. lia.
  - unfold Canvas.get_remaining_space, lacks_quota_field. run_m. rewrite Hnet.
    destruct (ok2xx (status_code r)) eqn:Hok; cbn.
    + unfold response_json. destruct (body r) as [j|] eqn:Hb; cbn.
      * destruct j as [| | | | |items|members]; cbn;
          try (split; [done|]; intros [?|(m & [=] & _)]; done).
        destruct (dict_get "quota" members) as [qj|] eqn:Hq; cbn.
        -- destruct (dict_get "quota_used" members) as [uj|] eqn:Hu; cbn.
           ++ split.
              ** destruct (div_mb qj) as [a|e] eqn:Ha; cbn.
                 2:{ by destruct (div_mb_raises _ _ Ha) as [-> | [-> | ->]]. }
                 destruct (div_mb uj) as [b|e] eqn:Hb'; cbn.
                 2:{ by destruct (div_mb_raises _ _ Hb') as [-> | [-> | ->]]. }
                 destruct (Float.sub a b) as [c|e] eqn:Hc; cbn; [done|].
                 by rewrite (sub_raises _ _ _ Hc).
              ** intros [?|(m & [= <-] & [?|?])]; congruence.
           ++ split; [|done]. intros _. right. exists members. auto.
        -- split; [|done]. intros _. right. exists members. auto.
      * split; [done|]. intros [?|(m & ? & _)]; done.
    + split; [|done]. intros _. by left.
Qed.

Lemma find_app_Some {A} (p : A -> bool) l l' x :
  find p l = Some x -> find p (l ++ l') = Some x.
Proof. induction l as [|a l IH]; simpl; [done|]. destruct (p a); auto. Qed.

Lemma find_app_None {A} (p : A -> bool) l l' :
  find p l = None -> find p (l ++ l') = find p l'.
Proof. induction l as [|a l IH]; simpl; [done|]. destruct (p a); [done|auto]. Qed.

Lemma find_Some_elem {A} (p : A -> bool) l x : find p l = Some x -> x ∈ l /\ p x = true.
Proof.
  induction l as [|a l IH]; simpl; [done|]. destruct (p a) eqn:E.
  - intros [= ->]. split; [left|done].
  - intros [? ?]%IH. split; [by right|done].
Qed.

Lemma find_elem_is_Some {A} (p : A -> bool) l x : x ∈ l -> p x = true -> is_Some (find p l).
Proof.
  induction 1 as [|a b l H IH]; simpl; intros Hp.
  - rewrite Hp. eauto.
  - destruct (p b); eauto.
Qed.

Lemma find_None_elem {A} (p : A -> bool) l x : find p l = None -> x ∈ l -> p x = false.
Proof.
  induction l as [|a l IH]; simpl; [by intros _ ?%elem_of_nil|].
  destruct (p a) eqn:E; [done|]. intros H [->|Hin]%elem_of_cons; auto.
Qed.

Lemma get_folder_extend s s' extra id f :
  Lms.folders s' = Lms.folders s ++ extra ->
  Lms.get_folder s id = Ret f -> Lms.get_folder s' id = Ret f.
Proof.
  unfold Lms.get_folder. intros ->.
  destruct (find _ (Lms.folders s)) eqn:E; [|done].
  intros [= ->]. by rewrite (find_app_Some _ _ _ _ E).
Qed.

Lemma get_folder_id s id f : Lms.get_folder s id = Ret f -> id_of f = id.
Proof.
  unfold Lms.get_folder. destruct (find _ _) eqn:E; [|done]. intros [= ->].
  apply find_Some_elem in E as [_ E]. by apply Z.eqb_eq in E.
Qed.

Lemma get_folder_of_elem s f :
  f ∈ Lms.folders s -> exists f', Lms.get_folder s (id_of f) = Ret f'.
Proof.
  intros Hf. unfold Lms.get_folder.
  destruct (find_elem_is_Some (fun g => (id_of g =? id_of f)%Z) _ _ Hf (Z.eqb_refl _)) as [f' ->].
  eauto.
Qed.

Lemma children_extend s s' extra parent :
  Lms.folders s' = Lms.folders s ++ extra ->
  Lms.children s' parent
  = Lms.children s parent ++ filter (fun f => parent_of f = parent) extra.
Proof. unfold Lms.children. intros ->. apply filter_app. Qed.

Lemma children_elem s parent f : f ∈ Lms.children s parent -> f ∈ Lms.folders s.
Proof. unfold Lms.children. by intros [_ ?]%list_elem_of_filter. Qed.

Lemma walk_total user folders : forall cur w,
  cur_ok (lms w) cur ->
  exists r w', walk user folders cur w = (Ret r, w')
    /\ same_env w w'
    /\ exists extra, Lms.folders (lms w') = Lms.folders (lms w) ++ extra.
Proof.
  induction folders as [|folder_name rest IH]; intros cur w Hcur.
  - exists cur, w. cbn. split; [done|]. split; [done|]. exists []. by rewrite app_nil_r.
  - cbn [walk]. run_m. destruct (truthy_id cur) eqn:Ht.
    + destruct (Hcur Ht) as [f0 Hf0]. rewrite Hf0. cbn.
      destruct (find _ (Lms.children (lms w) (inr (id_of f0)))) as [f|] eqn:Hfind; cbn.
      * match goal with |- context [walk user rest ?c ?w0] =>
          destruct (IH c w0) as (r & w' & -> & (?&?&?&?) & extra & Hx) end.
        { intros _. cbn. apply get_folder_of_elem.
          apply find_Some_elem in Hfind as [Hin _]. by apply children_elem in Hin. }
        exists r, w'. split; [done|]. split; [done|]. by exists extra.
      * rewrite Hf0. cbn.
        match goal with |- context [walk user rest ?c ?w0] =>
          destruct (IH c w0) as (r & w' & -> & (?&?&?&?) & extra & Hx) end.
        { intros _. cbn. unfold Lms.get_folder. cbn.
          match goal with |- context [find ?p (?l ++ [?x])] =>
            destruct (find_elem_is_Some p (l ++ [x]) x) as [f' ->] end.
          - apply elem_of_app. right. by left.
          - cbn. apply Z.eqb_refl.
          - eauto. }
        exists r, w'. split; [done|]. split; [done|]. cbn in Hx.
        exists ({| id_of := Lms.next_id (lms w); name_of := folder_name;
                   parent_of := inr (id_of f0) |} :: extra).
        rewrite Hx, <- app_assoc. done.
    + destruct (find _ (Lms.children (lms w) (inl user))) as [f|] eqn:Hfind; cbn.
      * match goal with |- context [walk user rest ?c ?w0] =>
          destruct (IH c w0) as (r & w' & -> & (?&?&?&?) & extra & Hx) end.
        { intros _. cbn. apply get_folder_of_elem.
          apply find_Some_elem in Hfind as [Hin _]. by apply children_elem in Hin. }
        exists r, w'. split; [done|]. split; [done|]. by exists extra.
      * match goal with |- context [walk user rest ?c ?w0] =>
          destruct (IH c w0) as (r & w' & -> & (?&?&?&?) & extra & Hx) end.
        { intros _. cbn. unfold Lms.get_folder. cbn.
          match goal with |- context [find ?p (?l ++ [?x])] =>
            destruct (find_elem_is_Some p (l ++ [x]) x) as [f' ->] end.
          - apply elem_of_app. right. by left.
          - cbn. apply Z.eqb_refl.
          - eauto. }
        exists r, w'. split; [done|]. split; [done|]. cbn in Hx.
        exists ({| id_of := Lms.next_id (lms w); name_of := folder_name;
                   parent_of := inl user |} :: extra).
        rewrite Hx, <- app_assoc. done.
Qed.

Lemma walk_extends user folders : forall cur w,
  exists extra,
    Lms.folders (lms (snd (walk user folders cur w))) = Lms.folders (lms w) ++ extra.
Proof.
  induction folders as [|folder_name rest IH]; intros cur w.
  - exists []. cbn. by rewrite app_nil_r.
  - cbn [walk]. run_m. destruct (truthy_id cur).
    + destruct (Lms.get_folder (lms w) (default 0%Z cur)) as [f0|] eqn:Hf0; cbn;
        [|exists []; by rewrite app_nil_r].
      destruct (find _ (Lms.children (lms w) (inr (id_of f0)))) as [f|]; cbn.
      * match goal with |- context [walk user rest ?c ?w0] =>
          destruct (IH c w0) as [extra Hx] end. by exists extra.
      * rewrite Hf0. cbn. match goal with |- context [walk user rest ?c ?w0] =>
          destruct (IH c w0) as [extra Hx] end.
        cbn in Hx. eexists. rewrite Hx, <- app_assoc. done.
    + destruct (find _ (Lms.children (lms w) (inl user))) as [f|]; cbn.
      * match goal with |- context [walk user rest ?c ?w0] =>
          destruct (IH c w0) as [extra Hx] end. by exists extra.
      * match goal with |- context [walk user rest ?c ?w0] =>
          destruct (IH c w0) as [extra Hx] end.
        cbn in Hx. eexists. rewrite Hx, <- app_assoc. done.
Qed.

Lemma walk_again user folders : forall cur w r w1,
  walk user folders cur w = (Ret r, w1) ->
  forall w2 extra,
    Lms.folders (lms w2) = Lms.folders (lms w1) ++ extra ->
    exists w3, walk user folders cur w2 = (Ret r, w3) /\ lms w3 = lms w2.
Proof.
  induction folders as [|folder_name rest IH]; intros cur w r w1 Hrun w2 extra Hext.
  - cbn in *. injection Hrun as -> ->. eauto.
  - cbn [walk] in *. revert Hrun. run_m. destruct (truthy_id cur) eqn:Ht.
    + destruct (Lms.get_folder (lms w) (default 0%Z cur)) as [f0|] eqn:Hf0; [|done]. cbn.
      destruct (find _ (Lms.children (lms w) (inr (id_of f0)))) as [f|] eqn:Hfind; cbn.
      * intros Hrun.
        match type of Hrun with walk user rest ?c ?w0 = _ =>
          destruct (walk_extends user rest c w0) as [ex1 Hex1] end.
        rewrite Hrun in Hex1. cbn in Hex1.
        assert (Hw2 : Lms.folders (lms w2) = Lms.folders (lms w) ++ (ex1 ++ extra))
          by (by rewrite Hext, Hex1, <- app_assoc).
        rewrite (get_folder_extend _ _ _ _ _ Hw2 Hf0). cbn.
        rewrite (children_extend _ _ _ _ Hw2), (find_app_Some _ _ _ _ Hfind). cbn.
        match goal with |- exists w3, walk user rest ?c ?w0 = _ /\ _ =>
          destruct (IH _ _ _ _ Hrun w0 extra) as (w3 & Hr3 & Hl3);
            [cbn; exact Hext | exists w3; split; [exact Hr3 | exact Hl3]] end.
      * rewrite Hf0. cbn. intros Hrun.
        match type of Hrun with walk user rest ?c ?w0 = _ =>
          destruct (walk_extends user rest c w0) as [ex1 Hex1] end.
        rewrite Hrun in Hex1. cbn in Hex1.
        set (fnew := {| id_of := Lms.next_id (lms w); name_of := folder_name;
                        parent_of := inr (id_of f0) |}) in *.
        assert (Hw2 : Lms.folders (lms w2) = Lms.folders (lms w) ++ (fnew :: ex1 ++ extra))
          by (by rewrite Hext, Hex1, <- !app_assoc).
        rewrite (get_folder_extend _ _ _ _ _ Hw2 Hf0). cbn.
        rewrite (children_extend _ _ _ _ Hw2), (find_app_None _ _ _ Hfind).
        rewrite filter_cons_True by done. cbn. rewrite String.eqb_refl. cbn.
        match goal with |- exists w3, walk user rest ?c ?w0 = _ /\ _ =>
          destruct (IH _ _ _ _ Hrun w0 extra) as (w3 & Hr3 & Hl3);
            [cbn; exact Hext | exists w3; split; [exact Hr3 | exact Hl3]] end.
    + destruct (find _ (Lms.children (lms w) (inl user))) as [f|] eqn:Hfind; cbn.
      * intros Hrun.
        match type of Hrun with walk user rest ?c ?w0 = _ =>
          destruct (walk_extends user rest c w0) as [ex1 Hex1] end.
        rewrite Hrun in Hex1. cbn in Hex1.
        assert (Hw2 : Lms.folders (lms w2) = Lms.folders (lms w) ++ (ex1 ++ extra))
          by (by rewrite Hext, Hex1, <- app_assoc).
        rewrite (children_extend _ _ _ _ Hw2), (find_app_Some _ _ _ _ Hfind). cbn.
        match goal with |- exists w3, walk user rest ?c ?w0 = _ /\ _ =>
          destruct (IH _ _ _ _ Hrun w0 extra) as (w3 & Hr3 & Hl3);
            [cbn; exact Hext | exists w3; split; [exact Hr3 | exact Hl3]] end.
      * intros Hrun.
        match type of Hrun with walk user rest ?c ?w0 = _ =>
          destruct (walk_extends user rest c w0) as [ex1 Hex1] end.
        rewrite Hrun in Hex1. cbn in Hex1.
        set (fnew := {| id_of := Lms.next_id (lms w); name_of := folder_name;
                        parent_of := inl user |}) in *.
        assert (Hw2 : Lms.folders (lms w2) = Lms.folders (lms w) ++ (fnew :: ex1 ++ extra))
          by (by rewrite Hext, Hex1, <- !app_assoc).
        rewrite (children_extend _ _ _ _ Hw2), (find_app_None _ _ _ Hfind).
        rewrite filter_cons_True by done. cbn. rewrite String.eqb_refl. cbn.
        match goal with |- exists w3, walk user rest ?c ?w0 = _ /\ _ =>
          destruct (IH _ _ _ _ Hrun w0 extra) as (w3 & Hr3 & Hl3);
            [cbn; exact Hext | exists w3; split; [exact Hr3 | exact Hl3]] end.
Qed.

(** Claim C9.  Resolving a path twice in a row for the same user, without
    a supplied folder id, returns the same result both times, and the
    second call leaves the platform's folders as the first one left them:
    it creates nothing. *)
Theorem resolve_folder_idempotent
    (w : world) (user_id : option Z) (folder_path : string) :
  let first := get_or_create_folder user_id folder_path None w in
  let second := get_or_create_folder user_id folder_path None (snd first) in
  (exists r, fst first = Ret r)
  /\ fst second = fst first
  /\ lms (snd second) = lms (snd first).
Proof.
  unfold get_or_create_folder. cbn [truthy_id]. run_m.
  destruct (Lms.get_user (lms w) user_id) as [user|e] eqn:Hu; cbn.
  - match goal with |- context [walk user ?segs None ?w0] =>
      destruct (walk_total user segs None w0) as (r & w1 & Hrun & (_&_&_&Husers) & ex & Hex);
        [intros [=] |] end.
    rewrite Hrun. cbn. cbn in Husers. unfold Lms.get_user in *.
    destruct user_id as [u|]; [|done]. rewrite Husers.
    destruct (bool_decide (u ∈ Lms.users (lms w))) eqn:Hin; [|done]. injection Hu as ->.
    destruct (walk_again _ _ _ _ _ _ Hrun
                (record (Called (CGetUser (Some user))) w1) []) as (w3 & -> & Hlms).
    { cbn. by rewrite app_nil_r. }
    cbn. rewrite Hlms. cbn. eauto.
  - assert (He : e <> NotModelled).
    { unfold Lms.get_user in Hu. destruct user_id as [u|]; [|by injection Hu as <-].
      destruct (bool_decide _); [done|by injection Hu as <-]. }
    destruct e; try done; cbn; rewrite Hu; cbn; eauto.
Qed.

Lemma distinct_siblings_snoc s parent name :
  distinct_siblings (Lms.folders s) ->
  find (fun f => String.eqb (name_of f) name) (Lms.children s parent) = None ->
  distinct_siblings (Lms.folders (snd (Lms.create s parent name))).
Proof.
  intros Hd Hnone. cbn. intros i j f g Hi Hj Hp Hn.
  assert (Hfresh : forall k h, Lms.folders s !! k = Some h ->
            parent_of h = parent -> name_of h = name -> False).
  { intros k h Hk Hhp Hhn.
    assert (Hin : h ∈ Lms.children s parent).
    { unfold Lms.children. apply list_elem_of_filter. split; [done|].
      by eapply list_elem_of_lookup_2. }
    pose proof (find_None_elem _ _ _ Hnone Hin) as Hf. cbn in Hf.
    rewrite Hhn, String.eqb_refl in Hf. done. }
  apply lookup_snoc_Some in Hi as [[Hil Hi]|[-> <-]];
    apply lookup_snoc_Some in Hj as [[Hjl Hj]|[-> <-]]; cbn in *.
  - eauto.
  - destruct (Hfresh i f Hi Hp Hn).
  - destruct (Hfresh j g Hj); done.
  - done.
Qed.

Lemma walk_keeps_distinct_siblings user folders : forall cur w,
  distinct_siblings (Lms.folders (lms w)) ->
  distinct_siblings (Lms.folders (lms (snd (walk user folders cur w)))).
Proof.
  induction folders as [|folder_name rest IH]; intros cur w Hd; [done|].
  cbn [walk]. run_m. destruct (truthy_id cur).
  - destruct (Lms.get_folder (lms w) (default 0%Z cur)) as [f0|] eqn:Hf0; cbn; [|done].
    destruct (find _ (Lms.children (lms w) (inr (id_of f0)))) as [f|] eqn:Hfind; cbn.
    + by apply IH.
    + rewrite Hf0. cbn. apply IH. cbn.
      by apply (distinct_siblings_snoc (lms w) (inr (id_of f0)) folder_name).
  - destruct (find _ (Lms.children (lms w) (inl user))) as [f|] eqn:Hfind; cbn.
    + by apply IH.
    + apply IH. cbn. by apply (distinct_siblings_snoc (lms w) (inl user) folder_name).
Qed.

(** Property X13.  Resolving a path never puts a second folder of the
    same name under one parent: when no two siblings share a name before
    [get_or_create_folder], none do afterwards. *)
Lemma resolve_folder_keeps_distinct_siblings
    (w : world) (user_id : option Z) (folder_path : string) (folder_id : option Z) :
  distinct_siblings (Lms.folders (lms w)) ->
  distinct_siblings
    (Lms.folders (lms (snd (get_or_create_folder user_id folder_path folder_id w)))).
Proof.
  intros Hd. unfold get_or_create_folder. run_m. destruct (truthy_id folder_id).
  - destruct (Lms.get_folder (lms w) (default 0%Z folder_id)) as [f|e]; cbn; [done|].
    by destruct e.
  - destruct (Lms.get_user (lms w) user_id) as [user|e]; cbn; [|by destruct e].
    match goal with |- context [walk user ?segs None ?w0] =>
      pose proof (walk_keeps_distinct_siblings user segs None w0 Hd) as Hk;
      destruct (walk user segs None w0) as [[r|e] w1] end; cbn in *; [done|].
    by destruct e.
Qed.

(** Claim C4, as amended.  With a supplied folder id other than zero,
    [get_or_create_folder] makes one call, [Canvas.get_folder], and walks no
    path; it returns the folder object so fetched, whose id is the supplied
    one, and [None] when the platform does not know the id. *)
Theorem supplied_folder_id_is_fetched
    (w : world) (user_id : option Z) (folder_path : string) (folder_id : Z) :
  folder_id <> 0%Z ->
  let out := get_or_create_folder user_id folder_path (Some folder_id) w in
  lms (snd out) = lms w
  /\ calls_made (trace (snd out)) = calls_made (trace w) ++ [CGetFolder folder_id]
  /\ match Lms.get_folder (lms w) folder_id with
     | Ret f => fst out = Ret (RFolder f) /\ id_of f = folder_id
     | Raise _ => fst out = Ret RNone
     end.
Proof.
  intros Hnz. unfold get_or_create_folder. cbn [truthy_id].
  apply Z.eqb_neq in Hnz. rewrite Hnz. cbn [negb default]. run_m.
  destruct (Lms.get_folder (lms w) folder_id) as [f|e] eqn:Hf; cbn; rewrite Hf; cbn.
  - rewrite calls_made_app. cbn. split; [done|]. split; [done|].
    split; [done|]. by eapply get_folder_id.
  - assert (e = CanvasException) as ->.
    { unfold Lms.get_folder in Hf. destruct (find _ _); [done|]. by injection Hf as <-. }
    cbn. rewrite !calls_made_app. cbn. by rewrite app_nil_r.
Qed.

Section WorkedCalls.
Local Open Scope string_scope.

(** The theorem of claim C6 at a ticket request refused with 507. *)
Lemma upload_stops_after_failed_ticket_witness :
  let w := world_ex net_full ["report_alice.pdf"] in
  let out := Canvas.upload_file (RId 43) "report_alice.pdf" alice_file
               "application/pdf" (Some 7%Z) w in
  fst out = Ret (Some 507%Z)
  /\ requests_sent (trace (snd out))
     = (requests_sent (trace w)
        ++ [PostTicket (RId 43) "report_alice.pdf" 10 "application/pdf" (Some 7%Z)])%list
  /\ fs (snd out) = fs w /\ lms (snd out) = lms w.
Proof.
  apply (upload_stops_after_failed_ticket (world_ex net_full ["report_alice.pdf"])
           (RId 43) "report_alice.pdf" alice_file "application/pdf" (Some 7%Z)
           10%Z (bare 507)); reflexivity.
Defined.

(** Claim C8 fails as stated: with a quota of [2 ^ 53] bytes and one byte
    more in use, both quotients round to the same float and the value
    returned is zero, not negative; and a quota of [10 ^ 400] raises
    [OverflowError]. *)
Lemma rounded_quota_is_not_negative :
  let rounded := world_ex (net_quota (Ret (quota_body (2 ^ 53) (2 ^ 53 + 1)))) [] in
  let huge := world_ex (net_quota (Ret (quota_body (10 ^ 400) 0))) [] in
  (2 ^ 53 < 2 ^ 53 + 1)%Z
  /\ (exists v, fst (get_remaining_space (Some 7%Z) rounded) = Ret (Some v)
        /\ (v == 0)%Q /\ ~ (v < 0)%Q
        /\ ~ (v == (inject_Z (2 ^ 53) - inject_Z (2 ^ 53 + 1)) / MB)%Q)
  /\ fst (get_remaining_space (Some 7%Z) huge) = Raise OverflowError.
Proof.
  split; [reflexivity|]. split.
  - exists (0 # 524288)%Q. split; [vm_compute; reflexivity|].
    split; [reflexivity|]. split; [discriminate|].
    intros H. vm_compute in H. discriminate H.
  - vm_compute. reflexivity.
Qed.

(** The theorem of claim C8 at a quota of 100 bytes with 200 used. *)
Lemma remaining_space_value_and_absence_witness :
  let out := Canvas.get_remaining_space (Some 7%Z) (world_ex net_ok []) in
  (exists v, fst out = Ret (Some v)
     /\ (v == (inject_Z 100 - inject_Z 200) / MB)%Q /\ (v < 0)%Q)
  /\ (fst out = Ret None
      <-> ok2xx (status_code (quota_body 100 200)) = false
          \/ lacks_quota_field (quota_body 100 200)).
Proof.
  destruct (remaining_space_value_and_absence (world_ex net_ok []) (Some 7%Z)
              (quota_body 100 200) eq_refl) as [Hvalue Habsent].
  split; [|exact Habsent].
  destruct (Hvalue _ 100%Z 200%Z eq_refl eq_refl eq_refl eq_refl
              eq_refl eq_refl eq_refl) as (v & Hv & Heq & Hneg).
  exists v. split; [exact Hv|]. split; [exact Heq|]. apply Hneg. reflexivity.
Defined.

(** Scenario 3 of the specification: more used than allotted gives a
    negative value, and nothing is raised. *)
Lemma over_quota_is_negative :
  exists v, fst (Canvas.get_remaining_space (Some 7%Z) (world_ex net_ok [])) = Ret (Some v)
            /\ (v < 0)%Q.
Proof. eexists. split; [reflexivity|]. reflexivity. Qed.

(** Claim C4 fails as stated: with the id of an existing folder a folder
    object comes back, not the id, and with an id the platform does not know
    [None] comes back. *)
Lemma supplied_folder_id_not_returned_as_is :
  fst (Canvas.get_or_create_folder (Some 7%Z) "Evaluations/Fall" (Some 42%Z)
         (world_ex net_ok []))
    = Ret (RFolder {| id_of := 42; name_of := "Evaluations"; parent_of := inl 7%Z |})
  /\ fst (Canvas.get_or_create_folder (Some 7%Z) "Evaluations/Fall" (Some 99%Z)
         (world_ex net_ok []))
    = Ret RNone
  /\ fst (Canvas.get_or_create_folder (Some 7%Z) "Evaluations/Fall" (Some 99%Z)
         (world_ex net_ok []))
    <> Ret (RId 99).
Proof.
  split; [vm_compute; reflexivity|]. split; [vm_compute; reflexivity|].
  vm_compute. discriminate.
Qed.

(** The theorem of claim C4 at the supplied id 42. *)
Lemma supplied_folder_id_is_fetched_witness :
  let out := Canvas.get_or_create_folder (Some 7%Z) "Evaluations/Fall" (Some 42%Z)
               (world_ex net_ok []) in
  lms (snd out) = lms (world_ex net_ok [])
  /\ calls_made (trace (snd out))
     = (calls_made (trace (world_ex net_ok [])) ++ [CGetFolder 42])%list
  /\ match Lms.get_folder (lms (world_ex net_ok [])) 42 with
     | Ret f => fst out = Ret (RFolder f) /\ id_of f = 42%Z
     | Raise _ => fst out = Ret RNone
     end.
Proof. apply supplied_folder_id_is_fetched. discriminate. Defined.

End WorkedCalls.

End ClientFacts.

(** ** The upload dispatcher *)

Module DispatcherFacts.
Import Canvas ClientFacts.

Lemma foldl_insert_dir_lookup (l : list (list string)) : forall (m : gmap (list string) Fs.node) q,
  foldl (fun m q => <[q := Fs.Dir]> m) m l !! q
  = if bool_decide (q ∈ l) then Some Fs.Dir else m !! q.
Proof.
  induction l as [|p l IH]; intros m q; cbn; [done|].
  rewrite IH. destruct (decide (q ∈ l)) as [Hin|Hin].
  - rewrite !bool_decide_eq_true_2; [done| by right | done].
  - rewrite (bool_decide_eq_false_2 _ Hin). destruct (decide (q = p)) as [->|Hne].
    + rewrite lookup_insert_eq. rewrite bool_decide_eq_true_2; [done|by left].
    + rewrite lookup_insert_ne by done. rewrite bool_decide_eq_false_2; [done|].
      by intros [?|?]%elem_of_cons.
Qed.

Lemma prefixes_self p : p <> [] -> p ∈ Fs.prefixes p.
Proof.
  induction p as [|x p IH]; [done|]. intros _. cbn. destruct p as [|y p].
  - by left.
  - right. apply list_elem_of_fmap. exists (y :: p). split; [done|]. by apply IH.
Qed.

Lemma prefixes_length p q : q ∈ Fs.prefixes p -> (0 < length q <= length p)%nat.
Proof.
  revert q. induction p as [|x p IH]; intros q; cbn.
  - by intros ?%elem_of_nil.
  - intros [->|Hin]%elem_of_cons; [cbn; lia|].
    apply list_elem_of_fmap in Hin as (q' & -> & Hq'). apply IH in Hq'. cbn. lia.
Qed.

Lemma makedirs_lookup m p m1 q :
  Fs.makedirs m p = Ret m1 ->
  m1 !! q = if bool_decide (q ∈ Fs.prefixes p) then Some Fs.Dir else m !! q.
Proof.
  unfold Fs.makedirs. destruct (existsb _ _); [done|]. intros [= <-].
  apply foldl_insert_dir_lookup.
Qed.

Lemma makedirs_keeps_file m p m1 q size :
  Fs.makedirs m p = Ret m1 -> Fs.lookup_node m q = Some (Fs.File size) ->
  Fs.lookup_node m1 q = Some (Fs.File size).
Proof.
  intros Hm Hq. destruct q as [|x q]; [done|]. cbn in *.
  rewrite (makedirs_lookup _ _ _ _ Hm). rewrite bool_decide_eq_false_2; [done|].
  intros Hin. unfold Fs.makedirs in Hm.
  destruct (existsb (Fs.isfile m) (Fs.prefixes p)) eqn:E; [done|].
  assert (existsb (Fs.isfile m) (Fs.prefixes p) = true); [|congruence].
  apply existsb_exists. exists (x :: q). split; [by apply list_elem_of_In|].
  unfold Fs.isfile. cbn. by rewrite Hq.
Qed.

Lemma join_nonempty d n : Fs.join d n <> [].
Proof. unfold Fs.join. by destruct d. Qed.

Lemma parent_join d n : Fs.parent (Fs.join d n) = d.
Proof. unfold Fs.parent, Fs.join. apply removelast_last. Qed.

Lemma isdir_join_lookup m d n : Fs.isdir m (Fs.join d n) = match m !! Fs.join d n with Some Fs.Dir => true | _ => false end.
Proof. unfold Fs.isdir, Fs.lookup_node. pose proof (join_nonempty d n). by destruct (Fs.join d n). Qed.

Lemma relocate m dir name file size m1 :
  Fs.makedirs m dir = Ret m1 -> dir <> [] ->
  Fs.lookup_node m file = Some (Fs.File size) ->
  Fs.isdir m (Fs.join dir name) = false ->
  Fs.move m1 file (Fs.join dir name)
  = Ret (<[Fs.join dir name := Fs.File size]> (delete file m1)).
Proof.
  intros Hm Hne Hfile Hdst. unfold Fs.move.
  assert (Hd1 : Fs.isdir m1 (Fs.join dir name) = false).
  { rewrite isdir_join_lookup in *. rewrite (makedirs_lookup _ _ _ _ Hm).
    rewrite bool_decide_eq_false_2; [done|].
    intros Hin%prefixes_length. unfold Fs.join in Hin. rewrite length_app in Hin. cbn in Hin. lia. }
  rewrite Hd1. cbn [andb]. rewrite (makedirs_keeps_file _ _ _ _ _ Hm Hfile), parent_join.
  assert (Fs.isdir m1 dir = true) as ->; [|done].
  unfold Fs.isdir, Fs.lookup_node. destruct dir as [|x dir]; [done|].
  rewrite (makedirs_lookup _ _ _ _ Hm). rewrite bool_decide_eq_true_2; [done|].
  by apply prefixes_self.
Qed.

Lemma get_remaining_space_env user_id w :
  fs (snd (get_remaining_space user_id w)) = fs w
  /\ cfg (snd (get_remaining_space user_id w)) = cfg w.
Proof.
  unfold get_remaining_space. run_m.
  destruct (net w (GetQuota user_id)) as [r|e]; cbn; [|done].
  destruct (ok2xx (status_code r)); cbn; [|done].
  destruct (response_json r) as [j|e]; cbn; [|by destruct e].
  destruct (subscript j "quota") as [q|e]; cbn; [|by destruct e].
  destruct (subscript j "quota_used") as [u|e]; cbn; [|by destruct e].
  destruct (div_mb q) as [a|e]; cbn; [|by destruct e].
  destruct (div_mb u) as [b|e]; cbn; [|by destruct e].
  destruct (Float.sub a b) as [c|e]; cbn; [done|by destruct e].
Qed.

Lemma quarantine_settled user_name user_id file w o :
  fst (get_remaining_space user_id w) = Ret o ->
  fst (Main.quarantine user_name user_id file w) = fst (settled (cfg w) (fs w) user_name file)
  /\ fs (snd (Main.quarantine user_name user_id file w))
     = snd (settled (cfg w) (fs w) user_name file).
Proof.
  intros Ho. unfold Main.quarantine, QuotaManager, settled. run_m.
  destruct (TOTAL_QUOTA_MB (cfg w)) as [tq|] eqn:Htq; [|done].
  destruct (get_remaining_space_env user_id w) as [Hf Hc].
  destruct (get_remaining_space user_id w) as [p v]. cbn in *. subst p.
  fold (holding_dir (cfg w) user_name).
  destruct o as [r|]; [destruct (Qlt_le_dec r 0)|]; cbn; rewrite ?Hf, ?Hc;
    fold (holding_dir (cfg w) user_name);
    (destruct (Fs.makedirs (fs w) (holding_dir (cfg w) user_name)) as [m1|e] eqn:Hmk; cbn;
     [destruct (Fs.move m1 file _) as [m2|e]; cbn; [done|by destruct e]
     |assert (e = OSError) as -> by
        (unfold Fs.makedirs in Hmk; destruct (existsb _ _); congruence); done]).
Qed.

(** As long as the quota query returns, be it a number or [None], its
    result does not steer the [try] block: two runs that differ in it end
    with the same outcome and the same file system. *)
Theorem quota_value_does_not_steer_quarantine
    (user_name : string) (user_id : option Z) (file : list string)
    (w1 w2 : world) (o1 o2 : option Q) :
  cfg w1 = cfg w2 -> fs w1 = fs w2 ->
  fst (get_remaining_space user_id w1) = Ret o1 ->
  fst (get_remaining_space user_id w2) = Ret o2 ->
  let out1 := Main.quarantine user_name user_id file w1 in
  let out2 := Main.quarantine user_name user_id file w2 in
  fst out1 = fst out2
  /\ fs (snd out1) = fs (snd out2)
  /\ forall size,
       TOTAL_QUOTA_MB (cfg w1) <> None ->
       Fs.lookup_node (fs w1) file = Some (Fs.File size) ->
       existsb (Fs.isfile (fs w1)) (Fs.prefixes (holding_dir (cfg w1) user_name)) = false ->
       Fs.isdir (fs w1) (Fs.join (holding_dir (cfg w1) user_name) (Fs.basename file)) = false ->
       let dest := Fs.join (holding_dir (cfg w1) user_name) (Fs.basename file) in
       fs (snd out1) !! dest = Some (Fs.File size)
       /\ (file <> dest -> fs (snd out1) !! file = None).
Proof.
  intros Hcfg Hfs H1 H2.
  destruct (quarantine_settled user_name user_id file w1 o1 H1) as [Hr1 Hs1].
  destruct (quarantine_settled user_name user_id file w2 o2 H2) as [Hr2 Hs2].
  cbv zeta. rewrite Hr1, Hr2, Hs1, Hs2, Hcfg, Hfs. split; [done|]. split; [done|].
  rewrite <- Hcfg, <- Hfs. intros size Htq Hfile Hpre Hdst. unfold settled.
  destruct (TOTAL_QUOTA_MB (cfg w1)); [|done].
  unfold Fs.makedirs at 1 2. rewrite Hpre.
  erewrite relocate; [| by unfold Fs.makedirs; rewrite Hpre | apply join_nonempty | done | done].
  cbn. split.
  - apply lookup_insert_eq.
  - intros Hne. rewrite lookup_insert_ne by done. apply lookup_delete_eq.
Qed.

Lemma settled_moves c m user_name file size :
  TOTAL_QUOTA_MB c <> None ->
  Fs.lookup_node m file = Some (Fs.File size) ->
  existsb (Fs.isfile m) (Fs.prefixes (holding_dir c user_name)) = false ->
  Fs.isdir m (Fs.join (holding_dir c user_name) (Fs.basename file)) = false ->
  exists m2,
    settled c m user_name file = (Ret tt, m2)
    /\ m2 !! Fs.join (holding_dir c user_name) (Fs.basename file) = Some (Fs.File size)
    /\ (file <> Fs.join (holding_dir c user_name) (Fs.basename file) -> m2 !! file = None).
Proof.
  intros Htq Hfile Hpre Hdst. unfold settled.
  destruct (TOTAL_QUOTA_MB c); [|done].
  unfold Fs.makedirs at 1. rewrite Hpre.
  erewrite relocate; [| by unfold Fs.makedirs; rewrite Hpre | apply join_nonempty | done | done].
  eexists. split; [done|]. split.
  - apply lookup_insert_eq.
  - intros Hne. rewrite lookup_insert_ne by done. apply lookup_delete_eq.
Qed.

Lemma quarantine_raised user_name user_id file w e :
  fst (get_remaining_space user_id w) = Raise e -> e <> NotModelled ->
  fst (Main.quarantine user_name user_id file w) = Ret tt
  /\ fs (snd (Main.quarantine user_name user_id file w)) = fs w.
Proof.
  intros He Hne. unfold Main.quarantine, QuotaManager. run_m.
  destruct (TOTAL_QUOTA_MB (cfg w)) as [tq|]; [|done].
  destruct (get_remaining_space_env user_id w) as [Hf Hc].
  destruct (get_remaining_space user_id w) as [p v]. cbn in *. subst p.
  by destruct e.
Qed.

(** Claim C7.  The outcome of the quota query does steer the dispatcher.
    Take two runs from the same configuration and file system, with a
    numeric [TOTAL_QUOTA_MB], the file in place and a holding directory that
    can be made: when the query raises, say for a transport failure, the
    handler logs and the file stays where it is; when the query returns,
    even [None] for a refused request, the file is moved.  The two file
    systems differ. *)
Theorem raised_quota_query_steers_quarantine
    (user_name : string) (user_id : option Z) (file : list string)
    (w1 w2 : world) (e : exn) (o : option Q) (size : Z) :
  cfg w1 = cfg w2 -> fs w1 = fs w2 ->
  fst (get_remaining_space user_id w1) = Raise e -> e <> NotModelled ->
  fst (get_remaining_space user_id w2) = Ret o ->
  TOTAL_QUOTA_MB (cfg w1) <> None ->
  Fs.lookup_node (fs w1) file = Some (Fs.File size) ->
  existsb (Fs.isfile (fs w1)) (Fs.prefixes (holding_dir (cfg w1) user_name)) = false ->
  Fs.isdir (fs w1) (Fs.join (holding_dir (cfg w1) user_name) (Fs.basename file)) = false ->
  file <> Fs.join (holding_dir (cfg w1) user_name) (Fs.basename file) ->
  let out1 := Main.quarantine user_name user_id file w1 in
  let out2 := Main.quarantine user_name user_id file w2 in
  let dest := Fs.join (holding_dir (cfg w1) user_name) (Fs.basename file) in
  fst out1 = Ret tt /\ fst out2 = Ret tt
  /\ fs (snd out1) = fs w1
  /\ fs (snd out1) !! file = Some (Fs.File size)
  /\ fs (snd out2) !! file = None
  /\ fs (snd out2) !! dest = Some (Fs.File size)
  /\ fs (snd out1) <> fs (snd out2).
Proof.
  intros Hcfg Hfs He Hne Ho Htq Hfile Hpre Hdst Hdiff. cbv zeta.
  destruct (quarantine_raised user_name user_id file w1 e He Hne) as [Hr1 Hs1].
  destruct (quarantine_settled user_name user_id file w2 o Ho) as [Hr2 Hs2].
  destruct (settled_moves (cfg w1) (fs w1) user_name file size Htq Hfile Hpre Hdst)
    as (m2 & Hm2 & Hdest & Hgone).
  rewrite <- Hcfg, <- Hfs, Hm2 in Hr2, Hs2. cbn in Hr2, Hs2.
  assert (Hstays : fs w1 !! file = Some (Fs.File size)).
  { unfold Fs.lookup_node in Hfile. by destruct file. }
  rewrite Hr1, Hr2, Hs1, Hs2. repeat split; try done.
  - by apply Hgone.
  - intros Heq. rewrite Heq, (Hgone Hdiff) in Hstays. done.
Qed.

Section WorkedRuns.
Local Open Scope string_scope.

(** The theorem of claim C7 at a quota query that does not get through
    in one run and is answered with a server error in the other. *)
Lemma raised_quota_query_steers_quarantine_witness :
  let raised := Main.quarantine "alice" (Some 7%Z) alice_file
                  (world_ex net_full_quota_down ["report_alice.pdf"]) in
  let absent := Main.quarantine "alice" (Some 7%Z) alice_file
                  (world_ex net_full_quota_500 ["report_alice.pdf"]) in
  fst raised = Ret tt /\ fst absent = Ret tt
  /\ fs (snd raised) = fs (world_ex net_full_quota_down ["report_alice.pdf"])
  /\ fs (snd raised) !! alice_file = Some (Fs.File 10%Z)
  /\ fs (snd absent) !! alice_file = None
  /\ fs (snd absent) !! alice_held = Some (Fs.File 10%Z)
  /\ fs (snd raised) <> fs (snd absent).
Proof.
  apply (raised_quota_query_steers_quarantine "alice" (Some 7%Z) alice_file
           (world_ex net_full_quota_down ["report_alice.pdf"])
           (world_ex net_full_quota_500 ["report_alice.pdf"])
           RequestException None 10);
    [reflexivity | reflexivity | reflexivity | discriminate | reflexivity
    | discriminate | reflexivity | reflexivity | reflexivity | discriminate].
Defined.

(** Scenario 1 of the specification: [alice] is known and her upload
    succeeds, [bob] is not known; one upload is made, and both files are
    still in the staging directory. *)
Lemma one_upload_for_the_known_recipient :
  let out := Main.upload_user_files_to_canvas_based_on_quota ["sem"] ["alice"; "bob"]
               (world_ex net_ok ["report_alice.pdf"; "report_bob.pdf"]) in
  fst out = Ret tt
  /\ requests_sent (trace (snd out))
     = [ GetUsers "alice";
         PostTicket (RId 43) "report_alice.pdf" 10 "application/pdf" (Some 7%Z);
         PostFile (JStr "https://upload") (JObj []) "report_alice.pdf" alice_file;
         GetUsers "bob" ]
  /\ fs (snd out) !! alice_file = Some (Fs.File 10%Z)
  /\ fs (snd out) !! ["sem"; "report_bob.pdf"] = Some (Fs.File 10%Z).
Proof. cbv zeta. repeat split; vm_compute; reflexivity. Qed.

(** Scenario 2 of the specification: the ticket request for [alice]'s
    file is answered with 507; the file is moved under
    [file_storage_exceeded_alice] and is gone from the staging directory. *)
Lemma refused_ticket_moves_the_file :
  let out := Main.upload_user_files_to_canvas_based_on_quota ["sem"] ["alice"]
               (world_ex net_full ["report_alice.pdf"]) in
  fst out = Ret tt
  /\ requests_sent (trace (snd out))
     = [ GetUsers "alice";
         PostTicket (RId 43) "report_alice.pdf" 10 "application/pdf" (Some 7%Z);
         GetQuota (Some 7%Z) ]
  /\ fs (snd out) !! alice_held = Some (Fs.File 10%Z)
  /\ fs (snd out) !! alice_file = None.
Proof. cbv zeta. repeat split; vm_compute; reflexivity. Qed.

(** Claim C1 at an upload attempt without status code (the ticket request
    does not get through): comparing [None] with 200 raises, the handler
    around the whole loop logs it, the file is not moved, and the next
    recipient is never looked up. *)
Theorem absent_upload_result_aborts_run :
  let out := Main.upload_user_files_to_canvas_based_on_quota ["sem"] ["alice"; "carol"]
               (world_ex net_down ["report_alice.pdf"; "report_carol.pdf"]) in
  fst out = Ret tt
  /\ fs (snd out) !! alice_file = Some (Fs.File 10%Z)
  /\ fs (snd out) !! alice_held = None
  /\ trace (snd out)
     = [ Sent (GetUsers "alice"); Called (CGetUser (Some 7%Z));
         Called (CListUserFolders 7); Called (CGetFolder 42);
         Called (CListSubfolders 42); Called (CGetFolder 42);
         Called (CCreateSubfolder 42 "Fall");
         Logged (UploadAttempt "report_alice.pdf" (RId 43));
         Sent (PostTicket (RId 43) "report_alice.pdf" 10 "application/pdf" (Some 7%Z));
         Logged (UploadError "report_alice.pdf" (RId 43));
         Logged (OperationsError TypeError) ].
Proof. vm_compute. repeat split; reflexivity. Qed.

(** Claim C2 at a recipient whose lookup is answered with 404: the
    dispatcher goes on to folder resolution with [None] as user id and logs
    two errors before it leaves the recipient. *)
Theorem unknown_recipient_reaches_folder_resolution :
  let out := Main.upload_user_files_to_canvas_based_on_quota ["sem"] ["bob"]
               (world_ex net_ok ["report_bob.pdf"]) in
  fst out = Ret tt
  /\ trace (snd out)
     = [ Sent (GetUsers "bob"); Logged (UserNotFound "bob");
         Called (CGetUser None);
         Logged (FolderError "Evaluations/Fall" None);
         Logged (NoSubfolder None) ].
Proof. vm_compute. split; reflexivity. Qed.

(** Claim C3 at the identifier [a(b)], which the extractor derives from
    [report_a(b).pdf]: the dispatcher selects no file for it, and for
    [alice] it selects [alicexpdf]. *)
Theorem parenthesised_identifier_selects_nothing :
  Main.extract_unique_usernames_from_files (staging ["report_a(b).pdf"]) ["sem"]
    = Ret ["a(b)"]
  /\ requests_sent (trace (snd (Main.upload_user_files_to_canvas_based_on_quota
        ["sem"] ["a(b)"] (world_ex net_all_known ["report_a(b).pdf"]))))
     = [ GetUsers "a(b)" ]
  /\ requests_sent (trace (snd (Main.upload_user_files_to_canvas_based_on_quota
        ["sem"] ["alice"] (world_ex net_ok ["alicexpdf"]))))
     = [ GetUsers "alice";
         PostTicket (RId 43) "alicexpdf" 10 "application/octet-stream" (Some 7%Z);
         PostFile (JStr "https://upload") (JObj []) "alicexpdf" ["sem"; "alicexpdf"] ].
Proof. vm_compute. repeat split; reflexivity. Qed.

End WorkedRuns.

End DispatcherFacts.

(** ** Frames: what a computation leaves alone, and what it adds *)

Module FrameFacts.
Import ClientFacts.
Local Open Scope list_scope.

Section Keeps.
Context {X : Type} (f : world -> X).

Lemma keeps_ret {A} (a : A) : keeps f (ret a).
Proof. by intros w. Qed.

Lemma keeps_raise {A} e : keeps f (@raise A e).
Proof. by intros w. Qed.

Lemma keeps_lift {A} (r : py A) : keeps f (lift r).
Proof. by intros w. Qed.

Lemma keeps_get_world : keeps f get_world.
Proof. by intros w. Qed.

Lemma keeps_bind {A B} (m : M A) (k : A -> M B) :
  keeps f m -> (forall a, keeps f (k a)) -> keeps f (bind m k).
Proof.
  intros Hm Hk w. unfold bind. specialize (Hm w).
  destruct (m w) as [[a|e] w']; cbn in *; [|done]. by rewrite Hk.
Qed.

Lemma keeps_try {A} c (m : M A) h :
  keeps f m -> (forall e, keeps f (h e)) -> keeps f (try_except c m h).
Proof.
  intros Hm Hh w. unfold try_except. specialize (Hm w).
  destruct (m w) as [[a|e] w']; cbn in *; [done|].
  destruct e; try done; destruct (c _); try done; by rewrite Hh.
Qed.

Lemma keeps_emit e : trace_blind f -> keeps f (emit e).
Proof. intros Hf w. apply Hf. Qed.

Lemma keeps_log l : trace_blind f -> keeps f (log l).
Proof. apply keeps_emit. Qed.

Lemma keeps_send r : trace_blind f -> keeps f (send r).
Proof.
  intros Hf. unfold send. apply keeps_bind; [by apply keeps_emit|]. intros _.
  apply keeps_bind; [apply keeps_get_world|]. intros w. apply keeps_lift.
Qed.

Lemma keeps_for_each {A} (l : list A) body :
  (forall x, keeps f (body x)) -> keeps f (for_each l body).
Proof.
  intros Hb. induction l as [|x l IH]; cbn; [apply keeps_ret|].
  apply keeps_bind; [apply Hb|]. by intros _.
Qed.

End Keeps.

Section OnlyAdds.
Context (P : event -> Prop).

Lemma only_adds_ret {A} (a : A) : only_adds P (ret a).
Proof. intros w. exists []. by rewrite app_nil_r. Qed.

Lemma only_adds_raise {A} e : only_adds P (@raise A e).
Proof. intros w. exists []. by rewrite app_nil_r. Qed.

Lemma only_adds_lift {A} (r : py A) : only_adds P (lift r).
Proof. intros w. exists []. by rewrite app_nil_r. Qed.

Lemma only_adds_get_world : only_adds P get_world.
Proof. intros w. exists []. by rewrite app_nil_r. Qed.

Lemma only_adds_put_fs m : only_adds P (put_fs m).
Proof. intros w. exists []. cbn. by rewrite app_nil_r. Qed.

Lemma only_adds_put_lms s : only_adds P (put_lms s).
Proof. intros w. exists []. cbn. by rewrite app_nil_r. Qed.

Lemma only_adds_emit e : P e -> only_adds P (emit e).
Proof. intros He w. exists [e]. split; [done|]. by constructor. Qed.

Lemma only_adds_bind {A B} (m : M A) (k : A -> M B) :
  only_adds P m -> (forall a, only_adds P (k a)) -> only_adds P (bind m k).
Proof.
  intros Hm Hk w. unfold bind. destruct (Hm w) as (e1 & E1 & F1).
  destruct (m w) as [[a|e] w']; cbn in *; [|eauto].
  destruct (Hk a w') as (e2 & E2 & F2). exists (e1 ++ e2).
  rewrite E2, E1, app_assoc. split; [done|]. by apply Forall_app.
Qed.

Lemma only_adds_try {A} c (m : M A) h :
  only_adds P m -> (forall e, only_adds P (h e)) -> only_adds P (try_except c m h).
Proof.
  intros Hm Hh w. unfold try_except. destruct (Hm w) as (e1 & E1 & F1).
  destruct (m w) as [[a|e] w']; cbn in *; [eauto|].
  assert (Hcaught : exists evs,
            trace (snd (h e w')) = trace w ++ evs /\ Forall P evs).
  { destruct (Hh e w') as (e2 & E2 & F2). exists (e1 ++ e2).
    rewrite E2, E1, app_assoc. split; [done|]. by apply Forall_app. }
  destruct e; try (destruct (c _)); eauto.
Qed.

Lemma only_adds_for_each {A} (l : list A) body :
  (forall x, only_adds P (body x)) -> only_adds P (for_each l body).
Proof.
  intros Hb. induction l as [|x l IH]; cbn; [apply only_adds_ret|].
  apply only_adds_bind; [apply Hb|]. by intros _.
Qed.

End OnlyAdds.

Lemma only_adds_weaken {A} (P Q : event -> Prop) (m : M A) :
  (forall e, P e -> Q e) -> only_adds P m -> only_adds Q m.
Proof.
  intros HPQ Hm w. destruct (Hm w) as (evs & E & F). exists evs. split; [done|].
  eapply Forall_impl; eauto.
Qed.

Lemma only_adds_for_each_in (P : event -> Prop) {A} (l : list A) body :
  (forall x, x ∈ l -> only_adds P (body x)) -> only_adds P (for_each l body).
Proof.
  induction l as [|x l IH]; intros Hb; cbn; [apply only_adds_ret|].
  apply only_adds_bind; [apply Hb; by left|]. intros _. apply IH.
  intros y Hy. apply Hb. by right.
Qed.

Lemma requests_sent_record e w :
  requests_sent (trace (record e w))
  = requests_sent (trace w) ++ match e with Sent r => [r] | _ => [] end.
Proof. cbn. rewrite requests_sent_app. by destruct e. Qed.

Lemma subscript_raises j k e : subscript j k = Raise e -> e = KeyError \/ e = TypeError.
Proof.
  destruct j; cbn; try (intros [= <-]; by right).
  destruct (dict_get k members); [done|]. intros [= <-]. by left.
Qed.

(** One step of a frame proof: strip the outermost monad operation. *)
Ltac keeps_step :=
  first
    [ apply keeps_ret | apply keeps_raise | apply keeps_lift | apply keeps_get_world
    | apply keeps_log; done | apply keeps_send; done | apply keeps_emit; done
    | apply keeps_bind; [|intros ?] | apply keeps_try; [|intros ?]
    | apply keeps_for_each; intros ?
    | match goal with
      | |- keeps _ (if ?b then _ else _) => destruct b
      | |- keeps _ (match ?x with _ => _ end) => destruct x
      end ].

(** The same for the events added. *)
Ltac adds_step :=
  first
    [ apply only_adds_ret | apply only_adds_raise | apply only_adds_lift
    | apply only_adds_get_world | apply only_adds_put_fs | apply only_adds_put_lms
    | apply only_adds_emit; done
    | apply only_adds_bind; [|intros ?] | apply only_adds_try; [|intros ?]
    | apply only_adds_for_each; intros ?
    | match goal with
      | |- only_adds _ (if ?b then _ else _) => destruct b
      | |- only_adds _ (match ?x with _ => _ end) => destruct x
      end ].

(** Normalises the requests of a trace built by [record]. *)
Ltac sent_simpl :=
  cbn [fst snd net cfg lms fs trace record with_lms with_fs];
  repeat (rewrite requests_sent_app; cbn [requests_sent omap]);
  cbn; rewrite ?app_nil_r, <- ?app_assoc; cbn.

End FrameFacts.

(** ** The client: what is sent and what comes back *)

Module RequestFacts.
Import Canvas ClientFacts FrameFacts.
Local Open Scope list_scope.

(** *** get_user_id *)

Lemma get_user_id_gives_up w username :
  lookup_fails (net w (GetUsers username)) ->
  exists l, get_user_id username w
            = (Ret None, record (Logged l) (record (Sent (GetUsers username)) w)).
Proof.
  unfold lookup_fails, get_user_id. run_m.
  destruct (net w (GetUsers username)) as [r|e]; cbn.
  - destruct (ok2xx (status_code r)) eqn:Hok; cbn.
    + intros [?|[Hb|(j & Hb & Hj)]]; [done| |]; unfold response_json; rewrite Hb; cbn;
        [eauto|].
      destruct Hj as [-> | ->]; cbn; [eauto|]. rewrite orb_true_r. eauto.
    + intros _. destruct (status_code r =? 404)%Z; eauto.
  - intros ->. cbn. eauto.
Qed.

(** Property X1.  [get_user_id] returns [None] and raises nothing when the
    search does not get through, is answered with a status outside
    200..299, with a body that is not JSON, or with a body that is not a
    non-empty list. *)
Theorem user_lookup_absent (w : world) (username : string) :
  lookup_fails (net w (GetUsers username)) ->
  fst (get_user_id username w) = Ret None.
Proof. intros H. destruct (get_user_id_gives_up w username H) as [l ->]. done. Qed.

(** Property X2.  When more than one user matches, [get_user_id] returns
    the id of the first one in the order of the answer, whatever the others
    are. *)
Theorem user_lookup_takes_first_match
    (w : world) (username : string) (r : response)
    (members : list (string * json)) (others : list json) (id : Z) :
  net w (GetUsers username) = Ret r ->
  ok2xx (status_code r) = true ->
  body r = Some (JArr (JObj members :: others)) ->
  dict_get "id" members = Some (JInt id) ->
  fst (get_user_id username w) = Ret (Some id).
Proof.
  intros Hnet Hok Hb Hid. unfold get_user_id. run_m.
  rewrite Hnet. cbn. rewrite Hok. cbn. unfold response_json. rewrite Hb. cbn.
  by rewrite Hid.
Qed.

(** Property X3.  When the first element of the answer is not an object
    with the key ['id'], the [KeyError] or [TypeError] of
    [user_data[0]['id']] leaves [get_user_id]: only
    [requests.RequestException] is caught there. *)
Theorem user_lookup_shape_error_reaches_caller
    (w : world) (username : string) (r : response)
    (first : json) (others : list json) (e : exn) :
  net w (GetUsers username) = Ret r ->
  ok2xx (status_code r) = true ->
  body r = Some (JArr (first :: others)) ->
  subscript first "id" = Raise e ->
  fst (get_user_id username w) = Raise e /\ (e = KeyError \/ e = TypeError).
Proof.
  intros Hnet Hok Hb Hid. unfold get_user_id. run_m.
  rewrite Hnet. cbn. rewrite Hok. cbn. unfold response_json. rewrite Hb. cbn.
  rewrite Hid. cbn. destruct (subscript_raises _ _ _ Hid) as [-> | ->]; auto.
Qed.

(** The outcome of a lookup depends on the platform's answers alone. *)
Lemma get_user_id_by_net username w w' :
  net w' = net w -> fst (get_user_id username w') = fst (get_user_id username w).
Proof.
  intros Hnet. unfold get_user_id. run_m. rewrite Hnet.
  destruct (net w (GetUsers username)) as [r|e]; cbn; [|by destruct e].
  destruct (ok2xx (status_code r)); cbn; [|by destruct (status_code r =? 404)%Z].
  destruct (response_json r) as [j|e]; cbn; [|by destruct e].
  destruct (negb (json_truthy j) || negb (is_list j)); cbn; [done|].
  destruct (first_item j) as [x|e]; cbn; [|by destruct e].
  destruct (subscript x "id") as [i|e]; cbn; [|by destruct e].
  destruct (id_value i) as [o|e]; cbn; [done|by destruct e].
Qed.

Lemma get_user_id_keeps {X} (f : world -> X) username :
  trace_blind f -> keeps f (get_user_id username).
Proof. intros Hf. unfold get_user_id. repeat keeps_step. Qed.

Lemma get_user_id_sends username w :
  requests_sent (trace (snd (get_user_id username w)))
  = requests_sent (trace w) ++ [GetUsers username].
Proof.
  unfold get_user_id. run_m.
  destruct (net w (GetUsers username)) as [r|e]; cbn.
  - destruct (ok2xx (status_code r)); cbn.
    + destruct (response_json r) as [j|e]; cbn; [|destruct e; sent_simpl; done].
      destruct (negb (json_truthy j) || negb (is_list j)); cbn; [by sent_simpl|].
      destruct (first_item j) as [x|e]; cbn; [|destruct e; sent_simpl; done].
      destruct (subscript x "id") as [i|e]; cbn; [|destruct e; sent_simpl; done].
      destruct (id_value i) as [o|e]; cbn; [|destruct e]; by sent_simpl.
    + destruct (status_code r =? 404)%Z; by sent_simpl.
  - destruct e; by sent_simpl.
Qed.

(** Property X4.  Whatever the answer, [get_user_id] sends exactly one
    request, the search for the username, and changes neither the file
    system nor the platform's folders. *)
Theorem user_lookup_one_request (w : world) (username : string) :
  let out := get_user_id username w in
  requests_sent (trace (snd out)) = requests_sent (trace w) ++ [GetUsers username]
  /\ fs (snd out) = fs w /\ lms (snd out) = lms w.
Proof.
  cbv zeta. split; [apply get_user_id_sends|].
  split; by apply get_user_id_keeps.
Qed.

(** *** get_remaining_space *)

(** The outcome of a quota query depends on the platform's answers alone. *)
Lemma get_remaining_space_by_net user_id w w' :
  net w' = net w ->
  fst (get_remaining_space user_id w') = fst (get_remaining_space user_id w).
Proof.
  intros Hnet. unfold get_remaining_space. run_m. rewrite Hnet.
  destruct (net w (GetQuota user_id)) as [r|e]; cbn; [|done].
  destruct (ok2xx (status_code r)); cbn; [|done].
  destruct (response_json r) as [j|e]; cbn; [|by destruct e].
  destruct (subscript j "quota") as [q|e]; cbn; [|by destruct e].
  destruct (subscript j "quota_used") as [u|e]; cbn; [|by destruct e].
  destruct (div_mb q) as [a|e]; cbn; [|by destruct e].
  destruct (div_mb u) as [b|e]; cbn; [|by destruct e].
  destruct (Float.sub a b) as [c|e]; cbn; [done|by destruct e].
Qed.

Lemma get_remaining_space_keeps {X} (f : world -> X) user_id :
  trace_blind f -> keeps f (get_remaining_space user_id).
Proof. intros Hf. unfold get_remaining_space. repeat keeps_step. Qed.

(** Property X5.  [get_remaining_space] catches [KeyError] alone: a quota
    request that does not get through, a 2xx answer whose body is not JSON
    or not an object, a ["quota"] that is not a number, and a
    ["quota_used"] that is not a number after a ["quota"] that divides, make
    it raise instead of returning [None]. *)
Theorem quota_errors_reach_caller (w : world) (user_id : option Z) (e : exn) :
  quota_answer_raises (net w (GetQuota user_id)) e ->
  fst (get_remaining_space user_id w) = Raise e.
Proof.
  unfold quota_answer_raises, get_remaining_space. run_m.
  destruct (net w (GetQuota user_id)) as [r|e']; cbn; [|by intros ->].
  intros [-> H]. cbn. unfold response_json.
  destruct H as [[-> ->]|[(j & -> & Hj & ->)|(m & qj & uj & -> & Hq & Hu & Hn & ->)]]; cbn.
  - done.
  - destruct j; cbn; try done. by destruct (Hj members).
  - rewrite Hq, Hu. cbn.
    destruct Hn as [Hn|[Hn [x Hx]]].
    + by rewrite (div_mb_not_a_number _ Hn).
    + rewrite Hx. cbn. by rewrite (div_mb_not_a_number _ Hn).
Qed.

(** *** upload_file *)

Lemma upload_file_keeps {X} (f : world -> X) folder_id file_name file_path content_type user_id :
  trace_blind f ->
  keeps f (upload_file folder_id file_name file_path content_type user_id).
Proof. intros Hf. unfold upload_file, open_rb. repeat keeps_step. Qed.

(** Property X6.  For a path at which nothing exists, [upload_file]
    returns [None] and sends no request. *)
Theorem upload_of_missing_file_sends_nothing
    (w : world) (folder_id : folder_result) (file_name : string)
    (file_path : list string) (content_type : string) (user_id : option Z) :
  Fs.exists_ (fs w) file_path = false ->
  let out := upload_file folder_id file_name file_path content_type user_id w in
  fst out = Ret None /\ requests_sent (trace (snd out)) = requests_sent (trace w).
Proof.
  intros Hex. unfold upload_file. run_m. rewrite Hex. cbn. split; [done|]. by sent_simpl.
Qed.

(** Property X7.  As long as the platform's answers stay within the model,
    [upload_file] raises nothing: it returns a status code or [None], and it
    changes neither the file system nor the platform's folders. *)
Theorem upload_never_raises
    (w : world) (folder_id : folder_result) (file_name : string)
    (file_path : list string) (content_type : string) (user_id : option Z) :
  modelled_net w ->
  let out := upload_file folder_id file_name file_path content_type user_id w in
  (exists code, fst out = Ret code)
  /\ fs (snd out) = fs w /\ lms (snd out) = lms w.
Proof.
  intros Hnet. cbv zeta. split; [|split; by apply upload_file_keeps].
  unfold upload_file. run_m.
  destruct (Fs.exists_ (fs w) file_path) eqn:Hex; cbn; [|eauto].
  assert (exists size, Fs.getsize (fs w) file_path = Ret size) as [size ->].
  { unfold Fs.getsize, Fs.exists_ in *.
    destruct (Fs.lookup_node (fs w) file_path) as [[]|]; eauto; done. }
  cbn. match goal with |- context [net w ?r] =>
    pose proof (Hnet r) as Hr; destruct (net w r) as [t|e] end; cbn.
  2:{ destruct e; try done; cbn; eauto. }
  destruct (ok2xx (status_code t)); cbn; [|eauto].
  destruct (response_json t) as [j|e] eqn:Hj; cbn.
  2:{ unfold response_json in Hj. destruct (body t); [done|]. injection Hj as <-. cbn. eauto. }
  destruct (subscript j "upload_url") as [url|e] eqn:Hurl; cbn.
  2:{ destruct (subscript_raises _ _ _ Hurl) as [-> | ->]; cbn; eauto. }
  destruct (subscript j "upload_params") as [params|e] eqn:Hpar; cbn.
  2:{ destruct (subscript_raises _ _ _ Hpar) as [-> | ->]; cbn; eauto. }
  destruct (Fs.isfile (fs w) file_path); cbn; [|eauto].
  match goal with |- context [net w ?r] =>
    pose proof (Hnet r) as Hr2; destruct (net w r) as [t2|e] end; cbn.
  2:{ destruct e; try done; cbn; eauto. }
  destruct (ok2xx (status_code t2)); cbn; eauto.
Qed.

(** Property X8.  When the ticket request is answered with 2xx and a body
    carrying ["upload_url"] and ["upload_params"], and the path is a regular
    file, [upload_file] sends two requests, the ticket request with the
    file's size and then the transfer to the ticket's URL with the ticket's
    parameters, and returns the status of the transfer, be it 2xx or
    not. *)
Theorem upload_in_two_phases
    (w : world) (folder_id : folder_result) (file_name : string)
    (file_path : list string) (content_type : string) (user_id : option Z)
    (size : Z) (ticket : response) (j upload_url upload_params : json)
    (answer : response) :
  Fs.getsize (fs w) file_path = Ret size ->
  Fs.isfile (fs w) file_path = true ->
  net w (PostTicket folder_id file_name size content_type
           (if truthy_id user_id then user_id else None)) = Ret ticket ->
  ok2xx (status_code ticket) = true ->
  body ticket = Some j ->
  subscript j "upload_url" = Ret upload_url ->
  subscript j "upload_params" = Ret upload_params ->
  net w (PostFile upload_url upload_params file_name file_path) = Ret answer ->
  let out := upload_file folder_id file_name file_path content_type user_id w in
  fst out = Ret (Some (status_code answer))
  /\ requests_sent (trace (snd out))
     = requests_sent (trace w)
       ++ [PostTicket folder_id file_name size content_type
             (if truthy_id user_id then user_id else None);
           PostFile upload_url upload_params file_name file_path].
Proof.
  intros Hsize Hfile Ht Hok Hb Hurl Hpar Ha. unfold upload_file. run_m.
  assert (Hex : Fs.exists_ (fs w) file_path = true).
  { unfold Fs.isfile, Fs.exists_ in *. by destruct (Fs.lookup_node (fs w) file_path). }
  rewrite Hex, Hsize. cbn. rewrite Ht. cbn. rewrite Hok. cbn.
  unfold response_json. rewrite Hb. cbn. rewrite Hurl, Hpar. cbn. rewrite Hfile. cbn.
  rewrite Ha. cbn. destruct (ok2xx (status_code answer)); cbn; (split; [done|]); by sent_simpl.
Qed.

(** Property X9.  After a ticket request answered with 2xx, [upload_file]
    returns [None] without attempting the transfer when the body is not JSON
    or lacks one of the two keys, or when the path is not a regular
    file. *)
Theorem upload_stops_on_unusable_ticket
    (w : world) (folder_id : folder_result) (file_name : string)
    (file_path : list string) (content_type : string) (user_id : option Z)
    (size : Z) (ticket : response) :
  Fs.getsize (fs w) file_path = Ret size ->
  net w (PostTicket folder_id file_name size content_type
           (if truthy_id user_id then user_id else None)) = Ret ticket ->
  ok2xx (status_code ticket) = true ->
  ticket_unusable ticket \/ Fs.isfile (fs w) file_path = false ->
  let out := upload_file folder_id file_name file_path content_type user_id w in
  fst out = Ret None
  /\ requests_sent (trace (snd out))
     = requests_sent (trace w)
       ++ [PostTicket folder_id file_name size content_type
             (if truthy_id user_id then user_id else None)].
Proof.
  intros Hsize Ht Hok Hbad. unfold upload_file. run_m.
  assert (Hex : Fs.exists_ (fs w) file_path = true).
  { unfold Fs.getsize, Fs.exists_ in *. by destruct (Fs.lookup_node (fs w) file_path). }
  rewrite Hex, Hsize. cbn. rewrite Ht. cbn. rewrite Hok. cbn. unfold response_json.
  unfold ticket_unusable in Hbad.
  destruct (body ticket) as [j|] eqn:Hb; cbn.
  2:{ split; [done|]. by sent_simpl. }
  destruct (subscript j "upload_url") as [url|e] eqn:Hurl; cbn.
  2:{ destruct (subscript_raises _ _ _ Hurl) as [-> | ->]; cbn; (split; [done|]); by sent_simpl. }
  destruct (subscript j "upload_params") as [params|e] eqn:Hpar; cbn.
  2:{ destruct (subscript_raises _ _ _ Hpar) as [-> | ->]; cbn; (split; [done|]); by sent_simpl. }
  destruct Hbad as [[?|(j' & [= <-] & [[e He]|[e He]])]|Hfile]; try congruence.
  rewrite Hfile. cbn. split; [done|]. by sent_simpl.
Qed.

Section WorkedRequests.
Local Open Scope string_scope.

(** The theorem of property X1 at a search answered with 404. *)
Lemma user_lookup_absent_witness :
  fst (get_user_id "bob" (world_ex net_ok [])) = Ret None.
Proof. apply user_lookup_absent. left. reflexivity. Defined.

(** The theorem of property X2 at an answer with the users 7 and 8. *)
Lemma user_lookup_takes_first_match_witness :
  fst (get_user_id "alice" (world_ex (net_search (Ret two_matches)) [])) = Ret (Some 7%Z).
Proof.
  apply (user_lookup_takes_first_match _ _ two_matches
           [("id", JInt 7)] [JObj [("id", JInt 8)]] 7); reflexivity.
Defined.

(** The theorem of property X3 at an answer listing a name instead of a
    user object. *)
Lemma user_lookup_shape_error_reaches_caller_witness :
  fst (get_user_id "alice" (world_ex (net_search (Ret names_only)) [])) = Raise TypeError
  /\ (TypeError = KeyError \/ TypeError = TypeError).
Proof.
  apply (user_lookup_shape_error_reaches_caller _ _ names_only (JStr "alice") []);
    reflexivity.
Defined.

(** The theorem of property X5 at a quota given in words. *)
Lemma quota_errors_reach_caller_witness :
  fst (get_remaining_space (Some 7%Z) (world_ex (net_quota (Ret quota_in_words)) []))
  = Raise TypeError.
Proof.
  apply quota_errors_reach_caller. split; [reflexivity|]. right. right.
  exists [("quota", JStr "plenty"); ("quota_used", JInt 1)], (JStr "plenty"), (JInt 1).
  split; [reflexivity|]. split; [reflexivity|]. split; [reflexivity|].
  split; [left; reflexivity|reflexivity].
Defined.

(** The theorem of property X6 at [sem/ghost.pdf]. *)
Lemma upload_of_missing_file_sends_nothing_witness :
  let out := upload_file (RId 43) "ghost.pdf" ["sem"; "ghost.pdf"] "application/pdf"
               (Some 7%Z) (world_ex net_ok ["report_alice.pdf"]) in
  fst out = Ret None
  /\ requests_sent (trace (snd out))
     = requests_sent (trace (world_ex net_ok ["report_alice.pdf"])).
Proof. apply upload_of_missing_file_sends_nothing. reflexivity. Defined.

(** The theorem of property X7 on the platform [net_ok]. *)
Lemma upload_never_raises_witness :
  let out := upload_file (RId 43) "report_alice.pdf" alice_file "application/pdf"
               (Some 7%Z) (world_ex net_ok ["report_alice.pdf"]) in
  (exists code, fst out = Ret code)
  /\ fs (snd out) = fs (world_ex net_ok ["report_alice.pdf"])
  /\ lms (snd out) = lms (world_ex net_ok ["report_alice.pdf"]).
Proof.
  apply upload_never_raises. intros r. destruct r; simpl; try discriminate.
  destruct (String.eqb search_term "alice"); discriminate.
Defined.

(** The theorem of property X8 at [report_alice.pdf], transferred with
    201. *)
Lemma upload_in_two_phases_witness :
  let out := upload_file (RId 43) "report_alice.pdf" alice_file "application/pdf"
               (Some 7%Z) (world_ex net_ok ["report_alice.pdf"]) in
  fst out = Ret (Some 201%Z)
  /\ requests_sent (trace (snd out))
     = (requests_sent (trace (world_ex net_ok ["report_alice.pdf"]))
        ++ [PostTicket (RId 43) "report_alice.pdf" 10 "application/pdf" (Some 7%Z);
            PostFile (JStr "https://upload") (JObj []) "report_alice.pdf" alice_file])%list.
Proof.
  apply (upload_in_two_phases (world_ex net_ok ["report_alice.pdf"]) (RId 43)
           "report_alice.pdf" alice_file "application/pdf" (Some 7%Z) 10 ticket_granted
           (JObj [("upload_url", JStr "https://upload"); ("upload_params", JObj [])])
           (JStr "https://upload") (JObj []) (bare 201)); reflexivity.
Defined.

(** The theorem of property X9 at a ticket answered with 200 and no
    body. *)
Lemma upload_stops_on_unusable_ticket_witness :
  let w := world_ex (net_ticket (Ret (bare 200))) ["report_alice.pdf"] in
  let out := upload_file (RId 43) "report_alice.pdf" alice_file "application/pdf"
               (Some 7%Z) w in
  fst out = Ret None
  /\ requests_sent (trace (snd out))
     = (requests_sent (trace w)
        ++ [PostTicket (RId 43) "report_alice.pdf" 10 "application/pdf" (Some 7%Z)])%list.
Proof.
  apply (upload_stops_on_unusable_ticket
           (world_ex (net_ticket (Ret (bare 200))) ["report_alice.pdf"]) (RId 43)
           "report_alice.pdf" alice_file "application/pdf" (Some 7%Z) 10 (bare 200));
    [reflexivity | reflexivity | reflexivity | left; left; reflexivity].
Defined.

End WorkedRequests.

End RequestFacts.

(** ** The client: folder resolution *)

Module FolderFacts.
Import Canvas ClientFacts FrameFacts RequestFacts.
Local Open Scope list_scope.

Lemma split_slash_nonempty acc s : split_slash acc s <> [].
Proof.
  revert acc. induction s as [|c s IH]; intros acc; cbn; [done|].
  destruct (Ascii.eqb c "/"); [done|apply IH].
Qed.

Section WalkFrame.
Context {X : Type} (f : world -> X).
Hypothesis Htrace : trace_blind f.
Hypothesis Hcreate : create_blind f.

Lemma keeps_canvas_get_user user_id : keeps f (canvas_get_user user_id).
Proof using Htrace Hcreate. unfold canvas_get_user. repeat keeps_step. Qed.

Lemma keeps_canvas_get_folder id : keeps f (canvas_get_folder id).
Proof using Htrace Hcreate. unfold canvas_get_folder. repeat keeps_step. Qed.

Lemma keeps_user_get_folders user : keeps f (user_get_folders user).
Proof using Htrace Hcreate. unfold user_get_folders. repeat keeps_step. Qed.

Lemma keeps_folder_get_folders d : keeps f (folder_get_folders d).
Proof using Htrace Hcreate. unfold folder_get_folders. repeat keeps_step. Qed.

Lemma keeps_user_create_folder user name : keeps f (user_create_folder user name).
Proof using Htrace Hcreate. intros w. unfold user_create_folder. run_m. rewrite <- (Htrace (Called (CCreateUserFolder user name)) w).
  exact (Hcreate (record (Called (CCreateUserFolder user name)) w) (inl user) name).
Qed.

Lemma keeps_folder_create_folder d name : keeps f (folder_create_folder d name).
Proof using Htrace Hcreate. intros w. unfold folder_create_folder. run_m. rewrite <- (Htrace (Called (CCreateSubfolder (id_of d) name)) w).
  exact (Hcreate (record (Called (CCreateSubfolder (id_of d) name)) w) (inr (id_of d)) name).
Qed.

Lemma keeps_walk user folders : forall cur, keeps f (walk user folders cur).
Proof using Htrace Hcreate.
  induction folders as [|folder_name rest IH]; intros cur; cbn [walk]; [apply keeps_ret|].
  apply keeps_bind.
  { destruct (truthy_id cur); [|apply keeps_user_get_folders].
    apply keeps_bind; [apply keeps_canvas_get_folder|]. intros d. apply keeps_folder_get_folders. }
  intros folders_list. cbv zeta. apply keeps_bind; [|intros d; apply IH].
  destruct (find _ folders_list); [apply keeps_ret|].
  destruct (truthy_id cur); [|apply keeps_user_create_folder].
  apply keeps_bind; [apply keeps_canvas_get_folder|]. intros d. apply keeps_folder_create_folder.
Qed.

Lemma keeps_get_or_create_folder user_id folder_path folder_id :
  keeps f (get_or_create_folder user_id folder_path folder_id).
Proof using Htrace Hcreate.
  unfold get_or_create_folder. apply keeps_try.
  - destruct (truthy_id folder_id).
    + apply keeps_bind; [apply keeps_canvas_get_folder|]. intros d. apply keeps_ret.
    + apply keeps_bind; [apply keeps_canvas_get_user|]. intros user. cbv zeta.
      apply keeps_bind; [apply keeps_walk|]. intros r. apply keeps_ret.
  - intros e. repeat keeps_step.
Qed.

End WalkFrame.

Lemma walk_unsent user folders : forall cur, only_adds not_sent (walk user folders cur).
Proof.
  induction folders as [|folder_name rest IH]; intros cur; cbn [walk]; [apply only_adds_ret|].
  unfold canvas_get_folder, folder_get_folders, user_get_folders, user_create_folder,
    folder_create_folder.
  apply only_adds_bind.
  { destruct (truthy_id cur); repeat adds_step. }
  intros folders_list. cbv zeta. apply only_adds_bind; [|intros d; apply IH].
  destruct (find _ folders_list); [apply only_adds_ret|].
  destruct (truthy_id cur); repeat adds_step.
Qed.

Lemma get_or_create_folder_unsent user_id folder_path folder_id :
  only_adds not_sent (get_or_create_folder user_id folder_path folder_id).
Proof.
  unfold get_or_create_folder, canvas_get_folder, canvas_get_user, log.
  apply only_adds_try.
  - destruct (truthy_id folder_id).
    + repeat adds_step.
    + apply only_adds_bind; [repeat adds_step|]. intros user. cbv zeta.
      apply only_adds_bind; [apply walk_unsent|]. intros r. apply only_adds_ret.
  - intros e. repeat adds_step.
Qed.

(** The folders a walk adds: at most one per segment, each named after a
    segment; and the walk stays inside the model. *)
Lemma walk_adds user folders : forall cur w,
  fst (walk user folders cur w) <> Raise NotModelled
  /\ exists extra,
    Lms.folders (lms (snd (walk user folders cur w))) = Lms.folders (lms w) ++ extra
    /\ (length extra <= length folders)%nat
    /\ Forall (fun d => name_of d ∈ folders) extra.
Proof.
  induction folders as [|folder_name rest IH]; intros cur w.
  - cbn. split; [done|]. exists []. by rewrite app_nil_r.
  - assert (Hstep : forall c w0 new,
      Lms.folders (lms w0) = Lms.folders (lms w) ++ new ->
      (length new <= 1)%nat -> Forall (fun d => name_of d = folder_name) new ->
      fst (walk user rest c w0) <> Raise NotModelled
      /\ exists extra,
        Lms.folders (lms (snd (walk user rest c w0))) = Lms.folders (lms w) ++ extra
        /\ (length extra <= S (length rest))%nat
        /\ Forall (fun d => name_of d ∈ folder_name :: rest) extra).
    { intros c w0 new Hnew Hlen Hnames. destruct (IH c w0) as (Hne & extra & Hx & Hl & Hn).
      split; [done|]. exists (new ++ extra). rewrite Hx, Hnew, <- app_assoc.
      split; [done|]. split; [rewrite length_app; lia|]. apply Forall_app. split.
      - eapply Forall_impl; [exact Hnames|]. intros d ->. by left.
      - eapply Forall_impl; [exact Hn|]. intros d Hd. by right. }
    assert (Hstop : Lms.folders (lms w) = Lms.folders (lms w) ++ [] /\
              (length (@nil folder) <= S (length rest))%nat /\
              Forall (fun d => name_of d ∈ folder_name :: rest) []).
    { rewrite app_nil_r. cbn. split; [done|]. split; [lia|constructor]. }
    cbn [walk]. run_m. destruct (truthy_id cur).
    + destruct (Lms.get_folder (lms w) (default 0%Z cur)) as [f0|e] eqn:Hf0; cbn.
      2:{ unfold Lms.get_folder in Hf0. destruct (find _ _); [done|]. injection Hf0 as <-.
          split; [done|]. by exists []. }
      destruct (find _ (Lms.children (lms w) (inr (id_of f0)))) as [d|]; cbn.
      * apply (Hstep _ _ []); cbn; [by rewrite app_nil_r|lia|constructor].
      * rewrite Hf0. cbn. eapply (Hstep _ _ [_]); cbn; [done|lia|]. by repeat constructor.
    + destruct (find _ (Lms.children (lms w) (inl user))) as [d|]; cbn.
      * apply (Hstep _ _ []); cbn; [by rewrite app_nil_r|lia|constructor].
      * eapply (Hstep _ _ [_]); cbn; [done|lia|]. by repeat constructor.
Qed.

(** Property X10.  [get_or_create_folder] always returns: what is raised
    inside is caught.  It leaves the local file system and the platform's
    users alone, and only appends folders to the platform's: at most one per
    segment of the path, each named after a segment. *)
Theorem resolve_folder_returns_and_only_adds_folders
    (w : world) (user_id : option Z) (folder_path : string) (folder_id : option Z) :
  let out := get_or_create_folder user_id folder_path folder_id w in
  let segments := split_slash EmptyString folder_path in
  (exists r, fst out = Ret r)
  /\ fs (snd out) = fs w
  /\ Lms.users (lms (snd out)) = Lms.users (lms w)
  /\ exists extra,
       Lms.folders (lms (snd out)) = Lms.folders (lms w) ++ extra
       /\ (length extra <= length segments)%nat
       /\ Forall (fun d => name_of d ∈ segments) extra.
Proof.
  cbv zeta. split; [|split; [|split]].
  - unfold get_or_create_folder. run_m. destruct (truthy_id folder_id).
    + unfold Lms.get_folder. destruct (find _ _); cbn; eauto.
    + unfold Lms.get_user. destruct user_id as [u|]; cbn; [|eauto].
      destruct (bool_decide _); cbn; [|eauto].
      match goal with |- context [walk ?u ?segs None ?w0] =>
        destruct (walk_adds u segs None w0) as [Hne _];
        destruct (walk u segs None w0) as [[r|e] w1] end; cbn in *; [eauto|].
      destruct e; try done; cbn; eauto.
  - by apply keeps_get_or_create_folder.
  - by apply (keeps_get_or_create_folder (fun w => Lms.users (lms w))).
  - unfold get_or_create_folder. run_m.
    assert (Hnil : exists extra : list folder,
              Lms.folders (lms w) = Lms.folders (lms w) ++ extra
              /\ (length extra <= length (split_slash EmptyString folder_path))%nat
              /\ Forall (fun d => name_of d ∈ split_slash EmptyString folder_path) extra).
    { exists []. rewrite app_nil_r. cbn. split; [done|]. split; [lia|constructor]. }
    destruct (truthy_id folder_id).
    + destruct (Lms.get_folder _ _) as [d|e]; cbn; [done|]. by destruct e.
    + destruct (Lms.get_user (lms w) user_id) as [user|e]; cbn; [|by destruct e].
      match goal with |- context [walk user ?segs None ?w0] =>
        destruct (walk_adds user segs None w0) as [_ Hx];
        destruct (walk user segs None w0) as [[r|e] w1] end; cbn in *; [done|].
      by destruct e.
Qed.

Lemma get_or_create_folder_without_user w user_id folder_path e :
  Lms.get_user (lms w) user_id = Raise e ->
  get_or_create_folder user_id folder_path None w
  = (Ret RNone, record (Logged (FolderError folder_path user_id))
                  (record (Called (CGetUser user_id)) w)).
Proof.
  intros Hu. unfold get_or_create_folder. cbn [truthy_id]. run_m. rewrite Hu. cbn.
  assert (He : e = TypeError \/ e = CanvasException).
  { unfold Lms.get_user in Hu. destruct user_id; [destruct (bool_decide _)|]; naive_solver. }
  by destruct He as [-> | ->].
Qed.

(** Property X11.  When the platform does not give the user, as for the
    user id [None] of a failed lookup, [get_or_create_folder] returns [None]
    after the one call [Canvas.get_user] and creates nothing. *)
Theorem resolve_folder_for_unknown_user
    (w : world) (user_id : option Z) (folder_path : string) (e : exn) :
  Lms.get_user (lms w) user_id = Raise e ->
  let out := get_or_create_folder user_id folder_path None w in
  fst out = Ret RNone
  /\ lms (snd out) = lms w
  /\ calls_made (trace (snd out)) = calls_made (trace w) ++ [CGetUser user_id].
Proof.
  intros Hu. cbv zeta. rewrite (get_or_create_folder_without_user _ _ _ _ Hu). cbn.
  rewrite !calls_made_app. cbn. by rewrite app_nil_r.
Qed.

Lemma walk_follows user folders : forall cur w,
  positive_ids (lms w) ->
  (forall c, cur = Some c -> (0 < c)%Z /\ exists d, Lms.get_folder (lms w) c = Ret d) ->
  exists r w1,
    walk user folders cur w = (Ret r, w1)
    /\ (exists extra, Lms.folders (lms w1) = Lms.folders (lms w) ++ extra)
    /\ follow (lms w1) (place user cur) folders = Some (place user r)
    /\ (folders <> [] -> exists id, r = Some id /\ (0 < id)%Z).
Proof.
  induction folders as [|folder_name rest IH]; intros cur w Hpos Hcur.
  - exists cur, w. cbn. split; [done|]. split; [exists []; by rewrite app_nil_r|]. done.
  - assert (Hnext : forall d w0 new,
      Lms.folders (lms w0) = Lms.folders (lms w) ++ new ->
      positive_ids (lms w0) -> (0 < id_of d)%Z -> d ∈ Lms.folders (lms w0) ->
      find (fun x => String.eqb (name_of x) folder_name)
        (Lms.children (lms w0) (place user cur)) = Some d ->
      exists r w1,
        walk user rest (Some (id_of d)) w0 = (Ret r, w1)
        /\ (exists extra, Lms.folders (lms w1) = Lms.folders (lms w) ++ extra)
        /\ follow (lms w1) (place user cur) (folder_name :: rest) = Some (place user r)
        /\ (folder_name :: rest <> [] -> exists id, r = Some id /\ (0 < id)%Z)).
    { intros d w0 new Hnew Hpos0 Hid Hin Hfind.
      destruct (IH (Some (id_of d)) w0 Hpos0) as (r & w1 & Hrun & [extra Hx] & Hfol & Hr).
      { intros c [= <-]. split; [done|]. by apply get_folder_of_elem. }
      exists r, w1. split; [done|]. split.
      { exists (new ++ extra). by rewrite Hx, Hnew, <- app_assoc. }
      split.
      - cbn [follow]. rewrite (children_extend _ _ _ _ Hx), (find_app_Some _ _ _ _ Hfind).
        exact Hfol.
      - intros _. destruct rest as [|x rest'].
        + cbn in Hrun. injection Hrun as <- <-. eauto.
        + by apply Hr. }
    cbn [walk]. run_m. destruct cur as [c|]; cbn [truthy_id place default id] in *.
    + destruct (Hcur c eq_refl) as [Hc [f0 Hf0]].
      assert (negb (c =? 0)%Z = true) as -> by (apply negb_true_iff, Z.eqb_neq; lia).
      rewrite Hf0. cbn. pose proof (get_folder_id _ _ _ Hf0) as Hid0. rewrite Hid0.
      destruct (find _ (Lms.children (lms w) (inr c))) as [d|] eqn:Hfind; cbn.
      * assert (Hin : d ∈ Lms.folders (lms w)).
        { apply find_Some_elem in Hfind as [Hin _]. by apply children_elem in Hin. }
        apply (Hnext d _ []); cbn; [by rewrite app_nil_r|done| |done|done].
        destruct Hpos as [Hall _]. by apply (proj1 (Forall_forall _ _) Hall).
      * rewrite Hf0. cbn. rewrite Hid0. destruct Hpos as [Hall Hn].
        eapply (Hnext {| id_of := Lms.next_id (lms w); name_of := folder_name;
                         parent_of := inr c |} _ [_]); cbn; [reflexivity| |done| |].
        -- split; cbn; [|lia]. apply Forall_app. split; [done|]. by repeat constructor.
        -- apply elem_of_app. right. by left.
        -- unfold Lms.children. cbn. rewrite filter_app.
           unfold Lms.children in Hfind. rewrite (find_app_None _ _ _ Hfind).
           rewrite filter_cons_True by done. cbn. by rewrite String.eqb_refl.
    + destruct (find _ (Lms.children (lms w) (inl user))) as [d|] eqn:Hfind; cbn.
      * assert (Hin : d ∈ Lms.folders (lms w)).
        { apply find_Some_elem in Hfind as [Hin _]. by apply children_elem in Hin. }
        apply (Hnext d _ []); cbn; [by rewrite app_nil_r|done| |done|done].
        destruct Hpos as [Hall _]. by apply (proj1 (Forall_forall _ _) Hall).
      * destruct Hpos as [Hall Hn].
        eapply (Hnext {| id_of := Lms.next_id (lms w); name_of := folder_name;
                         parent_of := inl user |} _ [_]); cbn; [reflexivity| |done| |].
        -- split; cbn; [|lia]. apply Forall_app. split; [done|]. by repeat constructor.
        -- apply elem_of_app. right. by left.
        -- unfold Lms.children. cbn. rewrite filter_app.
           unfold Lms.children in Hfind. rewrite (find_app_None _ _ _ Hfind).
           rewrite filter_cons_True by done. cbn. by rewrite String.eqb_refl.
Qed.

(** Property X12.  For a user the platform knows, and folder ids that are
    positive, [get_or_create_folder] returns an id other than zero, and
    afterwards the segments of the path, followed from the user's root
    through the platform's folders, lead to the folder of that id. *)
Theorem resolved_path_leads_to_result
    (w : world) (user_id : option Z) (user : Z) (folder_path : string) :
  positive_ids (lms w) ->
  Lms.get_user (lms w) user_id = Ret user ->
  let out := get_or_create_folder user_id folder_path None w in
  exists id,
    fst out = Ret (RId id)
    /\ truthy_folder (RId id) = true
    /\ follow (lms (snd out)) (inl user) (split_slash EmptyString folder_path)
       = Some (inr id).
Proof.
  intros Hpos Hu. unfold get_or_create_folder. cbn [truthy_id]. run_m. rewrite Hu. cbn.
  match goal with |- context [walk user ?segs None ?w0] =>
    destruct (walk_follows user segs None w0) as (r & w1 & Hrun & _ & Hfol & Hr);
      [exact Hpos | intros c [=] |] end.
  destruct (Hr (split_slash_nonempty _ _)) as (id & -> & Hid).
  rewrite Hrun. cbn. exists id. split; [done|]. split; [|exact Hfol].
  apply negb_true_iff, Z.eqb_neq. lia.
Qed.

Section WorkedFolders.
Local Open Scope string_scope.

(** The theorem of property X11 at the user id [None]. *)
Lemma resolve_folder_for_unknown_user_witness :
  let out := get_or_create_folder None "Evaluations/Fall" None (world_ex net_ok []) in
  fst out = Ret RNone
  /\ lms (snd out) = lms (world_ex net_ok [])
  /\ calls_made (trace (snd out))
     = (calls_made (trace (world_ex net_ok [])) ++ [CGetUser None])%list.
Proof. apply (resolve_folder_for_unknown_user _ None _ TypeError). reflexivity. Defined.

(** The theorem of property X12 at [Evaluations/Fall] for user 7. *)
Lemma resolved_path_leads_to_result_witness :
  let out := get_or_create_folder (Some 7%Z) "Evaluations/Fall" None (world_ex net_ok []) in
  exists id,
    fst out = Ret (RId id)
    /\ truthy_folder (RId id) = true
    /\ follow (lms (snd out)) (inl 7%Z) (split_slash EmptyString "Evaluations/Fall")
       = Some (inr id).
Proof.
  apply resolved_path_leads_to_result.
  - split; simpl; [repeat constructor|reflexivity].
  - reflexivity.
Defined.

(** The lemma of property X13 at [Evaluations/Fall] for user 7. *)
Lemma resolve_folder_keeps_distinct_siblings_witness :
  distinct_siblings
    (Lms.folders (lms (snd (get_or_create_folder (Some 7%Z) "Evaluations/Fall" None
                              (world_ex net_ok []))))).
Proof.
  apply resolve_folder_keeps_distinct_siblings.
  intros i j f g Hi Hj _ _. destruct i as [|i], j as [|j]; simpl in Hi, Hj;
    [reflexivity | discriminate Hj | discriminate Hi | discriminate Hi].
Defined.

End WorkedFolders.

End FolderFacts.

(** ** The dispatcher: files, recipients and the run *)

Module RunFacts.
Import Canvas ExtractorFacts ClientFacts DispatcherFacts FrameFacts RequestFacts FolderFacts.
Local Open Scope list_scope.

(** Property X14.  When [TOTAL_QUOTA_MB] is not a number, the [try] block
    after a failed upload ends in the constructor of [QuotaManager]: no
    quota request is sent and the file stays where it is. *)
Theorem quarantine_needs_numeric_total_quota
    (user_name : string) (user_id : option Z) (file : list string) (w : world) :
  TOTAL_QUOTA_MB (cfg w) = None ->
  let out := Main.quarantine user_name user_id file w in
  fst out = Ret tt
  /\ fs (snd out) = fs w
  /\ requests_sent (trace (snd out)) = requests_sent (trace w).
Proof.
  intros Htq. unfold Main.quarantine, QuotaManager. run_m. rewrite Htq. cbn.
  split; [done|]. split; [done|]. by sent_simpl.
Qed.

(** Property X15.  When [upload_file] returns a 2xx status, the dispatcher
    does nothing more for the file: the world is as [upload_file] left it,
    no quota request is sent and the file stays in the staging
    directory. *)
Theorem successful_upload_leaves_file
    (user_name : string) (user_id : option Z) (sub_folder_id : folder_result)
    (entry : list string * Q) (w : world) (code : Z) :
  fst (upload_of user_id sub_folder_id entry w) = Ret (Some code) ->
  ok2xx code = true ->
  let out := Main.process_file user_name user_id sub_folder_id entry w in
  fst out = Ret tt
  /\ snd out = snd (upload_of user_id sub_folder_id entry w)
  /\ fs (snd out) = fs w.
Proof.
  intros Hup Hok. cbv zeta.
  pose proof (upload_file_keeps fs sub_folder_id (Fs.basename (fst entry)) (fst entry)
                (default "application/octet-stream"%string
                   (Main.content_types (Main.splitext_ext (Fs.basename (fst entry)))))
                user_id (fun _ _ => eq_refl) w) as Hfs.
  unfold Main.process_file, upload_of, bind in *.
  destruct (upload_file _ _ _ _ _ w) as [r w1]. cbn in *. subst r. cbn.
  rewrite Hok. cbn. done.
Qed.

(** Property X16.  When [upload_file] returns a status outside 200..299,
    the quota query returns, [TOTAL_QUOTA_MB] is a number, and the holding
    directory can be made with nothing but a file at the destination, the
    file is afterwards at
    [EXCEEDED_STORAGE_DIR_PATH/file_storage_exceeded_<user_name>/<name>] and
    no longer at its staging path. *)
Theorem refused_upload_moves_file
    (user_name : string) (user_id : option Z) (sub_folder_id : folder_result)
    (entry : list string * Q) (w : world) (code size : Z) (o : option Q) :
  fst (upload_of user_id sub_folder_id entry w) = Ret (Some code) ->
  ok2xx code = false ->
  fst (get_remaining_space user_id w) = Ret o ->
  TOTAL_QUOTA_MB (cfg w) <> None ->
  Fs.lookup_node (fs w) (fst entry) = Some (Fs.File size) ->
  existsb (Fs.isfile (fs w)) (Fs.prefixes (holding_dir (cfg w) user_name)) = false ->
  Fs.isdir (fs w) (Fs.join (holding_dir (cfg w) user_name) (Fs.basename (fst entry)))
  = false ->
  let out := Main.process_file user_name user_id sub_folder_id entry w in
  let dest := Fs.join (holding_dir (cfg w) user_name) (Fs.basename (fst entry)) in
  fst out = Ret tt
  /\ fs (snd out) !! dest = Some (Fs.File size)
  /\ (fst entry <> dest -> fs (snd out) !! fst entry = None).
Proof.
  intros Hup Hbad Hq Htq Hfile Hpre Hdst. cbv zeta.
  set (ct := default "application/octet-stream"%string
               (Main.content_types (Main.splitext_ext (Fs.basename (fst entry))))).
  pose proof (upload_file_keeps fs sub_folder_id (Fs.basename (fst entry)) (fst entry)
                ct user_id (fun _ _ => eq_refl) w) as Hfs.
  pose proof (upload_file_keeps cfg sub_folder_id (Fs.basename (fst entry)) (fst entry)
                ct user_id (fun _ _ => eq_refl) w) as Hcfg.
  pose proof (upload_file_keeps net sub_folder_id (Fs.basename (fst entry)) (fst entry)
                ct user_id (fun _ _ => eq_refl) w) as Hnet.
  unfold Main.process_file, upload_of, bind in *. fold ct in Hup |- *.
  destruct (upload_file _ _ _ _ _ w) as [r w1]. cbn in *. subst r. cbn.
  rewrite Hbad. cbn.
  set (w2 := record (Logged (UploadFailedFor (Fs.basename (fst entry)) user_name)) w1).
  assert (Hq2 : fst (get_remaining_space user_id w2) = Ret o).
  { rewrite <- Hq. apply get_remaining_space_by_net. exact Hnet. }
  destruct (quarantine_settled user_name user_id (fst entry) w2 o Hq2) as [Hr Hs].
  change (log (UploadFailedFor (Fs.basename (fst entry)) user_name) w1) with (Ret tt, w2).
  cbn. rewrite Hr, Hs. cbn [fs cfg w2 record].
  rewrite Hfs, Hcfg. unfold settled.
  destruct (TOTAL_QUOTA_MB (cfg w)); [|done].
  unfold Fs.makedirs at 1 2 3. rewrite Hpre.
  erewrite relocate; [| by unfold Fs.makedirs; rewrite Hpre | apply join_nonempty | done | done].
  cbn. split; [done|]. split.
  - apply lookup_insert_eq.
  - intros Hne. rewrite lookup_insert_ne by done. apply lookup_delete_eq.
Qed.

Lemma process_user_unresolved semester_folder user_name w :
  lookup_fails (net w (GetUsers user_name)) ->
  exists w', Main.process_user semester_folder user_name w = (Ret tt, w')
    /\ net w' = net w /\ fs w' = fs w /\ lms w' = lms w
    /\ requests_sent (trace w') = requests_sent (trace w) ++ [GetUsers user_name].
Proof.
  intros Hfail. destruct (get_user_id_gives_up w user_name Hfail) as [l Hid].
  unfold Main.process_user, bind. rewrite Hid. cbn [get_world fst snd].
  rewrite (get_or_create_folder_without_user _ None _ TypeError) by done.
  cbn. eexists. split; [done|]. cbn. split; [done|]. split; [done|]. split; [done|].
  by sent_simpl.
Qed.

Lemma for_each_unresolved semester_folder usernames : forall w,
  (forall u, u ∈ usernames -> lookup_fails (net w (GetUsers u))) ->
  exists w', for_each usernames (Main.process_user semester_folder) w = (Ret tt, w')
    /\ net w' = net w /\ fs w' = fs w /\ lms w' = lms w
    /\ requests_sent (trace w') = requests_sent (trace w) ++ map GetUsers usernames.
Proof.
  induction usernames as [|u us IH]; intros w Hall.
  - exists w. cbn. by rewrite app_nil_r.
  - destruct (process_user_unresolved semester_folder u w) as (w1 & E1 & N1 & F1 & L1 & R1).
    { apply Hall. by left. }
    destruct (IH w1) as (w2 & E2 & N2 & F2 & L2 & R2).
    { intros v Hv. rewrite N1. apply Hall. by right. }
    exists w2. cbn [for_each]. unfold bind. rewrite E1, E2.
    split; [done|]. split; [congruence|]. split; [congruence|]. split; [congruence|].
    rewrite R2, R1, <- app_assoc. done.
Qed.

(** Property X17.  When no recipient can be looked up, the dispatcher
    returns normally after one search per recipient, in the order given:
    nothing else is sent, and the file system and the platform's folders
    are unchanged. *)
Theorem unresolved_recipients_are_passed_over
    (semester_folder : list string) (usernames : list string) (w : world) :
  (forall u, u ∈ usernames -> lookup_fails (net w (GetUsers u))) ->
  let out :=
    Main.upload_user_files_to_canvas_based_on_quota semester_folder usernames w in
  fst out = Ret tt
  /\ requests_sent (trace (snd out)) = requests_sent (trace w) ++ map GetUsers usernames
  /\ fs (snd out) = fs w
  /\ lms (snd out) = lms w.
Proof.
  intros Hall. destruct (for_each_unresolved semester_folder usernames w Hall)
    as (w' & E & _ & F & L & R).
  unfold Main.upload_user_files_to_canvas_based_on_quota, try_except. rewrite E. done.
Qed.

Lemma separate_users_loop_runs usernames : forall w,
  (forall u, u ∈ usernames -> fst (get_user_id u w) <> Raise NotModelled) ->
  exists w', Main.separate_users_loop usernames w = (Ret tt, w')
    /\ net w' = net w /\ fs w' = fs w /\ lms w' = lms w
    /\ requests_sent (trace w') = requests_sent (trace w) ++ map GetUsers usernames.
Proof.
  induction usernames as [|u us IH]; intros w Hall.
  - exists w. cbn. by rewrite app_nil_r.
  - pose proof (Hall u ltac:(by left)) as Hu.
    pose proof (get_user_id_keeps net u (fun _ _ => eq_refl) w) as N1.
    pose proof (get_user_id_keeps fs u (fun _ _ => eq_refl) w) as F1.
    pose proof (get_user_id_keeps lms u (fun _ _ => eq_refl) w) as L1.
    pose proof (get_user_id_sends u w) as R1.
    cbn [Main.separate_users_loop]. unfold bind at 1.
    assert (Hbody : try_except any_exception
              (let* user_id := get_user_id u in
               if negb (truthy_id user_id) then ret tt else ret tt)
              (fun _ => ret tt) w = (Ret tt, snd (get_user_id u w))).
    { unfold try_except, bind, ret. destruct (get_user_id u w) as [[o|e] w1]; cbn in *.
      - by destruct (negb (truthy_id o)).
      - by destruct e. }
    rewrite Hbody. destruct (IH (snd (get_user_id u w))) as (w2 & E2 & N2 & F2 & L2 & R2).
    { intros v Hv. rewrite (get_user_id_by_net v w _ N1). apply Hall. by right. }
    exists w2. split; [done|]. split; [congruence|]. split; [congruence|].
    split; [congruence|]. rewrite R2, R1, <- app_assoc. done.
Qed.

(** Property X18.  [separate_users_based_on_quota] returns two empty
    lists whatever the lookups give, as long as they stay within the model:
    it sends one search per username, in order, and changes neither the file
    system nor the platform's folders. *)
Theorem separate_users_returns_empty_lists (usernames_set : list string) (w : world) :
  (forall u, u ∈ usernames_set -> fst (get_user_id u w) <> Raise NotModelled) ->
  let out := Main.separate_users_based_on_quota usernames_set w in
  fst out = Ret ([], [])
  /\ requests_sent (trace (snd out))
     = requests_sent (trace w) ++ map GetUsers usernames_set
  /\ fs (snd out) = fs w
  /\ lms (snd out) = lms w.
Proof.
  intros Hall. destruct (separate_users_loop_runs usernames_set w Hall)
    as (w' & E & _ & F & L & R).
  unfold Main.separate_users_based_on_quota, bind. rewrite E. done.
Qed.

Lemma select_files_adds P semester_folder user_name names :
  only_adds P (Main.select_files semester_folder user_name names).
Proof.
  induction names as [|file names IH]; cbn [Main.select_files]; [apply only_adds_ret|].
  apply only_adds_bind; [apply only_adds_lift|]. intros [m|]; [|exact IH].
  apply only_adds_bind; [apply only_adds_get_world|]. intros w.
  apply only_adds_bind; [apply only_adds_lift|]. intros size.
  apply only_adds_bind; [exact IH|]. intros others. apply only_adds_ret.
Qed.

Lemma process_user_searches names semester_folder user_name :
  user_name ∈ names ->
  only_adds (searches_within names) (Main.process_user semester_folder user_name).
Proof.
  intros Hin. unfold Main.process_user.
  apply only_adds_bind.
  { unfold get_user_id, send, log. repeat adds_step. }
  intros user_id. apply only_adds_bind; [apply only_adds_get_world|]. intros w. cbv zeta.
  apply only_adds_bind.
  { eapply only_adds_weaken; [|apply get_or_create_folder_unsent]. by intros []. }
  intros sub_folder_id. destruct (negb (truthy_folder sub_folder_id)).
  { unfold log. repeat adds_step. }
  apply only_adds_bind; [apply only_adds_get_world|]. intros w1.
  apply only_adds_bind; [apply only_adds_lift|]. intros listing.
  apply only_adds_bind; [apply select_files_adds|]. intros entries.
  apply only_adds_for_each. intros entry.
  unfold Main.process_file, Main.quarantine, upload_file, open_rb, QuotaManager,
    get_remaining_space, send, log. cbv zeta.
  repeat adds_step.
Qed.

(** Property X19.  Whatever the rows of the roster, [process_all_files]
    only adds to the trace, and every user search it sends is for an
    identifier that the extractor derives from the name of a regular file
    directly in the semester folder. *)
Theorem only_extracted_identifiers_are_searched
    (rows : list (string * string)) (semester_folder : list string) (w : world)
    (usernames : list string) :
  Main.extract_unique_usernames_from_files (fs w) semester_folder = Ret usernames ->
  let out := Main.process_all_files (Ret rows) semester_folder w in
  exists events,
    trace (snd out) = trace w ++ events
    /\ forall u, Sent (GetUsers u) ∈ events ->
         exists file,
           Fs.isfile (fs w) (Fs.join semester_folder file) = true
           /\ Main.username_of_file file = Ret (Some u).
Proof.
  intros Hex. cbv zeta.
  assert (Hcarried : forall u, u ∈ usernames -> exists file,
            Fs.isfile (fs w) (Fs.join semester_folder file) = true
            /\ Main.username_of_file file = Ret (Some u)).
  { unfold Main.extract_unique_usernames_from_files in Hex.
    destruct (Fs.listdir (fs w) semester_folder) as [entries|e]; [|done].
    destruct (collect_usernames_spec
      (filter (fun f => Fs.isfile (fs w) (Fs.join semester_folder f) = true) entries) ∅)
      as (out & Hc & Hout).
    rewrite Hc in Hex. injection Hex as <-. intros u Hu.
    apply elem_of_elements, Hout in Hu as [Hu|(f & Hf & E)]; [set_solver|].
    apply list_elem_of_filter in Hf as [Hfile _]. eauto. }
  assert (Hn : only_adds (searches_within usernames)
            (Main.upload_user_files_to_canvas_based_on_quota semester_folder usernames)).
  { unfold Main.upload_user_files_to_canvas_based_on_quota. apply only_adds_try.
    - apply only_adds_for_each_in. intros u Hu. by apply process_user_searches.
    - intros e. unfold log. repeat adds_step. }
  unfold Main.process_all_files, bind, get_world, lift. cbn [fst snd]. rewrite Hex.
  destruct (Hn w) as (evs & Ht & Hall). exists evs. split; [done|].
  intros u Hu. apply Hcarried.
  exact (proj1 (Forall_forall _ _) Hall _ Hu).
Qed.

Section WorkedDispatch.
Local Open Scope string_scope.

(** The theorem of property X14 at [report_alice.pdf]. *)
Lemma quarantine_needs_numeric_total_quota_witness :
  let out := Main.quarantine "alice" (Some 7%Z) alice_file world_without_total_quota in
  fst out = Ret tt
  /\ fs (snd out) = fs world_without_total_quota
  /\ requests_sent (trace (snd out)) = requests_sent (trace world_without_total_quota).
Proof. apply quarantine_needs_numeric_total_quota. reflexivity. Defined.

(** The theorem of property X15 at [report_alice.pdf], uploaded with
    201. *)
Lemma successful_upload_leaves_file_witness :
  let w := world_ex net_ok ["report_alice.pdf"] in
  let out := Main.process_file "alice" (Some 7%Z) (RId 43) (alice_file, 0%Q) w in
  fst out = Ret tt
  /\ snd out = snd (upload_of (Some 7%Z) (RId 43) (alice_file, 0%Q) w)
  /\ fs (snd out) = fs w.
Proof.
  apply (successful_upload_leaves_file "alice" (Some 7%Z) (RId 43) (alice_file, 0%Q)
           (world_ex net_ok ["report_alice.pdf"]) 201); reflexivity.
Defined.

(** The theorem of property X16 at [report_alice.pdf], refused with
    507. *)
Lemma refused_upload_moves_file_witness :
  let out := Main.process_file "alice" (Some 7%Z) (RId 43) (alice_file, 0%Q)
               (world_ex net_full ["report_alice.pdf"]) in
  fst out = Ret tt
  /\ fs (snd out) !! alice_held = Some (Fs.File 10%Z)
  /\ (alice_file <> alice_held -> fs (snd out) !! alice_file = None).
Proof.
  apply (refused_upload_moves_file "alice" (Some 7%Z) (RId 43) (alice_file, 0%Q)
           (world_ex net_full ["report_alice.pdf"]) 507 10
           (Some (Float.to_Q {| Float.mant := -100; Float.expo := -20 |})));
    [reflexivity | reflexivity | reflexivity | discriminate
    | reflexivity | reflexivity | reflexivity].
Defined.

(** The theorem of property X17 at [bob] and [carol], both unknown. *)
Lemma unresolved_recipients_are_passed_over_witness :
  let w := world_ex net_ok ["report_bob.pdf"; "report_carol.pdf"] in
  let out := Main.upload_user_files_to_canvas_based_on_quota ["sem"] ["bob"; "carol"] w in
  fst out = Ret tt
  /\ requests_sent (trace (snd out))
     = (requests_sent (trace w) ++ map GetUsers ["bob"; "carol"])%list
  /\ fs (snd out) = fs w
  /\ lms (snd out) = lms w.
Proof.
  apply unresolved_recipients_are_passed_over. intros u Hu.
  apply elem_of_cons in Hu as [->|Hu]; [left; reflexivity|].
  apply elem_of_cons in Hu as [->|Hu]; [left; reflexivity|].
  destruct (proj1 (elem_of_nil u) Hu).
Defined.

(** The theorem of property X18 at [alice], known, and [bob],
    unknown. *)
Lemma separate_users_returns_empty_lists_witness :
  let w := world_ex net_ok [] in
  let out := Main.separate_users_based_on_quota ["alice"; "bob"] w in
  fst out = Ret ([], [])
  /\ requests_sent (trace (snd out))
     = (requests_sent (trace w) ++ map GetUsers ["alice"; "bob"])%list
  /\ fs (snd out) = fs w
  /\ lms (snd out) = lms w.
Proof.
  apply separate_users_returns_empty_lists. intros u Hu.
  apply elem_of_cons in Hu as [->|Hu]; [discriminate|].
  apply elem_of_cons in Hu as [->|Hu]; [discriminate|].
  destruct (proj1 (elem_of_nil u) Hu).
Defined.

(** The theorem of property X19 at a folder with [report_alice.pdf] and
    [notes.txt]. *)
Lemma only_extracted_identifiers_are_searched_witness :
  let w := world_ex net_ok ["report_alice.pdf"; "notes.txt"] in
  let out := Main.process_all_files (Ret [("alice", "7")]) ["sem"] w in
  exists events,
    trace (snd out) = (trace w ++ events)%list
    /\ forall u, Sent (GetUsers u) ∈ events ->
         exists file,
           Fs.isfile (fs w) (Fs.join ["sem"] file) = true
           /\ Main.username_of_file file = Ret (Some u).
Proof.
  apply (only_extracted_identifiers_are_searched [("alice", "7")] ["sem"]
           (world_ex net_ok ["report_alice.pdf"; "notes.txt"]) ["alice"]).
  vm_compute. reflexivity.
Defined.

End WorkedDispatch.

End RunFacts.

(** ** The dispatcher: which files a recipient gets *)

Module SelectionFacts.
Import Re ReFacts ExtractorFacts.
Local Open Scope list_scope.

Lemma lex_plain_char c s :
  is_plain_char c = true ->
  lex None (c :: s) = push (cons (TAtom (AChar c))) (lex None s).
Proof.
  intros H. destruct c as [[] [] [] [] [] [] [] []];
    try (vm_compute in H; discriminate H); reflexivity.
Qed.

Lemma lex_plain l : forall s ts,
  forallb is_plain_char l = true ->
  lex None s = Compiled ts ->
  lex None (l ++ s) = Compiled (map (fun c => TAtom (AChar c)) l ++ ts).
Proof.
  induction l as [|c l IH]; intros s ts Hl Hs; [done|].
  cbn [forallb] in Hl. apply andb_true_iff in Hl as [Hc Hl].
  change ((c :: l) ++ s) with (c :: (l ++ s)).
  rewrite (lex_plain_char _ _ Hc), (IH _ _ Hl Hs). done.
Qed.

Lemma assemble_atoms atoms :
  assemble 0 (map TAtom atoms) = Compiled (map One atoms).
Proof.
  induction atoms as [|a atoms IH]; [done|].
  cbn [map assemble]. destruct atoms as [|b atoms]; [done|].
  cbn [map] in *. rewrite IH. done.
Qed.

Lemma compile_plain user_name :
  all_chars is_plain_char user_name = true ->
  compile (user_name +:+ ".pdf")
  = Compiled (map One (map AChar (list_ascii_of_string user_name)
                       ++ [AAny; AChar "p"; AChar "d"; AChar "f"]%char)).
Proof.
  intros Hu. unfold compile. rewrite chars_app.
  rewrite (lex_plain _ _ (map TAtom [AAny; AChar "p"; AChar "d"; AChar "f"]%char) Hu)
    by reflexivity.
  rewrite <- (map_map AChar TAtom), <- map_app. apply assemble_atoms.
Qed.

Lemma exec_atoms atoms : forall m st,
  In m (exec (map One atoms) st) <->
  exists matched, rest st = matched ++ rest m /\ marks m = marks st
    /\ Forall2 (fun a c => atom_ok a c = true) atoms matched.
Proof.
  induction atoms as [|a atoms IH]; intros m st.
  - cbn [map]. rewrite exec_nil. split.
    + intros ->. exists []. split; [done|]. split; [done|constructor].
    + intros (matched & Hr & Hm & Hall). inversion Hall; subst. cbn in Hr.
      destruct m, st; cbn in *; congruence.
  - cbn [map]. rewrite exec_One. split.
    + intros (c & s' & Hr & Hc & Hin). apply IH in Hin as (matched & Hr' & Hm & Hall).
      exists (c :: matched). cbn in *. rewrite Hr, Hr'. split; [done|]. split; [done|].
      by constructor.
    + intros (matched & Hr & Hm & Hall). inversion Hall as [|? c ? matched' Hc Hall']; subst.
      exists c, (matched' ++ rest m). split; [done|]. split; [done|].
      apply IH. exists matched'. done.
Qed.

Lemma search_atoms atoms s :
  is_Some (search_from (map One atoms) s) <->
  exists pre matched tail, s = pre ++ matched ++ tail
    /\ Forall2 (fun a c => atom_ok a c = true) atoms matched.
Proof.
  split.
  - intros [m Hm]. apply search_from_Some in Hm as (pre & s' & -> & Hm).
    apply head_Some_In, exec_atoms in Hm as (matched & Hr & _ & Hall). cbn in Hr.
    exists pre, matched, (rest m). by rewrite Hr.
  - intros (pre & matched & tail & -> & Hall). apply search_from_complete.
    apply head_is_Some_In. exists {| rest := tail; marks := [] |}.
    apply exec_atoms. exists matched. done.
Qed.

Lemma literal_run cs : forall matched,
  Forall2 (fun a c => atom_ok a c = true) (map AChar cs) matched <-> matched = cs.
Proof.
  induction cs as [|x cs IH]; intros matched; cbn [map].
  - split; [by inversion 1|intros ->; constructor].
  - split.
    + inversion 1 as [|? c ? matched' Hc Hall]; subst. cbn in Hc.
      apply Ascii.eqb_eq in Hc as ->. f_equal. by apply IH.
    + intros ->. constructor; [cbn; apply Ascii.eqb_refl|]. by apply IH.
Qed.

Lemma re_search_plain user_name file :
  all_chars is_plain_char user_name = true ->
  exists m, re_search (user_name +:+ ".pdf") file = Ret m
    /\ (is_Some m <-> names_recipient file user_name).
Proof.
  intros Hu. unfold re_search. rewrite (compile_plain _ Hu). eexists. split; [done|].
  rewrite search_atoms. split.
  - intros (pre & matched & tail & Hs & Hall).
    apply Forall2_app_inv_l in Hall as (m1 & m2 & H1 & H2 & ->).
    apply literal_run in H1 as ->.
    inversion H2 as [|? c ? m3 Hc H3]; subst.
    apply (literal_run ["p"; "d"; "f"]%char) in H3 as ->.
    exists (string_of_list_ascii pre), c, (string_of_list_ascii tail). split.
    + apply chars_inj. rewrite !chars_app. cbn [list_ascii_of_string].
      rewrite !chars_app, !chars_of_list, Hs. cbn. by rewrite <- !app_assoc.
    + cbn in Hc. intros ->. by rewrite Ascii.eqb_refl in Hc.
  - intros (before & c & after & -> & Hc).
    exists (list_ascii_of_string before),
      (list_ascii_of_string user_name ++ c :: ["p"; "d"; "f"]%char),
      (list_ascii_of_string after).
    split.
    + rewrite !chars_app. cbn [list_ascii_of_string]. rewrite !chars_app. cbn.
      by rewrite <- !app_assoc.
    + apply Forall2_app; [by apply literal_run|].
      constructor; [|by apply (literal_run ["p"; "d"; "f"]%char)].
      cbn. apply negb_true_iff, Ascii.eqb_neq. done.
Qed.

(** Property X20.  For an identifier of alphanumerics and hyphens, the
    list comprehension of the dispatcher selects, among names that exist in
    the semester folder, exactly those that contain the identifier followed
    by any one character other than a line break and then [pdf], wherever
    in the name: the world is unchanged, and a name such as [malicexpdf] is
    selected for [alice]. *)
Theorem selection_by_plain_identifier
    (semester_folder : list string) (user_name : string) (names : list string)
    (w : world) :
  all_chars is_plain_char user_name = true ->
  (forall file, file ∈ names ->
     Fs.exists_ (fs w) (Fs.join semester_folder file) = true) ->
  exists entries,
    Main.select_files semester_folder user_name names w = (Ret entries, w)
    /\ forall path, path ∈ map fst entries <->
         exists file, file ∈ names /\ path = Fs.join semester_folder file
                      /\ names_recipient file user_name.
Proof.
  intros Hu. induction names as [|file names IH]; intros Hex.
  - exists []. split; [done|]. intros path. cbn. split.
    + by intros ?%elem_of_nil.
    + intros (f & ?%elem_of_nil & _). done.
  - destruct IH as (entries & Hrun & Hsel).
    { intros f Hf. apply Hex. by right. }
    destruct (re_search_plain user_name file Hu) as (m & Hm & Hiff).
    cbn [Main.select_files]. unfold bind, lift, get_world, ret. rewrite Hm.
    destruct m as [m|].
    + assert (exists size, Fs.getsize (fs w) (Fs.join semester_folder file) = Ret size)
        as [size ->].
      { pose proof (Hex file ltac:(by left)) as He. unfold Fs.getsize, Fs.exists_ in *.
        destruct (Fs.lookup_node (fs w) _) as [[]|]; eauto; done. }
      rewrite Hrun. eexists. split; [done|]. intros path. cbn [map fst].
      rewrite elem_of_cons, Hsel. split.
      * intros [->|(f & Hf & -> & Hn)].
        -- exists file. split; [by left|]. split; [done|]. by apply Hiff.
        -- exists f. split; [by right|]. done.
      * intros (f & [->|Hf]%elem_of_cons & -> & Hn); [by left|]. right. eauto.
    + rewrite Hrun. exists entries. split; [done|]. intros path. rewrite Hsel. split.
      * intros (f & Hf & -> & Hn). exists f. split; [by right|]. done.
      * intros (f & [->|Hf]%elem_of_cons & -> & Hn); [|eauto].
        apply Hiff in Hn. by destruct Hn.
Qed.

Lemma splitext_pdf stem :
  forallb (fun x => Ascii.eqb x ".") (list_ascii_of_string stem) = false ->
  Main.splitext_ext (stem +:+ ".pdf") = ".pdf"%string.
Proof.
  intros Hs. unfold Main.splitext_ext.
  assert (E : (stem +:+ ".pdf")%string
              = string_of_list_ascii (list_ascii_of_string stem ++ "."%char :: ["p"; "d"; "f"]%char)).
  { apply chars_inj. by rewrite chars_app, chars_of_list. }
  rewrite E, rsplit_at by done. rewrite chars_of_list, Hs. done.
Qed.

Lemma rsplit_Some c s a b :
  Main.rsplit c s = Some (a, b) ->
  s = (a +:+ String c b)%string.
Proof.
  revert a. induction s as [|x s IH]; intros a; cbn; [done|].
  destruct (Main.rsplit c s) as [[a' b']|].
  - intros [= <- <-]. cbn. by rewrite (IH a' eq_refl).
  - destruct (Ascii.eqb x c) eqn:E; [|done]. intros [= <- <-].
    apply Ascii.eqb_eq in E as ->. done.
Qed.

(** Property X21.  The content type the dispatcher passes on is
    [application/pdf] exactly for the names that end in [.pdf], in lower
    case, after a stem that does not consist of dots only; every other name
    gets [application/octet-stream]. *)
Theorem pdf_content_type_iff_pdf_extension (name : string) :
  default "application/octet-stream"%string
    (Main.content_types (Main.splitext_ext name)) = "application/pdf"%string
  <-> exists stem,
        name = (stem +:+ ".pdf")%string
        /\ forallb (fun x => Ascii.eqb x ".") (list_ascii_of_string stem) = false.
Proof.
  split.
  - unfold Main.content_types, Main.splitext_ext.
    destruct (Main.rsplit "." name) as [[stem e]|] eqn:Hr; [|done].
    destruct (forallb _ (list_ascii_of_string stem)) eqn:Hs; [done|].
    destruct (String.eqb (String "." e) ".pdf") eqn:He; [|done].
    intros _. apply String.eqb_eq in He. injection He as ->.
    exists stem. split; [|done]. by apply rsplit_Some in Hr.
  - intros (stem & -> & Hs). by rewrite (splitext_pdf _ Hs).
Qed.

Section WorkedSelection.
Local Open Scope string_scope.

(** The theorem of property X20 at [alice] and three names. *)
Lemma selection_by_plain_identifier_witness :
  let names := ["report_alice.pdf"; "malicexpdf"; "alice.txt"] in
  exists entries,
    Main.select_files ["sem"] "alice" names (world_ex net_ok names)
    = (Ret entries, world_ex net_ok names)
    /\ forall path, path ∈ map fst entries <->
         exists file, file ∈ names /\ path = Fs.join ["sem"] file
                      /\ names_recipient file "alice".
Proof.
  apply selection_by_plain_identifier; [reflexivity|]. intros file Hf.
  apply elem_of_cons in Hf as [->|Hf]; [reflexivity|].
  apply elem_of_cons in Hf as [->|Hf]; [reflexivity|].
  apply elem_of_cons in Hf as [->|Hf]; [reflexivity|].
  destruct (proj1 (elem_of_nil file) Hf).
Defined.

End WorkedSelection.

End SelectionFacts.

(** ** The semester name of an archive *)

Module SettingsFacts.
Import ExtractorFacts.
Local Open Scope list_scope.

Lemma append_nil_l s : ("" +:+ s)%string = s.
Proof. done. Qed.

Lemma append_cons c a b : (String c a +:+ b)%string = String c (a +:+ b).
Proof. done. Qed.

Lemma append_nil_r s : (s +:+ "")%string = s.
Proof.
  induction s as [|c s IH]; [done|].
  change (String c (s +:+ "") = String c s). by rewrite IH.
Qed.

Lemma append_assoc a b c : ((a +:+ b) +:+ c)%string = (a +:+ (b +:+ c))%string.
Proof.
  induction a as [|x a IH]; [done|].
  change (String x ((a +:+ b) +:+ c) = String x (a +:+ (b +:+ c))). by rewrite IH.
Qed.

Lemma split_nonempty sep acc s : Settings.split sep acc s <> [].
Proof.
  revert acc. induction s as [|c s IH]; intros acc; cbn; [done|].
  destruct (Ascii.eqb c sep); [done|apply IH].
Qed.

Lemma split_free sep acc s :
  free_of sep s -> Settings.split sep acc s = [(acc +:+ s)%string].
Proof.
  unfold free_of. revert acc. induction s as [|c s IH]; intros acc;
    rewrite ?append_nil_l, ?append_cons; cbn [Settings.split list_ascii_of_string forallb].
  - intros _. by rewrite append_nil_r.
  - intros [Hc Hs]%andb_true_iff. apply negb_true_iff in Hc. rewrite Hc.
    rewrite (IH _ Hs), append_assoc. done.
Qed.

Lemma split_at sep acc a others :
  free_of sep a ->
  Settings.split sep acc (a +:+ String sep others)
  = (acc +:+ a)%string :: Settings.split sep EmptyString others.
Proof.
  unfold free_of. revert acc. induction a as [|c a IH]; intros acc;
    rewrite ?append_nil_l, ?append_cons; cbn [Settings.split list_ascii_of_string forallb].
  - intros _. by rewrite Ascii.eqb_refl, append_nil_r.
  - intros [Hc Ha]%andb_true_iff. apply negb_true_iff in Hc. rewrite Hc.
    rewrite (IH _ Ha), append_assoc. done.
Qed.

Lemma split_snoc sep acc s z :
  free_of sep z ->
  Settings.split sep acc (s +:+ String sep z) = Settings.split sep acc s ++ [z].
Proof.
  intros Hz. revert acc. induction s as [|c s IH]; intros acc;
    rewrite ?append_nil_l, ?append_cons; cbn [Settings.split list_ascii_of_string forallb].
  - rewrite Ascii.eqb_refl. by rewrite (split_free _ _ _ Hz).
  - destruct (Ascii.eqb c sep); [|apply IH]. by rewrite IH.
Qed.

Lemma join_split sep acc s :
  Settings.join (String sep EmptyString) (Settings.split sep acc s)
  = (acc +:+ s)%string.
Proof.
  revert acc. induction s as [|c s IH]; intros acc; cbn [Settings.split].
  - cbn. by rewrite append_nil_r.
  - destruct (Ascii.eqb c sep) eqn:E.
    + apply Ascii.eqb_eq in E as ->. cbn [Settings.join].
      destruct (Settings.split sep EmptyString s) as [|p ps] eqn:Hs.
      { by destruct (split_nonempty sep EmptyString s). }
      rewrite <- Hs, IH. done.
    + rewrite IH, append_assoc. done.
Qed.

Lemma removelast_snoc {A} (l : list A) x : removelast (l ++ [x]) = l.
Proof. apply removelast_last. Qed.

Lemma split_length sep acc s :
  length (Settings.split sep acc s)
  = S (length (filter (fun x => x = sep) (list_ascii_of_string s))).
Proof.
  revert acc. induction s as [|c s IH]; intros acc; cbn [Settings.split]; [done|].
  cbn [list_ascii_of_string]. destruct (Ascii.eqb c sep) eqn:E.
  - apply Ascii.eqb_eq in E as ->. rewrite filter_cons_True by done. cbn. by rewrite IH.
  - apply Ascii.eqb_neq in E. rewrite filter_cons_False by done. apply IH.
Qed.

(** Property X22.  For a key [<directory>/<first>_<middle>_<last>] whose
    first and last part hold no underscore, the semester name is the middle
    part, underscores included: the text between the first and the last
    underscore of the file name. *)
Theorem semester_name_between_first_and_last_underscore
    (directory first middle last_part : string) :
  free_of "_" first -> free_of "/" first ->
  free_of "/" middle ->
  free_of "_" last_part -> free_of "/" last_part ->
  Settings.semester_name
    (directory +:+ "/" +:+ first +:+ "_" +:+ middle +:+ "_" +:+ last_part)
  = Some middle.
Proof.
  intros Hf1 Hf2 Hm Hl1 Hl2. unfold Settings.semester_name.
  set (filename := (first +:+ "_" +:+ middle +:+ "_" +:+ last_part)%string).
  assert (Hfree : free_of "/" filename).
  { unfold free_of, filename in *. rewrite !chars_app, !forallb_app.
    cbn. rewrite Hf2, Hm, Hl2. done. }
  change (directory +:+ "/" +:+ first +:+ "_" +:+ middle +:+ "_" +:+ last_part)%string
    with (directory +:+ String "/" filename)%string.
  rewrite (split_snoc _ _ _ _ Hfree), last_snoc. cbn [default from_option id].
  unfold filename. change ("_" +:+ middle +:+ "_" +:+ last_part)%string
    with (String "_" (middle +:+ String "_" last_part)).
  rewrite (split_at _ _ _ _ Hf1), (split_snoc _ _ _ _ Hl1), append_nil_l.
  assert (Hlen : (3 <=? length (first :: Settings.split "_" "" middle ++ [last_part]))%nat
                 = true).
  { apply Nat.leb_le. cbn. rewrite length_app. cbn.
    destruct (Settings.split "_" "" middle) eqn:E; [by destruct (split_nonempty "_" "" middle)|].
    cbn. lia. }
  rewrite Hlen. unfold Settings.slice_1_m1. cbn [tail].
  rewrite removelast_snoc, (join_split "_" "" middle). by rewrite append_nil_l.
Qed.

(** Property X23.  For a key without directory part, the semester name is
    [None] exactly when the name holds fewer than two underscores. *)
Theorem semester_name_needs_two_underscores (key : string) :
  free_of "/" key ->
  Settings.semester_name key = None
  <-> (length (filter (fun x => x = "_"%char) (list_ascii_of_string key)) < 2)%nat.
Proof.
  intros Hk. unfold Settings.semester_name.
  rewrite (split_free _ _ _ Hk). cbn [last default from_option id]; rewrite append_nil_l.
  rewrite split_length. destruct (Nat.leb_spec 3 (S (length
    (filter (fun x => x = "_"%char) (list_ascii_of_string key))))); split; try done; lia.
Qed.

Section WorkedSettings.
Local Open Scope string_scope.

(** The theorem of property X22 at
    [i-0646aca9bcf24dacc/evals_Fall_2023_final.zip]. *)
Lemma semester_name_between_first_and_last_underscore_witness :
  Settings.semester_name "i-0646aca9bcf24dacc/evals_Fall_2023_final.zip"
  = Some "Fall_2023".
Proof.
  apply (semester_name_between_first_and_last_underscore
           "i-0646aca9bcf24dacc" "evals" "Fall_2023" "final.zip"); reflexivity.
Defined.

(** The theorem of property X23 at [evals_2023.zip]. *)
Lemma semester_name_needs_two_underscores_witness :
  Settings.semester_name "evals_2023.zip" = None
  <-> (length (filter (fun x => x = "_"%char) (list_ascii_of_string "evals_2023.zip")) < 2)%nat.
Proof. apply semester_name_needs_two_underscores. reflexivity. Defined.

End WorkedSettings.

End SettingsFacts.
